(** * TTVideoMaker: the ledger, the adapters around the external tools and
      the pipeline that drives them

    A shallow embedding of [utils.py], [editor.py], [scraper.py] and of the
    worker of [main.py].  Python text is a [string] whose characters are the
    code points below 256; the file system is a finite map from path names
    to files; the external programs (yt-dlp, ffprobe, ffmpeg) and the
    browser are functions supplied by the environment; Python exceptions are
    an explicit result, and the queue messages, the printed lines and the
    process events are collected in a chronological trace. *)

From Stdlib Require Import ZArith Ascii String List Bool Lia.
From Stdlib Require Import Floats.SpecFloat.
From stdpp Require Import base gmap strings list.

Local Open Scope Z_scope.

(** ** Python text *)

Module PyStr.

Definition LF : ascii := ascii_of_nat 10.
Definition CR : ascii := ascii_of_nat 13.

(** [str.isspace] on one character, for the code points below 256. *)
Definition isspace (c : ascii) : bool :=
  let n := N_of_ascii c in
  ((9 <=? n) && (n <=? 13) || (28 <=? n) && (n <=? 32)
   || (n =? 133) || (n =? 160))%N.

(** [str.isdigit] on one character, for the code points below 256: the
    ten decimal digits and the superscripts two, three and one. *)
Definition isdigit_char (c : ascii) : bool :=
  let n := N_of_ascii c in
  ((48 <=? n) && (n <=? 57) || (n =? 178) || (n =? 179) || (n =? 185))%N.

Definition truthy (s : string) : bool :=
  match s with EmptyString => false | String _ _ => true end.

Fixpoint lstrip (s : string) : string :=
  match s with
  | EmptyString => EmptyString
  | String c s' => if isspace c then lstrip s' else s
  end.

Fixpoint rstrip (s : string) : string :=
  match s with
  | EmptyString => EmptyString
  | String c s' =>
      match rstrip s' with
      | EmptyString => if isspace c then EmptyString else String c EmptyString
      | r => String c r
      end
  end.

(** [s.strip()] *)
Definition strip (s : string) : string := lstrip (rstrip s).

Fixpoint all_chars (p : ascii -> bool) (s : string) : bool :=
  match s with
  | EmptyString => true
  | String c s' => p c && all_chars p s'
  end.

(** [s.isdigit()]: at least one character, and all of them digits. *)
Definition isdigit (s : string) : bool := truthy s && all_chars isdigit_char s.

(** [sub in s] for a one-character [sub]. *)
Fixpoint contains_char (c : ascii) (s : string) : bool :=
  match s with
  | EmptyString => false
  | String d s' => if Ascii.eqb c d then true else contains_char c s'
  end.

Fixpoint startswith (s sub : string) : bool :=
  match sub, s with
  | EmptyString, _ => true
  | String c sub', String d s' => Ascii.eqb c d && startswith s' sub'
  | String _ _, EmptyString => false
  end.

(** [sub in s] *)
Fixpoint contains (sub s : string) : bool :=
  startswith s sub ||
  match s with
  | EmptyString => false
  | String _ s' => contains sub s'
  end.

(** [s.split(sep)] for a one-character separator. *)
Fixpoint split (sep : ascii) (s : string) : list string :=
  match s with
  | EmptyString => [EmptyString]
  | String c s' =>
      if Ascii.eqb c sep then EmptyString :: split sep s'
      else match split sep s' with
           | [] => [String c EmptyString]
           | p :: ps => String c p :: ps
           end
  end.

(** Iterating over a file opened in text mode: the lines, each with its
    terminator; a carriage return and a carriage return followed by a
    line feed both end a line and are read as a line feed. *)
Fixpoint readlines (s : string) : list string :=
  match s with
  | EmptyString => []
  | String c s' =>
      if Ascii.eqb c LF then String LF EmptyString :: readlines s'
      else if Ascii.eqb c CR then
        String LF EmptyString ::
          match s' with
          | String d s'' => if Ascii.eqb d LF then readlines s'' else readlines s'
          | EmptyString => []
          end
      else match readlines s' with
           | [] => [String c EmptyString]
           | l :: ls => String c l :: ls
           end
  end.

(** [",".join(l)] and friends. *)
Fixpoint join (sep : string) (l : list string) : string :=
  match l with
  | [] => EmptyString
  | [x] => x
  | x :: l' => x +:+ sep +:+ join sep l'
  end.

(** [str(n)] for an integer. *)
Definition digit_char (d : Z) : ascii := ascii_of_N (Z.to_N (48 + d)).

Fixpoint show_pos_fuel (fuel : nat) (n : Z) (acc : string) : string :=
  match fuel with
  | O => acc
  | S fuel' =>
      let acc' := String (digit_char (n mod 10)) acc in
      if n <? 10 then acc' else show_pos_fuel fuel' (n / 10) acc'
  end.

Definition show_Z (n : Z) : string :=
  if n <? 0 then String "-"%char (show_pos_fuel (Z.to_nat (Z.log2 (- n)) + 1) (- n) EmptyString)
  else show_pos_fuel (Z.to_nat (Z.log2 n) + 1) n EmptyString.

(** [int(s)] for a string: surrounding white space is dropped, one sign is
    allowed, and single underscores may separate the decimal digits. *)
Definition dec_digit (c : ascii) : option Z :=
  let n := N_of_ascii c in
  if ((48 <=? n) && (n <=? 57))%N then Some (Z.of_N n - 48) else None.

Definition is_underscore (c : ascii) : bool := Ascii.eqb c "_"%char.

(** [parse_digits acc after_digit s]: [after_digit] says that the previous
    character was a digit, so that an underscore may follow. *)
Fixpoint parse_digits (acc : Z) (after_digit : bool) (s : string) : option Z :=
  match s with
  | EmptyString => if after_digit then Some acc else None
  | String c s' =>
      match dec_digit c with
      | Some d => parse_digits (10 * acc + d) true s'
      | None =>
          if is_underscore c && after_digit then parse_digits acc false s'
          else None
      end
  end.

Definition int_of_string (s : string) : option Z :=
  match strip s with
  | String c s' =>
      if Ascii.eqb c "-"%char then Z.opp <$> parse_digits 0 false s'
      else if Ascii.eqb c "+"%char then parse_digits 0 false s'
      else parse_digits 0 false (String c s')
  | EmptyString => None
  end.

End PyStr.

Module PyList.

(** [l[:n]] *)
Definition slice_to {A} (n : Z) (l : list A) : list A :=
  if n <? 0 then take (length l - Z.to_nat (- n))%nat l
  else take (Z.to_nat n) l.

End PyList.

(** ** Path names ([os.path], POSIX flavour) *)

Module OsPath.

Definition SEP : ascii := "/"%char.

(** [p[:p.rfind('/') + 1]]: the part of [p] up to and including its last
    separator, [None] when there is no separator. *)
Fixpoint upto_last_sep (p : string) : option string :=
  match p with
  | EmptyString => None
  | String c p' =>
      match upto_last_sep p' with
      | Some h => Some (String c h)
      | None => if Ascii.eqb c SEP then Some (String SEP EmptyString) else None
      end
  end.

Fixpoint rstrip_sep (s : string) : string :=
  match s with
  | EmptyString => EmptyString
  | String c s' =>
      match rstrip_sep s' with
      | EmptyString => if Ascii.eqb c SEP then EmptyString else String c EmptyString
      | r => String c r
      end
  end.

(** [os.path.dirname] *)
Definition dirname (p : string) : string :=
  match upto_last_sep p with
  | None => EmptyString
  | Some head =>
      if PyStr.all_chars (Ascii.eqb SEP) head then head else rstrip_sep head
  end.

Fixpoint ends_with_sep (s : string) : bool :=
  match s with
  | EmptyString => false
  | String c EmptyString => Ascii.eqb c SEP
  | String _ s' => ends_with_sep s'
  end.

Definition starts_with_sep (s : string) : bool :=
  match s with
  | String c _ => Ascii.eqb c SEP
  | EmptyString => false
  end.

(** [os.path.join(a, b)] *)
Definition join (a b : string) : string :=
  if starts_with_sep b then b
  else if negb (PyStr.truthy a) || ends_with_sep a then a +:+ b
  else a +:+ String SEP b.

End OsPath.

(** ** Exceptions, the world and the monad of effects *)

Inductive exn_class :=
| FileNotFoundError | PermissionError | TimeoutExpired | ValueError
| OverflowError | UnboundLocalError | TypeError | OtherException.

Record exn := Exn { exn_cls : exn_class; exn_text : string }.

(** [isinstance(e, OSError)] *)
Definition is_OSError (e : exn) : bool :=
  match exn_cls e with
  | FileNotFoundError | PermissionError => true
  | _ => false
  end.

Definition is_class (c : exn_class) (e : exn) : bool :=
  match c, exn_cls e with
  | FileNotFoundError, FileNotFoundError | PermissionError, PermissionError
  | TimeoutExpired, TimeoutExpired | ValueError, ValueError
  | OverflowError, OverflowError | UnboundLocalError, UnboundLocalError
  | TypeError, TypeError | OtherException, OtherException => true
  | _, _ => false
  end.

(** A regular file: its text and whether this process may open it for
    reading and for writing. *)
Record file := File { f_data : string; f_readable : bool; f_writable : bool }.

(** The tagged messages put on the queue between the worker and the GUI. *)
Inductive qmsg :=
| LOG (text level : string)
| STATUS_UPDATE (text : string)
| PROGRESS_UPDATE (done total : nat)
| TASK_COMPLETE (text : string)
| TASK_FAILED (text : string).

Inductive event :=
| EvPut (m : qmsg)              (* log_queue.put(m) *)
| EvPrint (line : string)       (* print(line) *)
| EvPopen (cmd : list string)   (* subprocess.Popen(cmd, ...) was called *)
| EvKill (prog : string)        (* process.kill() *)
| EvDriver (what : string).     (* a call on the browser driver *)

(** The world: the files by path name, and the trace of what the program
    has done so far, oldest event first.  Directories are not tracked. *)
Record world := World { files : gmap string file; trace : list event }.

Inductive res (A : Type) :=
| Ok (a : A)
| Raise (e : exn).
Arguments Ok {A} a.
Arguments Raise {A} e.

Definition M (A : Type) : Type := world -> res A * world.

Definition ret {A} (a : A) : M A := fun w => (Ok a, w).
Definition raise {A} (e : exn) : M A := fun w => (Raise e, w).
Definition bind {A B} (m : M A) (k : A -> M B) : M B :=
  fun w => match m w with
           | (Ok a, w') => k a w'
           | (Raise e, w') => (Raise e, w')
           end.
(** [try: m except ...: h e]; the handler re-raises what it does not catch. *)
Definition try_except {A} (m : M A) (h : exn -> M A) : M A :=
  fun w => match m w with
           | (Ok a, w') => (Ok a, w')
           | (Raise e, w') => h e w'
           end.
(** [try: m finally: f] *)
Definition try_finally {A} (m : M A) (f : M unit) : M A :=
  fun w => match m w with
           | (r, w') => match f w' with
                        | (Ok _, w'') => (r, w'')
                        | (Raise e, w'') => (Raise e, w'')
                        end
           end.

Notation "'let*' x := m 'in' k" := (bind m (fun x => k))
  (at level 10, x name, m at level 100, k at level 200).
Notation "m ;; k" := (bind m (fun _ => k))
  (at level 100, k at level 200, right associativity).

Definition emit (e : event) : M unit :=
  fun w => (Ok tt, World (files w) (trace w ++ [e])).

Definition print (line : string) : M unit := emit (EvPrint line).

Definition when (b : bool) (m : M unit) : M unit := if b then m else ret tt.

(** ** The file system calls the program makes *)

Module Os.

Definition lookup (p : string) (w : world) : option file :=
  if PyStr.truthy p then files w !! p else None.

(** [os.path.exists(p)] *)
Definition exists_ (p : string) : M bool :=
  fun w => (Ok (bool_decide (is_Some (lookup p w))), w).

(** [os.path.getsize(p)] *)
Definition getsize (p : string) : M Z :=
  fun w => match lookup p w with
           | Some f => (Ok (Z.of_nat (String.length (f_data f))), w)
           | None => (Raise (Exn FileNotFoundError "[Errno 2] No such file or directory"), w)
           end.

(** [os.remove(p)] *)
Definition remove (p : string) : M unit :=
  fun w => match lookup p w with
           | Some _ => (Ok tt, World (delete p (files w)) (trace w))
           | None => (Raise (Exn FileNotFoundError "[Errno 2] No such file or directory"), w)
           end.

(** [os.makedirs(name, exist_ok=True)]: the empty name is refused; any
    other directory is taken to be there or to be created. *)
Definition makedirs (name : string) : M unit :=
  if PyStr.truthy name then ret tt
  else raise (Exn FileNotFoundError "[Errno 2] No such file or directory: ''").

(** [with open(p, "r", encoding="utf-8") as f]: the whole text. *)
Definition read_text (p : string) : M string :=
  fun w => match lookup p w with
           | Some f =>
               if f_readable f then (Ok (f_data f), w)
               else (Raise (Exn PermissionError "[Errno 13] Permission denied"), w)
           | None => (Raise (Exn FileNotFoundError "[Errno 2] No such file or directory"), w)
           end.

(** [with open(p, "a", encoding="utf-8") as f: f.write(text)] *)
Definition append_text (p text : string) : M unit :=
  fun w => if PyStr.truthy p then
             match files w !! p with
             | Some f =>
                 if f_writable f
                 then (Ok tt, World (<[p := File (f_data f +:+ text) (f_readable f) true]> (files w)) (trace w))
                 else (Raise (Exn PermissionError "[Errno 13] Permission denied"), w)
             | None => (Ok tt, World (<[p := File text true true]> (files w)) (trace w))
             end
           else (Raise (Exn FileNotFoundError "[Errno 2] No such file or directory"), w).

End Os.

(** ** utils.py *)

Module utils.

Definition PROCESSED_VIDEOS_FILE : string := OsPath.join "data" "processed_videos.txt".

(** [set(line.strip() for line in f if line.strip())] *)
Definition ids_of_text (data : string) : gset string :=
list_to_set (filter (fun l => PyStr.truthy l = true) (PyStr.strip <$> PyStr.readlines data)).

Definition get_processed_videos (filepath : string) : M (gset string) :=
let* ex := Os.exists_ filepath in
if negb ex then
  Os.makedirs (OsPath.dirname filepath) ;;
  ret ∅
else
  try_except
    (let* data := Os.read_text filepath in
     ret (ids_of_text data))
    (fun e =>
       print ("Error loading processed videos: " +:+ exn_text e) ;;
       ret ∅).

Definition add_processed_video (video_id filepath : string) : M bool :=
try_except
  (Os.makedirs (OsPath.dirname filepath) ;;
   Os.append_text filepath (video_id +:+ String PyStr.LF EmptyString) ;;
   ret true)
  (fun e =>
     print ("Error adding processed video: " +:+ exn_text e) ;;
     ret false).

Definition is_video_processed (video_id filepath : string) : M bool :=
let* processed_videos := get_processed_videos filepath in
ret (bool_decide (video_id ∈ processed_videos)).

End utils.

(** ** Python numbers: [float] is IEEE 754 binary64 *)

Module PyFloat.

Definition prec : Z := 53.
Definition emax : Z := 1024.

(** [float(z)]: the nearest double; [None] is Python's [OverflowError]. *)
Definition of_Z (z : Z) : option spec_float :=
  match binary_normalize prec emax z 0 false with
  | S754_infinity _ => None
  | f => Some f
  end.

Definition mul : spec_float -> spec_float -> spec_float := SFmul prec emax.
Definition div : spec_float -> spec_float -> spec_float := SFdiv prec emax.
Definition ltb : spec_float -> spec_float -> bool := SFltb.

Definition zero : spec_float := S754_zero false.
(** 50.0 = 25 * 2^1 and 100.0 = 25 * 2^2, in canonical form. *)
Definition fifty : spec_float := binary_normalize prec emax 50 0 false.
Definition hundred : spec_float := binary_normalize prec emax 100 0 false.

(** [int(f)]: truncation toward zero. *)
Definition trunc (f : spec_float) : res Z :=
  match f with
  | S754_zero _ => Ok 0
  | S754_finite s m e =>
      let a := match e with
               | Zneg k => Z.shiftr (Zpos m) (Zpos k)
               | _ => Z.shiftl (Zpos m) e
               end in
      Ok (if s then - a else a)
  | S754_infinity _ => Raise (Exn OverflowError "cannot convert float infinity to integer")
  | S754_nan => Raise (Exn ValueError "cannot convert float NaN to integer")
  end.

End PyFloat.

(** The values an [edits] dictionary may hold. *)
Inductive pyval :=
| PyNone
| PyBool (b : bool)
| PyInt (z : Z)
| PyFloat (f : spec_float)
| PyText (s : string).

Inductive num := NInt (z : Z) | NFloat (f : spec_float).

Module PyVal.

(** [bool(v)] *)
Definition truthy (v : pyval) : bool :=
  match v with
  | PyNone => false
  | PyBool b => b
  | PyInt z => negb (z =? 0)
  | PyFloat (S754_zero _) => false
  | PyFloat _ => true
  | PyText s => PyStr.truthy s
  end.

(** The value as a number; [None] for the values that make an ordering
    comparison with an integer raise [TypeError]. *)
Definition as_num (v : pyval) : option num :=
  match v with
  | PyBool b => Some (NInt (if b then 1 else 0))
  | PyInt z => Some (NInt z)
  | PyFloat f => Some (NFloat f)
  | PyNone | PyText _ => None
  end.

(** [x > 0] *)
Definition gt_0 (x : num) : bool :=
  match x with
  | NInt z => 0 <? z
  | NFloat f => PyFloat.ltb PyFloat.zero f
  end.

(** [x < 50] *)
Definition lt_50 (x : num) : bool :=
  match x with
  | NInt z => z <? 50
  | NFloat f => PyFloat.ltb f PyFloat.fifty
  end.

(** [x / 100.0] *)
Definition div_100 (x : num) : res spec_float :=
  match x with
  | NInt z =>
      match PyFloat.of_Z z with
      | Some f => Ok (PyFloat.div f PyFloat.hundred)
      | None => Raise (Exn OverflowError "int too large to convert to float")
      end
  | NFloat f => Ok (PyFloat.div f PyFloat.hundred)
  end.

(** [n * f] for an integer [n] and a float [f] *)
Definition int_mul_float (n : Z) (f : spec_float) : res spec_float :=
  match PyFloat.of_Z n with
  | Some g => Ok (PyFloat.mul g f)
  | None => Raise (Exn OverflowError "int too large to convert to float")
  end.

End PyVal.

(** ** External programs *)

(** What running a command comes to.  [post] is the state in which the
    program leaves the one file it is told to write ([None]: no file there);
    when the time runs out it is what has been written by then. *)
Inductive proc_outcome :=
| SpawnRaises (e : exn)
| Exits (returncode : Z) (stdout stderr : string) (post : option file)
| TimesOut (stdout stderr : string) (post : option file).

(** One element found on the page: reading its [href] gives a string, gives
    nothing, or raises. *)
Inductive element :=
| Href (url : option string)
| HrefRaises (e : exn).

(** One round of scrolling: the script or the sleep raises, or the page is
    searched for the video links, which raises or gives the elements. *)
Inductive scroll_outcome :=
| ScrollRaises (e : exn)
| FindRaises (e : exn)
| Found (elements : list element).

(** The browser session that [webdriver.Chrome] hands back. *)
Record driver := Driver {
  drv_get : string -> option exn;         (* driver.get(url) *)
  drv_wait_feed : option exn;             (* WebDriverWait(driver, 45).until(...) *)
  drv_scroll : nat -> scroll_outcome;     (* the i-th scroll and search *)
  drv_quit : option exn                   (* driver.quit() *)
}.

(** The environment of a run. *)
Record env := Env {
  which_ffmpeg : bool;                          (* shutil.which("ffmpeg") is not None *)
  run : list string -> world -> proc_outcome;   (* a command, started in a world *)
  chrome : option driver;                       (* what setup_driver gets, if anything *)
  chrome_error : string;                        (* the text of the error otherwise *)
  urlparse_path : string -> res string;         (* urllib.parse.urlparse(url).path *)
  stop_is_set : nat -> bool                     (* stop_event.is_set() before item i *)
}.

Module Subprocess.

(** A [Popen] object: the program, the file it writes and its fate. *)
Record popen := Proc { p_prog : string; p_writes : option string; p_fate : proc_outcome }.

(** [subprocess.Popen(cmd, stdout=PIPE, stderr=PIPE, text=True)] *)
Definition Popen (E : env) (cmd : list string) (writes : option string) : M popen :=
  fun w =>
    let w' := World (files w) (trace w ++ [EvPopen cmd]) in
    match run E cmd w with
    | SpawnRaises e => (Raise e, w')
    | fate => (Ok (Proc (default "" (head cmd)) writes fate), w')
    end.

Definition leave_file (writes : option string) (post : option file) : M unit :=
  fun w =>
    match writes with
    | Some p =>
        if PyStr.truthy p
        then (Ok tt, World (match post with
                            | Some f => <[p := f]> (files w)
                            | None => delete p (files w)
                            end) (trace w))
        else (Ok tt, w)
    | None => (Ok tt, w)
    end.

(** [process.communicate(timeout=...)] *)
Definition communicate (p : popen) : M (string * string) :=
  match p_fate p with
  | Exits _ out err post => leave_file (p_writes p) post ;; ret (out, err)
  | TimesOut _ _ post =>
      leave_file (p_writes p) post ;;
      raise (Exn TimeoutExpired "Command timed out")
  | SpawnRaises e => raise e
  end.

(** [process.returncode] after [communicate] *)
Definition returncode (p : popen) : Z :=
  match p_fate p with
  | Exits rc _ _ _ => rc
  | _ => -9
  end.

(** [process.poll() is None]: the process is still running. *)
Definition running (p : popen) : bool :=
  match p_fate p with
  | TimesOut _ _ _ => true
  | _ => false
  end.

(** [process.kill()] *)
Definition kill (p : popen) : M unit := emit (EvKill (p_prog p)).

(** [process.communicate()] once the process has been killed *)
Definition communicate_killed (p : popen) : M (string * string) :=
  match p_fate p with
  | Exits _ out err _ | TimesOut out err _ => ret (out, err)
  | SpawnRaises e => raise e
  end.

End Subprocess.

(** What a [try] body comes to, as a value. *)
Definition attempt {A} (m : M A) : M (res A) :=
  fun w => match m w with (r, w') => (Ok r, w') end.

Definition lift {A} (r : res A) : M A := fun w => (r, w).

(** ** editor.py *)

Module editor.

Definition EDITED_VIDEOS_DIR : string := "edited_videos".

Definition _log (message level : string) (log_queue : bool) : M unit :=
  if log_queue then emit (EvPut (LOG message level))
  else print ("[" +:+ level +:+ "] " +:+ message).

(** [if log_queue: log_queue.put(("STATUS_UPDATE", text))] *)
Definition put_status (text : string) (log_queue : bool) : M unit :=
  when log_queue (emit (EvPut (STATUS_UPDATE text))).

Definition check_ffmpeg (E : env) : bool := which_ffmpeg E.

(** The documented default of [edits]. *)
Definition default_edits : gmap string pyval :=
  <["mirror" := PyBool true]> (<["crop_percent" := PyInt 2]> ∅).

Definition ffprobe_cmd (input_video_path : string) : list string :=
  ["ffprobe"; "-v"; "error"; "-select_streams"; "v:0";
   "-show_entries"; "stream=width,height"; "-of"; "csv=s=x:p=0";
   input_video_path].

Definition int_or_raise (s : string) : res Z :=
  match PyStr.int_of_string s with
  | Some z => Ok z
  | None => Raise (Exn ValueError ("invalid literal for int() with base 10: '" +:+ s +:+ "'"))
  end.

(** [original_width, original_height = map(int, text.strip().split('x'))] *)
Definition parse_dimensions (text : string) : res (Z * Z) :=
  match PyStr.split "x" (PyStr.strip text) with
  | [] => Raise (Exn ValueError "not enough values to unpack (expected 2, got 0)")
  | [a] =>
      match int_or_raise a with
      | Ok _ => Raise (Exn ValueError "not enough values to unpack (expected 2, got 1)")
      | Raise e => Raise e
      end
  | [a; b] =>
      match int_or_raise a with
      | Ok w => match int_or_raise b with
                | Ok h => Ok (w, h)
                | Raise e => Raise e
                end
      | Raise e => Raise e
      end
  | a :: b :: c :: _ =>
      match int_or_raise a with
      | Ok _ => match int_or_raise b with
                | Ok _ => match int_or_raise c with
                          | Ok _ => Raise (Exn ValueError "too many values to unpack (expected 2)")
                          | Raise e => Raise e
                          end
                | Raise e => Raise e
                end
      | Raise e => Raise e
      end
  end.

(** [int(dim * (crop_percent / 100.0))] *)
Definition crop_each_side (dim : Z) (crop_percent : num) : res Z :=
  match PyVal.div_100 crop_percent with
  | Ok q =>
      match PyVal.int_mul_float dim q with
      | Ok p => PyFloat.trunc p
      | Raise e => Raise e
      end
  | Raise e => Raise e
  end.

(** [x if x % 2 == 0 else x - 1] *)
Definition make_even (x : Z) : Z := if x mod 2 =? 0 then x else x - 1.

Definition crop_filter_text (out_w out_h offset_x offset_y : Z) : string :=
  "crop=" +:+ PyStr.show_Z out_w +:+ ":" +:+ PyStr.show_Z out_h +:+ ":"
  +:+ PyStr.show_Z offset_x +:+ ":" +:+ PyStr.show_Z offset_y.

(** Lines 80-82: the filters added for the [mirror] option. *)
Definition mirror_stage (edits : gmap string pyval) (log_queue : bool) : M (list string) :=
  if from_option PyVal.truthy false (edits !! "mirror") then
    _log "Applying horizontal flip (mirroring) with FFmpeg..." "DEBUG" log_queue ;;
    ret ["hflip"]
  else ret [].

(** Lines 85-104: the filters added for the [crop_percent] option. *)
Definition crop_stage (edits : gmap string pyval) (video_id : string)
    (original_width original_height : Z) (log_queue : bool) : M (list string) :=
  let crop_percent := default (PyInt 0) (edits !! "crop_percent") in
  match PyVal.as_num crop_percent with
  | None => raise (Exn TypeError "'>' not supported between instances")
  | Some crop_percent =>
      if PyVal.gt_0 crop_percent && PyVal.lt_50 crop_percent then
        let* crop_w_each_side := lift (crop_each_side original_width crop_percent) in
        let* crop_h_each_side := lift (crop_each_side original_height crop_percent) in
        let out_w := original_width - 2 * crop_w_each_side in
        let out_h := original_height - 2 * crop_h_each_side in
        let offset_x := crop_w_each_side in
        let offset_y := crop_h_each_side in
        let out_w := make_even out_w in
        let out_h := make_even out_h in
        if (out_w <=? 0) || (out_h <=? 0) then
          _log ("Crop dimensions result in invalid output size for " +:+ video_id
                +:+ ". Skipping crop.") "WARNING" log_queue ;;
          ret []
        else
          let crop_filter := crop_filter_text out_w out_h offset_x offset_y in
          _log ("Applying crop with FFmpeg: " +:+ crop_filter) "DEBUG" log_queue ;;
          ret [crop_filter]
      else ret []
  end.

(** Lines 77-104: [video_filters] *)
Definition video_filters (edits : gmap string pyval) (video_id : string)
    (original_width original_height : Z) (log_queue : bool) : M (list string) :=
  let* m := mirror_stage edits log_queue in
  let* c := crop_stage edits video_id original_width original_height log_queue in
  ret (m ++ c).

Definition ffmpeg_cmd (input_video_path : string) (video_filters : list string)
    (output_video_path : string) : list string :=
  ["ffmpeg"; "-y"; "-i"; input_video_path]
  ++ (match video_filters with
      | [] => []
      | _ => ["-vf"; PyStr.join "," video_filters]
      end)
  ++ ["-c:v"; "libx264"; "-preset"; "medium"; "-crf"; "23";
      "-c:a"; "aac"; "-b:a"; "128k"; output_video_path].

Definition output_path (video_id : string) : string :=
  OsPath.join EDITED_VIDEOS_DIR (video_id +:+ "_edited_ffmpeg.mp4").

(** [if os.path.exists(p): try: os.remove(p) except OSError as e: _log(...)] *)
Definition remove_if_exists_logged (p what : string) (log_queue : bool) : M unit :=
  let* ex := Os.exists_ p in
  when ex
    (try_except (Os.remove p)
       (fun e => if is_OSError e
                 then _log (what +:+ exn_text e) "WARNING" log_queue
                 else raise e)).

(** Lines 53-123: the body of the [try] up to the moment [process] is
    bound.  [inl v] is a [return v] met on the way. *)
Definition before_transcode (E : env) (input_video_path video_id : string)
    (edits : gmap string pyval) (log_queue : bool)
    : M (option string + Subprocess.popen) :=
  let output_video_path := output_path video_id in
  _log ("Starting FFmpeg editing for: " +:+ input_video_path) "INFO" log_queue ;;
  put_status ("Editing video " +:+ video_id +:+ " with FFmpeg...") log_queue ;;
  let* process_probe := Subprocess.Popen E (ffprobe_cmd input_video_path) None in
  let* probe_out := Subprocess.communicate process_probe in
  let stdout_probe := fst probe_out in
  let stderr_probe := snd probe_out in
  if negb (Subprocess.returncode process_probe =? 0) then
    _log ("ffprobe failed to get video dimensions for " +:+ video_id +:+ ". Error: "
          +:+ stderr_probe) "ERROR" log_queue ;;
    ret (inl None)
  else
    match parse_dimensions stdout_probe with
    | Raise e =>
        _log ("Could not parse dimensions from ffprobe output '" +:+ PyStr.strip stdout_probe
              +:+ "': " +:+ exn_text e) "ERROR" log_queue ;;
        ret (inl None)
    | Ok (original_width, original_height) =>
        _log ("Original dimensions for " +:+ video_id +:+ ": " +:+ PyStr.show_Z original_width
              +:+ "x" +:+ PyStr.show_Z original_height) "DEBUG" log_queue ;;
        let* filters := video_filters edits video_id original_width original_height log_queue in
        let cmd := ffmpeg_cmd input_video_path filters output_video_path in
        _log ("Executing FFmpeg command: " +:+ PyStr.join " " cmd) "DEBUG" log_queue ;;
        put_status ("Applying FFmpeg edits for " +:+ video_id +:+ "...") log_queue ;;
        let* process := Subprocess.Popen E cmd (Some output_video_path) in
        ret (inr process)
    end.

(** Lines 124-136: the rest of the [try] body. *)
Definition after_popen (process : Subprocess.popen) (video_id : string)
    (log_queue : bool) : M (option string) :=
  let output_video_path := output_path video_id in
  let* out := Subprocess.communicate process in
  let* ex := Os.exists_ output_video_path in
  let* size := (if ex then Os.getsize output_video_path else ret 0) in
  if (Subprocess.returncode process =? 0) && ex && (0 <? size) then
    _log ("FFmpeg edited video saved successfully: " +:+ output_video_path) "SUCCESS" log_queue ;;
    ret (Some output_video_path)
  else
    _log ("FFmpeg editing failed for " +:+ video_id +:+ ". Return code: "
          +:+ PyStr.show_Z (Subprocess.returncode process)) "ERROR" log_queue ;;
    _log ("FFmpeg stdout: " +:+ fst out) "DEBUG" log_queue ;;
    _log ("FFmpeg stderr: " +:+ snd out) "ERROR" log_queue ;;
    remove_if_exists_logged output_video_path
      ("Error removing failed FFmpeg output " +:+ output_video_path +:+ ": ") log_queue ;;
    ret None.

(** Lines 138-152: the two [except] clauses.  [process] is [None] when the
    local variable of that name has not been bound yet. *)
Definition on_exception (process : option Subprocess.popen)
    (input_video_path video_id : string) (log_queue : bool) (e : exn)
    : M (option string) :=
  let output_video_path := output_path video_id in
  if is_class TimeoutExpired e then
    _log ("FFmpeg command timed out for video " +:+ video_id +:+ ".") "ERROR" log_queue ;;
    match process with
    | None =>
        raise (Exn UnboundLocalError
                 "cannot access local variable 'process' where it is not associated with a value")
    | Some p =>
        Subprocess.kill p ;;
        let* out := Subprocess.communicate_killed p in
        _log ("FFmpeg stdout (timeout): " +:+ fst out) "DEBUG" log_queue ;;
        _log ("FFmpeg stderr (timeout): " +:+ snd out) "ERROR" log_queue ;;
        let* ex := Os.exists_ output_video_path in
        when ex (Os.remove output_video_path) ;;
        ret None
    end
  else
    _log ("Unexpected error during FFmpeg video editing for " +:+ input_video_path
          +:+ ": " +:+ exn_text e) "ERROR" log_queue ;;
    match process with
    | Some p => when (Subprocess.running p) (Subprocess.kill p)
    | None => ret tt
    end ;;
    remove_if_exists_logged output_video_path
      ("Error removing file " +:+ output_video_path +:+ " on exception: ") log_queue ;;
    ret None.

Definition edit_video (E : env) (input_video_path video_id : string)
    (edits : option (gmap string pyval)) (log_queue : bool) : M (option string) :=
  if negb (check_ffmpeg E) then
    _log "FFmpeg not found in PATH. Please install FFmpeg and add it to your system PATH."
      "CRITICAL" log_queue ;;
    _log "Download FFmpeg from https://ffmpeg.org/download.html" "CRITICAL" log_queue ;;
    ret None
  else
    let* ex := Os.exists_ input_video_path in
    if negb ex then
      _log ("Input video not found at " +:+ input_video_path) "ERROR" log_queue ;;
      ret None
    else
      let edits := match edits with
                   | None => default_edits
                   | Some d => d
                   end in
      let* r := attempt (before_transcode E input_video_path video_id edits log_queue) in
      match r with
      | Raise e => on_exception None input_video_path video_id log_queue e
      | Ok (inl v) => ret v
      | Ok (inr process) =>
          try_except (after_popen process video_id log_queue)
            (on_exception (Some process) input_video_path video_id log_queue)
      end.

End editor.

(** ** scraper.py *)

Module scraper.

Definition VIDEOS_DOWNLOAD_DIR : string := "videos".

Definition _log (message level : string) (log_queue : bool) : M unit :=
  if log_queue then emit (EvPut (LOG message level))
  else print ("[" +:+ level +:+ "] " +:+ message).

Definition put_status (text : string) (log_queue : bool) : M unit :=
  when log_queue (emit (EvPut (STATUS_UPDATE text))).

Definition show_nat (n : nat) : string := PyStr.show_Z (Z.of_nat n).

Definition setup_driver (E : env) (log_queue : bool) : M (option driver) :=
  _log "Setting up Chrome WebDriver..." "DEBUG" log_queue ;;
  match chrome E with
  | Some d =>
      _log "WebDriver setup successful." "DEBUG" log_queue ;;
      ret (Some d)
  | None =>
      _log ("Error setting up WebDriver: " +:+ chrome_error E) "ERROR" log_queue ;;
      _log "Please ensure Google Chrome is installed and accessible." "ERROR" log_queue ;;
      _log "You might also need to check your internet connection for WebDriverManager."
        "ERROR" log_queue ;;
      ret None
  end.

(** [part.isdigit() and len(part) > 15] *)
Definition looks_like_id (part : string) : bool :=
  PyStr.isdigit part && (15 <? Z.of_nat (String.length part)).

Definition get_video_id_from_url (E : env) (url : string) (log_queue : bool)
    : M (option string) :=
  match urlparse_path E url with
  | Ok path => ret (List.find looks_like_id (rev (PyStr.split "/" path)))
  | Raise e =>
      _log ("Error extracting video ID from " +:+ url +:+ ": " +:+ exn_text e) "ERROR" log_queue ;;
      ret None
  end.

(** Lines 155-169: one element of the page.  The result is the two
    collections and whether the scan of this round stops ([break]). *)
Definition scan_element (E : env) (num_videos_to_find : Z) (log_queue : bool)
    (el : element) (video_info_list : list (string * string)) (found_video_ids : gset string)
    : M (list (string * string) * gset string * bool) :=
  try_except
    (let* video_url := (match el with
                        | Href u => ret u
                        | HrefRaises e => raise e
                        end) in
     match video_url with
     | Some video_url =>
         if PyStr.truthy video_url && PyStr.contains "/video/" video_url then
           let* video_id := get_video_id_from_url E video_url log_queue in
           match video_id with
           | Some video_id =>
               if PyStr.truthy video_id && negb (bool_decide (video_id ∈ found_video_ids)) then
                 let* processed := utils.is_video_processed video_id utils.PROCESSED_VIDEOS_FILE in
                 if negb processed then
                   _log ("Found new video: ID - " +:+ video_id +:+ ", URL - " +:+ video_url)
                     "INFO" log_queue ;;
                   let video_info_list := video_info_list ++ [(video_id, video_url)] in
                   let found_video_ids := {[video_id]} ∪ found_video_ids in
                   ret (video_info_list, found_video_ids,
                        num_videos_to_find <=? Z.of_nat (length video_info_list))
                 else
                   _log ("Skipping already processed video ID (from file): " +:+ video_id)
                     "DEBUG" log_queue ;;
                   ret (video_info_list, found_video_ids, false)
               else ret (video_info_list, found_video_ids, false)
           | None => ret (video_info_list, found_video_ids, false)
           end
         else ret (video_info_list, found_video_ids, false)
     | None => ret (video_info_list, found_video_ids, false)
     end)
    (fun e =>
       _log ("Error processing a video element: " +:+ exn_text e) "ERROR" log_queue ;;
       ret (video_info_list, found_video_ids, false)).

(** Lines 154-169: [for element in video_elements] *)
Fixpoint scan_elements (E : env) (num_videos_to_find : Z) (log_queue : bool)
    (video_elements : list element)
    (video_info_list : list (string * string)) (found_video_ids : gset string)
    : M (list (string * string) * gset string) :=
  match video_elements with
  | [] => ret (video_info_list, found_video_ids)
  | el :: rest =>
      let* r := scan_element E num_videos_to_find log_queue el video_info_list found_video_ids in
      let '(l, f, stop) := r in
      if stop then ret (l, f)
      else scan_elements E num_videos_to_find log_queue rest l f
  end.

(** Lines 133-174: [for i in range(scroll_pauses)], over the rounds left. *)
Fixpoint scroll_rounds (E : env) (d : driver) (hashtag : string) (num_videos_to_find : Z)
    (scroll_pauses scroll_time : nat) (log_queue : bool) (rounds : list nat)
    (video_info_list : list (string * string)) (found_video_ids : gset string)
    : M (list (string * string)) :=
  match rounds with
  | [] => ret video_info_list
  | i :: rounds' =>
      _log ("Scroll attempt " +:+ show_nat (i + 1) +:+ "/" +:+ show_nat scroll_pauses
            +:+ " for hashtag '" +:+ hashtag +:+ "'. Scrolling down...") "DEBUG" log_queue ;;
      put_status ("Scrolling page for #" +:+ hashtag +:+ " (attempt " +:+ show_nat (i + 1)
                  +:+ "/" +:+ show_nat scroll_pauses +:+ ")...") log_queue ;;
      match drv_scroll d i with
      | ScrollRaises e_scroll =>
          emit (EvDriver "execute_script") ;;
          _log ("Error during scrolling or sleep: " +:+ exn_text e_scroll) "WARNING" log_queue ;;
          ret video_info_list
      | outcome =>
          emit (EvDriver "execute_script") ;;
          _log ("Waiting " +:+ show_nat scroll_time +:+ " seconds for videos to load...")
            "DEBUG" log_queue ;;
          let* video_elements :=
            (match outcome with
             | Found els => ret els
             | FindRaises e_find =>
                 _log ("Error finding video elements with XPath: " +:+ exn_text e_find)
                   "ERROR" log_queue ;;
                 ret []
             | ScrollRaises _ => ret []
             end) in
          _log ("Found " +:+ show_nat (length video_elements)
                +:+ " potential video link elements after scroll " +:+ show_nat (i + 1) +:+ ".")
            "DEBUG" log_queue ;;
          let* r := scan_elements E num_videos_to_find log_queue video_elements
                      video_info_list found_video_ids in
          let '(video_info_list, found_video_ids) := r in
          if num_videos_to_find <=? Z.of_nat (length video_info_list) then
            _log ("Target number of " +:+ PyStr.show_Z num_videos_to_find
                  +:+ " new videos found for hashtag '" +:+ hashtag +:+ "'.") "INFO" log_queue ;;
            ret video_info_list
          else
            _log ("Collected " +:+ show_nat (length video_info_list)
                  +:+ " new videos so far for hashtag '" +:+ hashtag +:+ "'...") "DEBUG" log_queue ;;
            scroll_rounds E d hashtag num_videos_to_find scroll_pauses scroll_time log_queue
              rounds' video_info_list found_video_ids
      end
  end.

Definition get_video_links_from_tiktok (E : env) (drv : option driver) (hashtag : string)
    (num_videos_to_find : Z) (scroll_pauses scroll_time : nat) (log_queue : bool)
    : M (list (string * string)) :=
  match drv with
  | None =>
      _log "WebDriver not available for get_video_links_from_tiktok." "ERROR" log_queue ;;
      ret []
  | Some d =>
      if negb (PyStr.truthy hashtag) then
        _log "Hashtag not provided to get_video_links_from_tiktok." "ERROR" log_queue ;;
        ret []
      else
        let target_url := "https://www.tiktok.com/tag/" +:+ PyStr.strip hashtag in
        _log ("Navigating to hashtag page: " +:+ target_url +:+ "...") "INFO" log_queue ;;
        put_status ("Navigating to tag: " +:+ hashtag +:+ "...") log_queue ;;
        emit (EvDriver "get") ;;
        match drv_get d target_url with
        | Some e =>
            _log ("Error navigating to " +:+ target_url +:+ ": " +:+ exn_text e) "ERROR" log_queue ;;
            ret []
        | None =>
            _log "Please wait for page to load. Manually handle CAPTCHAs/pop-ups if they appear."
              "INFO" log_queue ;;
            put_status "Waiting for TikTok page to load (handle popups/CAPTCHA if any)..." log_queue ;;
            match drv_wait_feed d with
            | Some e =>
                _log ("Timeout or error finding main video feed container on tag page '"
                      +:+ hashtag +:+ "'. Structure may have changed: " +:+ exn_text e)
                  "ERROR" log_queue ;;
                ret []
            | None =>
                _log "Main video feed/list container detected on tag page." "INFO" log_queue ;;
                let* video_info_list :=
                  scroll_rounds E d hashtag num_videos_to_find scroll_pauses scroll_time
                    log_queue (seq 0 scroll_pauses) [] ∅ in
                when (match video_info_list with [] => true | _ => false end)
                  (_log ("No new video links found for hashtag '" +:+ hashtag
                         +:+ "'. Possible reasons:") "WARNING" log_queue ;;
                   _log "  1. TikTok page structure changed (CSS/XPath needs update)."
                     "WARNING" log_queue ;;
                   _log "  2. No new videos on the page that haven't been processed."
                     "WARNING" log_queue ;;
                   _log "  3. CAPTCHA or login required (manual intervention needed)."
                     "WARNING" log_queue ;;
                   _log "  4. All videos found were already processed or hashtag has no videos."
                     "WARNING" log_queue) ;;
                ret (PyList.slice_to num_videos_to_find video_info_list)
            end
        end
  end.

(** [if os.path.exists(p): try: os.remove(p) except OSError as e: _log(...)] *)
Definition remove_if_exists_logged (p what : string) (log_queue : bool) : M unit :=
  let* ex := Os.exists_ p in
  when ex
    (try_except (Os.remove p)
       (fun e => if is_OSError e
                 then _log (what +:+ exn_text e) "ERROR" log_queue
                 else raise e)).

Definition download_path (download_folder video_id : string) : string :=
  OsPath.join download_folder (video_id +:+ ".mp4").

Definition yt_dlp_command (filepath video_url : string) : list string :=
  ["yt-dlp"; "--no-warnings"; "--ignore-errors"; "--retries"; "3";
   "--fragment-retries"; "3"; "--no-playlist"; "-o"; filepath;
   video_url;
   "--socket-timeout"; "30"].

Definition ffprobe_command (filepath : string) : list string :=
  ["ffprobe"; "-v"; "error"; "-select_streams"; "v:0"; "-show_entries";
   "stream=codec_name"; "-of"; "default=noprint_wrappers=1:nokey=1"; filepath].

(** Lines 219-232: the body of the inner [try] once [verify_process] is bound. *)
Definition verify_body (verify_process : Subprocess.popen) (filepath video_id : string)
    (log_queue : bool) : M (option string) :=
  let* out := Subprocess.communicate verify_process in
  let ff_stdout := fst out in
  let ff_stderr := snd out in
  if (Subprocess.returncode verify_process =? 0) && PyStr.truthy (PyStr.strip ff_stdout) then
    _log ("Video " +:+ video_id +:+ " integrity verified by ffprobe. Codec: "
          +:+ PyStr.strip ff_stdout) "SUCCESS" log_queue ;;
    ret (Some filepath)
  else
    _log ("ffprobe verification failed for " +:+ filepath +:+ ". Video might be corrupt.")
      "ERROR" log_queue ;;
    _log ("ffprobe RC: " +:+ PyStr.show_Z (Subprocess.returncode verify_process)) "ERROR" log_queue ;;
    _log ("ffprobe stdout: " +:+ PyStr.strip ff_stdout) "DEBUG" log_queue ;;
    _log ("ffprobe stderr: " +:+ PyStr.strip ff_stderr) "ERROR" log_queue ;;
    remove_if_exists_logged filepath
      ("Error removing corrupted download file " +:+ filepath +:+ ": ") log_queue ;;
    ret None.

(** Lines 233-249: the [except] clauses of the inner [try]. *)
Definition verify_on_exception (verify_process : option Subprocess.popen)
    (filepath : string) (log_queue : bool) (e : exn) : M (option string) :=
  if is_class TimeoutExpired e then
    _log ("ffprobe timed out verifying " +:+ filepath +:+ ". Assuming corrupt.") "ERROR" log_queue ;;
    match verify_process with
    | None =>
        raise (Exn UnboundLocalError
                 "cannot access local variable 'verify_process' where it is not associated with a value")
    | Some p =>
        when (Subprocess.running p) (Subprocess.kill p) ;;
        remove_if_exists_logged filepath
          ("Error removing timed-out verification file " +:+ filepath +:+ ": ") log_queue ;;
        ret None
    end
  else if is_class FileNotFoundError e then
    _log "CRITICAL: ffprobe (part of FFmpeg) not found in PATH. Cannot verify video integrity."
      "CRITICAL" log_queue ;;
    _log "Please ensure FFmpeg is installed and in PATH. The downloaded file will be kept but may be corrupt."
      "WARNING" log_queue ;;
    ret (Some filepath)
  else
    _log ("Error during ffprobe verification for " +:+ filepath +:+ ": " +:+ exn_text e)
      "ERROR" log_queue ;;
    remove_if_exists_logged filepath
      ("Error removing file after ffprobe error " +:+ filepath +:+ ": ") log_queue ;;
    ret None.

(** Lines 210-260: the body of the outer [try] once [process] is bound. *)
Definition fetch_body (E : env) (process : Subprocess.popen)
    (filepath video_id : string) (log_queue : bool) : M (option string) :=
  let* out := Subprocess.communicate process in
  let stdout := fst out in
  let stderr := snd out in
  let* ex := Os.exists_ filepath in
  let* size := (if ex then Os.getsize filepath else ret 0) in
  if (Subprocess.returncode process =? 0) && ex && (0 <? size) then
    _log ("Video " +:+ video_id +:+ " downloaded by yt-dlp. Verifying integrity with ffprobe...")
      "DEBUG" log_queue ;;
    let* r := attempt (Subprocess.Popen E (ffprobe_command filepath) None) in
    match r with
    | Raise e => verify_on_exception None filepath log_queue e
    | Ok verify_process =>
        try_except (verify_body verify_process filepath video_id log_queue)
          (verify_on_exception (Some verify_process) filepath log_queue)
    end
  else
    _log ("Failed to download video " +:+ video_id +:+ ". yt-dlp RC: "
          +:+ PyStr.show_Z (Subprocess.returncode process)) "ERROR" log_queue ;;
    _log ("File path: " +:+ filepath +:+ ", Exists: " +:+ (if ex then "True" else "False")
          +:+ ", Size: " +:+ (if ex then PyStr.show_Z size else "N/A")) "DEBUG" log_queue ;;
    _log ("yt-dlp stdout: " +:+ PyStr.strip stdout) "DEBUG" log_queue ;;
    _log ("yt-dlp stderr: " +:+ PyStr.strip stderr) "ERROR" log_queue ;;
    when (ex && ((size =? 0) || negb (Subprocess.returncode process =? 0)))
      (try_except (Os.remove filepath)
         (fun e => if is_OSError e
                   then _log ("Error removing problematic download file " +:+ filepath +:+ ": "
                              +:+ exn_text e) "ERROR" log_queue
                   else raise e)) ;;
    ret None.

(** Lines 262-285: the [except] clauses of the outer [try]; [process] is
    [None] as long as the variable of that name holds [None]. *)
Definition fetch_on_exception (process : option Subprocess.popen)
    (filepath video_id : string) (log_queue : bool) (e : exn) : M (option string) :=
  if is_class TimeoutExpired e then
    _log ("yt-dlp timed out downloading video " +:+ video_id +:+ ".") "ERROR" log_queue ;;
    match process with
    | Some p => when (Subprocess.running p) (Subprocess.kill p)
    | None => ret tt
    end ;;
    _log "yt-dlp process killed due to timeout." "DEBUG" log_queue ;;
    remove_if_exists_logged filepath
      ("Error removing timed-out download file " +:+ filepath +:+ ": ") log_queue ;;
    ret None
  else if is_class FileNotFoundError e then
    _log "CRITICAL: yt-dlp command not found. Ensure yt-dlp is installed and in PATH."
      "CRITICAL" log_queue ;;
    _log "Install with: pip install yt-dlp" "CRITICAL" log_queue ;;
    ret None
  else
    _log ("An unexpected error occurred downloading video " +:+ video_id +:+ ": " +:+ exn_text e)
      "ERROR" log_queue ;;
    let rc_is_0 := match process with
                   | Some p => negb (Subprocess.running p) && (Subprocess.returncode p =? 0)
                   | None => false
                   end in
    let* ex := Os.exists_ filepath in
    let* size := (if ex then Os.getsize filepath else ret 0) in
    when (ex && negb ((0 <? size) && rc_is_0))
      (try_except (Os.remove filepath)
         (fun e => if is_OSError e
                   then _log ("Error removing file " +:+ filepath +:+ " on exception: "
                              +:+ exn_text e) "ERROR" log_queue
                   else raise e)) ;;
    ret None.

Definition download_video (E : env) (video_id video_url download_folder : string)
    (log_queue : bool) : M (option string) :=
  let* processed := utils.is_video_processed video_id utils.PROCESSED_VIDEOS_FILE in
  if processed then
    _log ("Video " +:+ video_id +:+ " already processed (checked again). Skipping download.")
      "INFO" log_queue ;;
    ret None
  else
    let filepath := download_path download_folder video_id in
    Os.makedirs download_folder ;;
    let* r := attempt
      (_log ("Attempting to download video: " +:+ video_id +:+ " from " +:+ video_url
             +:+ " using yt-dlp...") "INFO" log_queue ;;
       put_status ("Downloading video " +:+ video_id +:+ "...") log_queue ;;
       Subprocess.Popen E (yt_dlp_command filepath video_url) (Some filepath)) in
    match r with
    | Raise e => fetch_on_exception None filepath video_id log_queue e
    | Ok process =>
        try_except (fetch_body E process filepath video_id log_queue)
          (fetch_on_exception (Some process) filepath video_id log_queue)
    end.

Definition verify_downloaded_video (E : env) (filepath video_id : string) (log_queue : bool)
    : M bool :=
  let* ex := Os.exists_ filepath in
  let* size := (if ex then Os.getsize filepath else ret 0) in
  if negb ex || (size =? 0) then
    _log ("File " +:+ filepath +:+ " for video " +:+ video_id
          +:+ " is missing or empty before ffprobe check.") "ERROR" log_queue ;;
    when ex (try_except (Os.remove filepath)
               (fun e => if is_OSError e then ret tt else raise e)) ;;
    ret false
  else
    _log ("Verifying integrity of " +:+ filepath +:+ " for video " +:+ video_id
          +:+ " with ffprobe...") "DEBUG" log_queue ;;
    let* r := attempt (Subprocess.Popen E (ffprobe_command filepath) None) in
    let verify_process := match r with
                          | Ok p => Some p
                          | Raise _ => None
                          end in
    try_except
      (match r with
       | Raise e => raise e
       | Ok p =>
           let* out := Subprocess.communicate p in
           let ff_stdout := fst out in
           let ff_stderr := snd out in
           if (Subprocess.returncode p =? 0) && PyStr.truthy (PyStr.strip ff_stdout) then
             _log ("Video " +:+ video_id +:+ " integrity verified by ffprobe. Codec: "
                   +:+ PyStr.strip ff_stdout) "SUCCESS" log_queue ;;
             ret true
           else
             _log ("ffprobe verification failed for " +:+ filepath +:+ " (ID: " +:+ video_id
                   +:+ "). Video might be corrupt.") "ERROR" log_queue ;;
             _log ("ffprobe RC: " +:+ PyStr.show_Z (Subprocess.returncode p) +:+ ", STDOUT: '"
                   +:+ PyStr.strip ff_stdout +:+ "', STDERR: '" +:+ PyStr.strip ff_stderr +:+ "'")
               "DEBUG" log_queue ;;
             remove_if_exists_logged filepath
               ("Error removing corrupted download file " +:+ filepath +:+ ": ") log_queue ;;
             ret false
       end)
      (fun e =>
         if is_class TimeoutExpired e then
           _log ("ffprobe timed out verifying " +:+ filepath +:+ " (ID: " +:+ video_id
                 +:+ "). Assuming corrupt.") "ERROR" log_queue ;;
           match verify_process with
           | Some p => when (Subprocess.running p) (Subprocess.kill p)
           | None => ret tt
           end ;;
           remove_if_exists_logged filepath
             ("Error removing file after ffprobe timeout " +:+ filepath +:+ ": ") log_queue ;;
           ret false
         else if is_class FileNotFoundError e then
           _log "CRITICAL: ffprobe (part of FFmpeg) not found in PATH. Cannot verify video integrity."
             "CRITICAL" log_queue ;;
           _log "Please ensure FFmpeg is installed and in PATH. Downloaded files will be kept but may be corrupt."
             "WARNING" log_queue ;;
           ret true
         else
           _log ("Error during ffprobe verification for " +:+ filepath +:+ " (ID: " +:+ video_id
                 +:+ "): " +:+ exn_text e) "ERROR" log_queue ;;
           remove_if_exists_logged filepath
             ("Error removing file after ffprobe error " +:+ filepath +:+ ": ") log_queue ;;
           ret false).

(** The dictionary [{'id': video_id, 'filepath': downloaded_filepath}]. *)
Record video_info := VideoInfo { vi_id : string; vi_filepath : string }.

(** Lines 397-411: the download loop.  The result is the list collected so
    far and the exception that ended the loop, if one did. *)
Fixpoint download_loop (E : env) (log_queue : bool) (total_to_download : nat) (i : nat)
    (video_links_info : list (string * string)) (processed_video_details : list video_info)
    : M (list video_info * option exn) :=
  match video_links_info with
  | [] => ret (processed_video_details, None)
  | (video_id, video_url) :: rest =>
      put_status ("Downloading video " +:+ show_nat (i + 1) +:+ "/" +:+ show_nat total_to_download
                  +:+ "...") log_queue ;;
      let* r := attempt (download_video E video_id video_url VIDEOS_DOWNLOAD_DIR log_queue) in
      match r with
      | Raise e => ret (processed_video_details, Some e)
      | Ok downloaded_filepath =>
          if from_option PyStr.truthy false downloaded_filepath then
            _log ("Successfully downloaded video " +:+ video_id +:+ " to "
                  +:+ default "" downloaded_filepath) "SUCCESS" log_queue ;;
            download_loop E log_queue total_to_download (S i) rest
              (processed_video_details ++ [VideoInfo video_id (default "" downloaded_filepath)])
          else
            _log ("Failed to download video " +:+ video_id
                  +:+ ". It may have been skipped or an error occurred.") "ERROR" log_queue ;;
            download_loop E log_queue total_to_download (S i) rest processed_video_details
      end
  end.

(** The [finally] clause of [scrape_and_download_videos_by_hashtag]. *)
Definition quit_driver (drv : option driver) (log_queue : bool) : M unit :=
  match drv with
  | Some d =>
      _log "Closing WebDriver." "DEBUG" log_queue ;;
      emit (EvDriver "quit") ;;
      match drv_quit d with
      | Some e_quit => _log ("Error while quitting WebDriver: " +:+ exn_text e_quit) "WARNING" log_queue
      | None => ret tt
      end
  | None => ret tt
  end.

Definition scrape_and_download_videos_by_hashtag (E : env) (hashtag : string)
    (num_videos_to_find : Z) (log_queue : bool) : M (list video_info) :=
  let unexpected (e : exn) : M unit :=
    _log ("An unexpected error occurred during the main scraping/downloading process: "
          +:+ exn_text e) "CRITICAL" log_queue ;;
    _log ("Traceback (most recent call last): " +:+ exn_text e) "DEBUG" log_queue in
  _log ("Initializing scraping process for hashtag: #" +:+ hashtag) "INFO" log_queue ;;
  let* drv := setup_driver E log_queue in
  try_finally
    (try_except
       (match drv with
        | None =>
            _log "Failed to setup WebDriver. Aborting scrape." "CRITICAL" log_queue ;;
            ret []
        | Some _ =>
            let* video_links_info :=
              get_video_links_from_tiktok E drv hashtag num_videos_to_find 5 3 log_queue in
            match video_links_info with
            | [] =>
                _log ("No new video links found for hashtag '" +:+ hashtag +:+ "'.")
                  "WARNING" log_queue ;;
                ret []
            | _ =>
                let total_to_download := length video_links_info in
                _log ("Found " +:+ show_nat total_to_download
                      +:+ " new video(s). Starting download process...") "INFO" log_queue ;;
                let* r := download_loop E log_queue total_to_download 0 video_links_info [] in
                match r with
                | (processed_video_details, None) => ret processed_video_details
                | (processed_video_details, Some e) =>
                    unexpected e ;;
                    ret processed_video_details
                end
            end
        end)
       (fun e => unexpected e ;; ret []))
    (quit_driver drv log_queue).

End scraper.

(** ** main.py: the worker *)

Module main.

Definition put (m : qmsg) : M unit := emit (EvPut m).

(** Lines 213-237: the body of the loop for one item.  The result is
    [edited_video_path], and [None] for an item that is skipped. *)
Definition edit_item (E : env) (total_videos_to_process : nat) (i : nat)
    (video_info : scraper.video_info) : M (option string) :=
  let video_id := scraper.vi_id video_info in
  let original_filepath := scraper.vi_filepath video_info in
  if negb (PyStr.truthy video_id) || negb (PyStr.truthy original_filepath) then
    put (LOG ("Skipping an item due to missing ID or filepath: {'id': '" +:+ video_id
              +:+ "', 'filepath': '" +:+ original_filepath +:+ "'}") "WARNING") ;;
    ret None
  else
    put (LOG ("--- Processing video " +:+ video_id +:+ " (" +:+ scraper.show_nat (i + 1)
              +:+ "/" +:+ scraper.show_nat total_videos_to_process +:+ ") ---") "INFO") ;;
    put (STATUS_UPDATE ("Editing video " +:+ video_id +:+ " (" +:+ scraper.show_nat (i + 1)
                        +:+ "/" +:+ scraper.show_nat total_videos_to_process +:+ ")...")) ;;
    let* edited_video_path := editor.edit_video E original_filepath video_id None true in
    (if from_option PyStr.truthy false edited_video_path then
       put (LOG ("Video " +:+ video_id +:+ " edited successfully: "
                 +:+ default "" edited_video_path) "SUCCESS") ;;
       utils.add_processed_video video_id utils.PROCESSED_VIDEOS_FILE ;;
       ret tt
     else
       put (LOG ("Failed to edit video " +:+ video_id
                 +:+ ". It might have been skipped or an error occurred.") "ERROR")) ;;
    put (PROGRESS_UPDATE (i + 1) total_videos_to_process) ;;
    ret edited_video_path.

(** Lines 207-237: the editing loop.  The result is [edited_count] and
    [failed_edits]. *)
Fixpoint edit_loop (E : env) (total_videos_to_process : nat) (i : nat)
    (downloaded_video_infos : list scraper.video_info) (edited_count failed_edits : nat)
    : M (nat * nat) :=
  match downloaded_video_infos with
  | [] => ret (edited_count, failed_edits)
  | video_info :: rest =>
      if stop_is_set E i then
        put (LOG "Stop requested by user. Halting process." "WARNING") ;;
        ret (edited_count, failed_edits)
      else
        let* edited_video_path := edit_item E total_videos_to_process i video_info in
        if from_option PyStr.truthy false edited_video_path
        then edit_loop E total_videos_to_process (S i) rest (edited_count + 1) failed_edits
        else edit_loop E total_videos_to_process (S i) rest edited_count (failed_edits + 1)
  end.

Definition scraping_worker (E : env) (hashtag : string) (num_videos_to_find : Z) : M unit :=
  try_finally
    (try_except
       (put (LOG "Initializing TikTok scraping process..." "INFO") ;;
        put (STATUS_UPDATE ("Starting to scrape #" +:+ hashtag +:+ "...")) ;;
        let* downloaded_video_infos :=
          scraper.scrape_and_download_videos_by_hashtag E hashtag num_videos_to_find true in
        match downloaded_video_infos with
        | [] =>
            put (LOG ("No new, valid videos found or downloaded for hashtag '" +:+ hashtag +:+ "'.")
                   "WARNING") ;;
            put (TASK_COMPLETE ("No new videos processed for #" +:+ hashtag +:+ "."))
        | _ =>
            let total_videos_to_process := length downloaded_video_infos in
            put (LOG ("Found " +:+ scraper.show_nat total_videos_to_process
                      +:+ " new, valid video(s) to process.") "INFO") ;;
            put (STATUS_UPDATE "Starting video editing process...") ;;
            let* counts := edit_loop E total_videos_to_process 0 downloaded_video_infos 0 0 in
            let edited_count := fst counts in
            let failed_edits := snd counts in
            let final_message :=
              "Process finished for hashtag '" +:+ hashtag +:+ "'. Successfully edited: "
              +:+ scraper.show_nat edited_count +:+ "/" +:+ scraper.show_nat total_videos_to_process
              +:+ ". Failed/Skipped: " +:+ scraper.show_nat failed_edits +:+ "."
              +:+ (if (0 <? failed_edits)%nat then " Check logs for details on failures." else "") in
            put (TASK_COMPLETE final_message)
        end)
       (fun e =>
          put (LOG ("Scraping worker encountered an unhandled error: " +:+ exn_text e) "CRITICAL") ;;
          put (LOG ("Traceback (most recent call last): " +:+ exn_text e) "DEBUG") ;;
          put (TASK_FAILED "Critical error in backend process. Check logs.")))
    (put (LOG "Scraping and editing worker thread finished." "DEBUG")).

End main.

(** * Properties *)

(** ** The library functions behave as Python's on sample inputs *)

Example show_Z_examples :
  PyStr.show_Z 960 = "960" /\ PyStr.show_Z (-17) = "-17" /\ PyStr.show_Z 0 = "0".
Proof. repeat split; reflexivity. Qed.

Example int_of_string_examples :
  PyStr.int_of_string " 1_080 " = Some 1080 /\ PyStr.int_of_string "1__0" = None
  /\ PyStr.int_of_string "-7" = Some (-7) /\ PyStr.int_of_string "" = None
  /\ PyStr.int_of_string "1_" = None /\ PyStr.int_of_string "_1" = None.
Proof. repeat split; reflexivity. Qed.

Example readlines_example :
  PyStr.readlines
    ("a" +:+ String PyStr.CR ("b" +:+ String PyStr.CR (String PyStr.LF
       ("c" +:+ String PyStr.LF (String PyStr.LF "d")))))
  = [String "a" (String PyStr.LF ""); String "b" (String PyStr.LF "");
     String "c" (String PyStr.LF ""); String PyStr.LF ""; "d"].
Proof. reflexivity. Qed.

Example split_examples :
  PyStr.split "x" "1x2x3" = ["1"; "2"; "3"] /\ PyStr.split "x" "" = [""]
  /\ PyStr.split "x" "x" = [""; ""].
Proof. repeat split; reflexivity. Qed.

Example dirname_examples :
  OsPath.dirname "data/processed_videos.txt" = "data" /\ OsPath.dirname "ledger.txt" = ""
  /\ OsPath.dirname "/x" = "/" /\ OsPath.dirname "a//b" = "a".
Proof. repeat split; reflexivity. Qed.

Example join_example :
  OsPath.join "data" "processed_videos.txt" = "data/processed_videos.txt".
Proof. reflexivity. Qed.

(** The double nearest to 0.29 is below it, and so is its product with 100. *)
Example crop_each_side_examples :
  editor.crop_each_side 1000 (NInt 2) = Ok 20 /\ editor.crop_each_side 500 (NInt 2) = Ok 10
  /\ editor.crop_each_side 999 (NInt 2) = Ok 19 /\ editor.crop_each_side 100 (NInt 29) = Ok 28.
Proof. repeat split; reflexivity. Qed.

(** ** Text *)

Section Text.

Import PyStr.

Lemma app_cons (c : ascii) (s t : string) : String c s +:+ t = String c (s +:+ t).
Proof. reflexivity. Qed.

Lemma app_empty_l (t : string) : "" +:+ t = t.
Proof. reflexivity. Qed.

Lemma app_empty_r (s : string) : s +:+ "" = s.
Proof. induction s as [|c s IH]; [reflexivity|]. rewrite app_cons, IH. reflexivity. Qed.

Lemma app_assoc_str (a b c : string) : (a +:+ b) +:+ c = a +:+ (b +:+ c).
Proof.
  induction a as [|x a IH]; [reflexivity|].
  rewrite !app_cons, IH. reflexivity.
Qed.

Lemma truthy_app_r (a b : string) : truthy b = true -> truthy (a +:+ b) = true.
Proof. destruct a; [rewrite app_empty_l; auto | reflexivity]. Qed.

Lemma truthy_true (s : string) : truthy s = true <-> s <> "".
Proof. destruct s; simpl; split; congruence. Qed.

Lemma isspace_LF : isspace LF = true.
Proof. reflexivity. Qed.

(** A trailing line feed is white space for [rstrip]. *)
Lemma rstrip_app_LF (s : string) : rstrip (s +:+ String LF "") = rstrip s.
Proof.
  induction s as [|c s IH]; [reflexivity|].
  rewrite app_cons. simpl. rewrite IH. reflexivity.
Qed.

Lemma strip_app_LF (s : string) : strip (s +:+ String LF "") = strip s.
Proof. unfold strip. rewrite rstrip_app_LF. reflexivity. Qed.

(** The text of one line: no line feed and no carriage return in it. *)
Definition one_line (s : string) : bool :=
  negb (contains_char LF s) && negb (contains_char CR s).

Lemma one_line_cons (c : ascii) (s : string) :
  one_line (String c s) = true ->
  Ascii.eqb c LF = false /\ Ascii.eqb c CR = false /\ one_line s = true.
Proof.
  unfold one_line. cbn [contains_char].
  rewrite (Ascii.eqb_sym LF c), (Ascii.eqb_sym CR c).
  destruct (Ascii.eqb c LF), (Ascii.eqb c CR); simpl; intros H;
    try discriminate; try (rewrite andb_false_r in H; discriminate); auto.
Qed.

Lemma readlines_one_line (s : string) :
  one_line s = true -> readlines (s +:+ String LF "") = [s +:+ String LF ""].
Proof.
  induction s as [|c s IH]; intros H; [reflexivity|].
  apply one_line_cons in H as (H1 & H2 & H3).
  rewrite app_cons. simpl. rewrite H1, H2, (IH H3). reflexivity.
Qed.

Lemma readlines_LF_nonempty (a : string) : readlines (a +:+ String LF "") <> [].
Proof.
  destruct a as [|c a]; [discriminate|].
  rewrite app_cons. simpl.
  destruct (Ascii.eqb c LF); [discriminate|].
  destruct (Ascii.eqb c CR); [discriminate|].
  destruct (readlines (a +:+ String LF "")); discriminate.
Qed.

(** A line feed ends a line whatever follows. *)
Lemma readlines_app_LF (a b : string) :
  readlines (a +:+ String LF b) = readlines (a +:+ String LF "") ++ readlines b.
Proof.
  remember (String.length a) as n eqn:Hn.
  assert (Hle : (String.length a <= n)%nat) by lia. clear Hn.
  revert a Hle. induction n as [|n IH]; intros a Hle.
  { destruct a; [reflexivity | simpl in Hle; lia]. }
  destruct a as [|c a]; [reflexivity|].
  simpl in Hle. rewrite !app_cons. simpl.
  destruct (Ascii.eqb c LF).
  { rewrite (IH a) by lia. reflexivity. }
  destruct (Ascii.eqb c CR).
  { destruct a as [|d a]; [reflexivity|].
    simpl in Hle. rewrite !app_cons.
    destruct (Ascii.eqb d LF).
    - rewrite (IH a) by lia. reflexivity.
    - rewrite <- !app_cons. rewrite (IH (String d a)) by (simpl; lia). reflexivity. }
  rewrite (IH a) by lia.
  pose proof (readlines_LF_nonempty a) as Hne.
  destruct (readlines (a +:+ String LF "")); [congruence | reflexivity].
Qed.

End Text.

(** ** Reasoning about effects: weakest preconditions *)

(** [wp m w Q]: running [m] in [w] ends in a result and a world that
    satisfy [Q].  Every [M] computation is a total function, so that [wp]
    also says that the run ends. *)
Definition wp {A} (m : M A) (w : world) (Q : res A -> world -> Prop) : Prop :=
  Q (fst (m w)) (snd (m w)).

Definition add_event (e : event) (w : world) : world :=
  World (files w) (trace w ++ [e]).

Definition log_event (message level : string) (log_queue : bool) : event :=
  if log_queue then EvPut (LOG message level)
  else EvPrint ("[" +:+ level +:+ "] " +:+ message).

Section WP.

Context {A B : Type}.

Lemma wp_run (m : M A) (w : world) (Q : res A -> world -> Prop) r w' :
  m w = (r, w') -> wp m w Q -> Q r w'.
Proof. unfold wp. intros ->. auto. Qed.

Lemma wp_mono (m : M A) (w : world) (Q Q' : res A -> world -> Prop) :
  (forall r w', Q r w' -> Q' r w') -> wp m w Q -> wp m w Q'.
Proof. unfold wp. auto. Qed.

Lemma wp_ret (a : A) w Q : Q (Ok a) w -> wp (ret a) w Q.
Proof. auto. Qed.

Lemma wp_raise (e : exn) w (Q : res A -> world -> Prop) : Q (Raise e) w -> wp (raise e) w Q.
Proof. auto. Qed.

Lemma wp_lift (r : res A) w Q : Q r w -> wp (lift r) w Q.
Proof. auto. Qed.

Lemma wp_bind (m : M A) (k : A -> M B) w Q :
  wp m w (fun r w1 => match r with
                      | Ok a => wp (k a) w1 Q
                      | Raise e => Q (Raise e) w1
                      end) ->
  wp (bind m k) w Q.
Proof. unfold wp, bind. destruct (m w) as [[a|e] w1]; auto. Qed.

Lemma wp_try_except (m : M A) (h : exn -> M A) w Q :
  wp m w (fun r w1 => match r with
                      | Ok a => Q (Ok a) w1
                      | Raise e => wp (h e) w1 Q
                      end) ->
  wp (try_except m h) w Q.
Proof. unfold wp, try_except. destruct (m w) as [[a|e] w1]; auto. Qed.

Lemma wp_try_finally (m : M A) (f : M unit) w Q :
  wp m w (fun r w1 => wp f w1 (fun rf w2 => match rf with
                                            | Ok _ => Q r w2
                                            | Raise e => Q (Raise e) w2
                                            end)) ->
  wp (try_finally m f) w Q.
Proof.
  unfold wp, try_finally. destruct (m w) as [r w1]. simpl.
  destruct (f w1) as [[u|e] w2]; auto.
Qed.

Lemma wp_attempt (m : M A) w (Q : res (res A) -> world -> Prop) :
  wp m w (fun r w1 => Q (Ok r) w1) -> wp (attempt m) w Q.
Proof. unfold wp, attempt. destruct (m w) as [r w1]; auto. Qed.

End WP.

Lemma wp_emit (e : event) w (Q : res unit -> world -> Prop) :
  Q (Ok tt) (add_event e w) -> wp (emit e) w Q.
Proof. auto. Qed.

Lemma wp_when (b : bool) (m : M unit) w Q :
  (if b then wp m w Q else Q (Ok tt) w) -> wp (when b m) w Q.
Proof. destruct b; auto. Qed.

Lemma editor_log_emit message level log_queue :
  editor._log message level log_queue = emit (log_event message level log_queue).
Proof. destruct log_queue; reflexivity. Qed.

Lemma scraper_log_emit message level log_queue :
  scraper._log message level log_queue = emit (log_event message level log_queue).
Proof. destruct log_queue; reflexivity. Qed.

Lemma wp_exists (p : string) w (Q : res bool -> world -> Prop) :
  Q (Ok (bool_decide (is_Some (Os.lookup p w)))) w -> wp (Os.exists_ p) w Q.
Proof. auto. Qed.

Lemma wp_getsize (p : string) w (Q : res Z -> world -> Prop) f :
  Os.lookup p w = Some f ->
  Q (Ok (Z.of_nat (String.length (f_data f)))) w -> wp (Os.getsize p) w Q.
Proof. unfold wp, Os.getsize. intros ->. auto. Qed.

Lemma wp_remove (p : string) w (Q : res unit -> world -> Prop) f :
  Os.lookup p w = Some f ->
  Q (Ok tt) (World (delete p (files w)) (trace w)) -> wp (Os.remove p) w Q.
Proof. unfold wp, Os.remove. intros ->. auto. Qed.

Lemma wp_makedirs (name : string) w (Q : res unit -> world -> Prop) :
  PyStr.truthy name = true -> Q (Ok tt) w -> wp (Os.makedirs name) w Q.
Proof. unfold wp, Os.makedirs. intros ->. auto. Qed.

(** ** The ledger *)

Section Ledger.

Import utils.

Lemma ledger_path : PROCESSED_VIDEOS_FILE = "data/processed_videos.txt".
Proof. reflexivity. Qed.

Lemma dirname_truthy (p : string) :
  PyStr.truthy (OsPath.dirname p) = true -> PyStr.truthy p = true.
Proof. destruct p; [discriminate | reflexivity]. Qed.

(** What [get_processed_videos] comes to, case by case. *)
Lemma get_processed_videos_eq (filepath : string) (w : world) :
  get_processed_videos filepath w =
  match Os.lookup filepath w with
  | None =>
      if PyStr.truthy (OsPath.dirname filepath) then (Ok ∅, w)
      else (Raise (Exn FileNotFoundError "[Errno 2] No such file or directory: ''"), w)
  | Some f =>
      if f_readable f then (Ok (ids_of_text (f_data f)), w)
      else (Ok ∅, add_event (EvPrint ("Error loading processed videos: "
                                      +:+ "[Errno 13] Permission denied")) w)
  end.
Proof.
  unfold get_processed_videos, bind, Os.exists_, try_except, Os.read_text, Os.makedirs.
  destruct (Os.lookup filepath w) as [f|] eqn:Hl; simpl.
  - rewrite Hl. destruct (f_readable f); reflexivity.
  - destruct (PyStr.truthy (OsPath.dirname filepath)); reflexivity.
Qed.

(** What [add_processed_video] comes to, case by case. *)
Lemma add_processed_video_eq (video_id filepath : string) (w : world) :
  add_processed_video video_id filepath w =
  if PyStr.truthy (OsPath.dirname filepath) then
    match files w !! filepath with
    | Some f =>
        if f_writable f
        then (Ok true, World (<[filepath := File (f_data f +:+ video_id +:+ String PyStr.LF "")
                                             (f_readable f) true]> (files w)) (trace w))
        else (Ok false, add_event (EvPrint ("Error adding processed video: "
                                            +:+ "[Errno 13] Permission denied")) w)
    | None =>
        (Ok true, World (<[filepath := File (video_id +:+ String PyStr.LF "") true true]> (files w))
                    (trace w))
    end
  else (Ok false, add_event (EvPrint ("Error adding processed video: "
                                      +:+ "[Errno 2] No such file or directory: ''")) w).
Proof.
  unfold add_processed_video, try_except, bind, Os.makedirs, Os.append_text.
  destruct (PyStr.truthy (OsPath.dirname filepath)) eqn:Hd; [|reflexivity].
  simpl. rewrite (dirname_truthy _ Hd).
  destruct (files w !! filepath) as [f|]; [|reflexivity].
  destruct (f_writable f); reflexivity.
Qed.

Lemma is_video_processed_eq (video_id filepath : string) (w : world) :
  is_video_processed video_id filepath w =
  match get_processed_videos filepath w with
  | (Ok ids, w') => (Ok (bool_decide (video_id ∈ ids)), w')
  | (Raise e, w') => (Raise e, w')
  end.
Proof. reflexivity. Qed.

End Ledger.

Section LedgerLoad.

Import utils.

(** Loading a ledger that is not there gives the empty set and changes
    nothing, provided the path has a directory part. *)
Lemma load_missing_with_directory (filepath : string) (w : world) :
  PyStr.truthy (OsPath.dirname filepath) = true ->
  Os.lookup filepath w = None ->
  get_processed_videos filepath w = (Ok ∅, w).
Proof. intros Hd Hl. rewrite get_processed_videos_eq, Hl, Hd. reflexivity. Qed.

(** An error while reading is caught and printed, and the empty set is
    returned. *)
Lemma load_unreadable_fails_open (filepath : string) (w : world) (f : file) :
  Os.lookup filepath w = Some f -> f_readable f = false ->
  exists line, get_processed_videos filepath w = (Ok ∅, add_event (EvPrint line) w).
Proof.
  intros Hl Hr. rewrite get_processed_videos_eq, Hl, Hr. eexists. reflexivity.
Qed.

(** [is_video_processed] is membership in what [get_processed_videos] loads. *)
Lemma contains_is_membership (video_id filepath : string) (w : world) :
  fst (is_video_processed video_id filepath w) =
  match fst (get_processed_videos filepath w) with
  | Ok ids => Ok (bool_decide (video_id ∈ ids))
  | Raise e => Raise e
  end.
Proof.
  rewrite is_video_processed_eq.
  destruct (get_processed_videos filepath w) as [[ids|e] w']; reflexivity.
Qed.

(** With the path the program uses, loading never raises and never changes
    a file. *)
Lemma load_default_total (w : world) :
  exists ids w', get_processed_videos PROCESSED_VIDEOS_FILE w = (Ok ids, w')
                 /\ files w' = files w.
Proof.
  rewrite get_processed_videos_eq.
  destruct (Os.lookup PROCESSED_VIDEOS_FILE w) as [f|].
  - destruct (f_readable f); eauto.
  - change (PyStr.truthy (OsPath.dirname PROCESSED_VIDEOS_FILE)) with true. eauto.
Qed.

End LedgerLoad.

(** C6 (the code departs from the claim and from its own docstring).
    [get_processed_videos] is documented to return an empty set when the
    file does not exist.  For a path without a directory part it calls
    [os.makedirs('')], outside any [try], and the [FileNotFoundError] of
    that call escapes: loading the missing ledger "processed_videos.txt"
    raises instead of returning the empty set. *)
Theorem load_missing_bare_name_raises :
  utils.get_processed_videos "processed_videos.txt" (World ∅ []) =
  (Raise (Exn FileNotFoundError "[Errno 2] No such file or directory: ''"), World ∅ []).
Proof. reflexivity. Qed.

(** ** Appending to the ledger *)

Section LedgerAppend.

Import utils PyStr.

Fixpoint ends_with (c : ascii) (s : string) : bool :=
  match s with
  | EmptyString => false
  | String d EmptyString => Ascii.eqb d c
  | String _ s' => ends_with c s'
  end.

(** The text is empty or its last character is a line feed. *)
Definition line_terminated (s : string) : bool :=
  match s with
  | EmptyString => true
  | _ => ends_with LF s
  end.

(** An id that the loader gives back as it is: not empty, no white space
    around it, no line break in it. *)
Definition clean_id (video_id : string) : bool :=
  truthy video_id && String.eqb (strip video_id) video_id && one_line video_id.

(** The ledger file, when there is one, can be read and ends its last line. *)
Definition ledger_wellformed (filepath : string) (w : world) : Prop :=
  match Os.lookup filepath w with
  | None => True
  | Some f => f_readable f = true /\ line_terminated (f_data f) = true
  end.

Lemma ends_with_split (c : ascii) (s : string) :
  ends_with c s = true -> exists s', s = s' +:+ String c "".
Proof.
  induction s as [|d s IH]; [discriminate|].
  destruct s as [|d' s].
  - simpl. intros ->%Ascii.eqb_eq. exists "". reflexivity.
  - intros H. destruct (IH H) as [s' ->]. exists (String d s'). reflexivity.
Qed.

Lemma ends_with_app (c : ascii) (s : string) : ends_with c (s +:+ String c "") = true.
Proof.
  induction s as [|d s IH]; [apply Ascii.eqb_refl|].
  rewrite app_cons. simpl.
  destruct (s +:+ String c "") eqn:Hs; [|exact IH].
  destruct s; discriminate.
Qed.

Lemma line_terminated_app (s t : string) : line_terminated (s +:+ t +:+ String LF "") = true.
Proof.
  rewrite <- app_assoc_str. unfold line_terminated.
  destruct ((s +:+ t) +:+ String LF "") eqn:H.
  - reflexivity.
  - rewrite <- H. apply ends_with_app.
Qed.

Lemma ids_of_text_empty : ids_of_text "" = ∅.
Proof. reflexivity. Qed.

Lemma ids_of_text_one (video_id : string) :
  clean_id video_id = true -> ids_of_text (video_id +:+ String LF "") = {[video_id]}.
Proof.
  unfold clean_id. intros [[Ht Hs%String.eqb_eq]%andb_prop Hl]%andb_prop.
  unfold ids_of_text. rewrite (readlines_one_line _ Hl). simpl.
  rewrite strip_app_LF, Hs.
  rewrite filter_cons_True by exact Ht. rewrite filter_nil. simpl.
  apply (right_id_L ∅ (∪)).
Qed.

Lemma ids_of_text_after_LF (a b : string) :
  ids_of_text (a +:+ String LF b) = ids_of_text (a +:+ String LF "") ∪ ids_of_text b.
Proof.
  unfold ids_of_text. rewrite readlines_app_LF, fmap_app, filter_app.
  apply list_to_set_app_L.
Qed.

(** One more line on a line-terminated text adds one id to the set. *)
Lemma ids_of_text_append (text video_id : string) :
  line_terminated text = true -> clean_id video_id = true ->
  ids_of_text (text +:+ video_id +:+ String LF "") = ids_of_text text ∪ {[video_id]}.
Proof.
  intros Ht Hc. destruct text as [|c text].
  - rewrite app_empty_l, (ids_of_text_one _ Hc), ids_of_text_empty.
    symmetry. apply (left_id_L ∅ (∪)).
  - apply ends_with_split in Ht as [s' ->].
    rewrite app_assoc_str. change (String LF "" +:+ ?x) with (String LF x).
    rewrite ids_of_text_after_LF, (ids_of_text_one _ Hc). reflexivity.
Qed.

End LedgerAppend.

(** C7, counterexample.  The id "7301 " is appended with success, and a
    fresh load does not contain it: the loader strips every line, so that
    the set holds "7301". *)
Lemma append_then_load_loses_unclean_id :
  let w0 := World ∅ [] in
  let w1 := snd (utils.add_processed_video "7301 " utils.PROCESSED_VIDEOS_FILE w0) in
  fst (utils.add_processed_video "7301 " utils.PROCESSED_VIDEOS_FILE w0) = Ok true
  /\ fst (utils.is_video_processed "7301 " utils.PROCESSED_VIDEOS_FILE w1) = Ok false
  /\ fst (utils.get_processed_videos utils.PROCESSED_VIDEOS_FILE w1) = Ok {["7301"]}.
Proof. vm_compute. repeat split; reflexivity. Qed.

(** C7, as amended.  For an id that is not empty, has no white space around
    it and no line break in it, on a ledger file that is absent or readable
    and line-terminated: once [add_processed_video] has returned [True], a
    fresh load holds the ids it held before and this id, and
    [is_video_processed] is true; a second append of the same id succeeds
    too and leaves the loaded set as it was after the first, with the id in
    it once. *)
Theorem append_is_idempotent_on_membership (video_id filepath : string) (w : world) :
  clean_id video_id = true ->
  ledger_wellformed filepath w ->
  fst (utils.add_processed_video video_id filepath w) = Ok true ->
  let w1 := snd (utils.add_processed_video video_id filepath w) in
  let w2 := snd (utils.add_processed_video video_id filepath w1) in
  exists before : gset string,
    fst (utils.get_processed_videos filepath w) = Ok before
    /\ fst (utils.get_processed_videos filepath w1) = Ok (before ∪ {[video_id]})
    /\ fst (utils.is_video_processed video_id filepath w1) = Ok true
    /\ fst (utils.add_processed_video video_id filepath w1) = Ok true
    /\ fst (utils.get_processed_videos filepath w2) = Ok (before ∪ {[video_id]})
    /\ fst (utils.is_video_processed video_id filepath w2) = Ok true.
Proof.
  intros Hc Hwf Hadd w1 w2. subst w2 w1. revert Hadd.
  rewrite !add_processed_video_eq.
  destruct (PyStr.truthy (OsPath.dirname filepath)) eqn:Hd; [|discriminate].
  pose proof (dirname_truthy _ Hd) as Hp.
  unfold ledger_wellformed, Os.lookup in Hwf. rewrite Hp in Hwf.
  assert (Hset : forall s : gset string, video_id ∈ s ∪ {[video_id]}).
  { intros s. apply elem_of_union_r, elem_of_singleton_2, eq_refl. }
  destruct (files w !! filepath) as [f|] eqn:Hf.
  - destruct Hwf as [Hr Hlt].
    destruct (f_writable f) eqn:Hw; [|discriminate]. intros _. simpl.
    rewrite lookup_insert_eq. simpl.
    exists (utils.ids_of_text (f_data f)).
    rewrite !contains_is_membership, !get_processed_videos_eq.
    unfold Os.lookup. rewrite Hp, Hf, Hr. simpl.
    rewrite !lookup_insert_eq. simpl. rewrite ?Hr.
    rewrite (ids_of_text_append _ _ Hlt Hc).
    rewrite (ids_of_text_append _ _ (line_terminated_app _ _) Hc).
    rewrite (ids_of_text_append _ _ Hlt Hc).
    rewrite !bool_decide_eq_true_2 by apply Hset.
    repeat split; try reflexivity. f_equal.
    rewrite <- (assoc_L (∪)), (idemp_L (∪)). reflexivity.
  - intros _. simpl. rewrite lookup_insert_eq. simpl.
    exists ∅.
    rewrite !contains_is_membership, !get_processed_videos_eq.
    unfold Os.lookup. rewrite Hp, Hf, Hd. simpl.
    rewrite !lookup_insert_eq. simpl.
    rewrite (ids_of_text_one _ Hc).
    assert (Hlt : line_terminated (video_id +:+ String PyStr.LF "") = true).
    { apply (line_terminated_app "" video_id). }
    rewrite (ids_of_text_append _ _ Hlt Hc), (ids_of_text_one _ Hc).
    rewrite (left_id_L ∅ (∪)), (idemp_L (∪)).
    rewrite !bool_decide_eq_true_2 by apply elem_of_singleton_2, eq_refl.
    repeat split; reflexivity.
Qed.

Lemma append_is_idempotent_on_membership_witness :
  let w := World (<["data/processed_videos.txt" :=
                     File ("7300" +:+ String PyStr.LF "") true true]> ∅) [] in
  let w1 := snd (utils.add_processed_video "7301" utils.PROCESSED_VIDEOS_FILE w) in
  let w2 := snd (utils.add_processed_video "7301" utils.PROCESSED_VIDEOS_FILE w1) in
  exists before : gset string,
    fst (utils.get_processed_videos utils.PROCESSED_VIDEOS_FILE w) = Ok before
    /\ fst (utils.get_processed_videos utils.PROCESSED_VIDEOS_FILE w1) = Ok (before ∪ {["7301"]})
    /\ fst (utils.is_video_processed "7301" utils.PROCESSED_VIDEOS_FILE w1) = Ok true
    /\ fst (utils.add_processed_video "7301" utils.PROCESSED_VIDEOS_FILE w1) = Ok true
    /\ fst (utils.get_processed_videos utils.PROCESSED_VIDEOS_FILE w2) = Ok (before ∪ {["7301"]})
    /\ fst (utils.is_video_processed "7301" utils.PROCESSED_VIDEOS_FILE w2) = Ok true.
Proof.
  apply (append_is_idempotent_on_membership "7301" utils.PROCESSED_VIDEOS_FILE).
  - reflexivity.
  - vm_compute. split; reflexivity.
  - vm_compute. reflexivity.
Defined.

(** ** The filter chain of the transform *)

Section Filters.

Import editor.

Lemma make_even_even (x : Z) : make_even x = if Z.even x then x else x - 1.
Proof.
  unfold make_even. rewrite Zmod_even. destruct (Z.even x); reflexivity.
Qed.

Lemma make_even_is_even (x : Z) : Z.even (make_even x) = true.
Proof.
  rewrite make_even_even. destruct (Z.even x) eqn:H; [exact H|].
  rewrite Z.even_sub, H. reflexivity.
Qed.

(** Outside ]0, 50[ an integer percentage adds no crop filter. *)
Lemma crop_stage_out_of_range edits video_id (w h p : Z) lq (wd : world) :
  edits !! "crop_percent" = Some (PyInt p) ->
  p <= 0 \/ 50 <= p ->
  crop_stage edits video_id w h lq wd = (Ok [], wd).
Proof.
  intros He Hp. unfold crop_stage. rewrite He. simpl.
  destruct (Z.ltb_spec 0 p), (Z.ltb_spec p 50); try reflexivity; lia.
Qed.

(** Inside ]0, 50[, the filter is made of the two cuts the code computes. *)
Lemma crop_stage_in_range edits video_id (w h p cw ch : Z) lq (wd : world) :
  edits !! "crop_percent" = Some (PyInt p) ->
  0 < p < 50 ->
  crop_each_side w (NInt p) = Ok cw ->
  crop_each_side h (NInt p) = Ok ch ->
  let out_w := if Z.even (w - 2 * cw) then w - 2 * cw else w - 2 * cw - 1 in
  let out_h := if Z.even (h - 2 * ch) then h - 2 * ch else h - 2 * ch - 1 in
  crop_stage edits video_id w h lq wd =
  if (out_w <=? 0) || (out_h <=? 0) then
    (Ok [], add_event (log_event ("Crop dimensions result in invalid output size for "
                                  +:+ video_id +:+ ". Skipping crop.") "WARNING" lq) wd)
  else
    (Ok ["crop=" +:+ PyStr.show_Z out_w +:+ ":" +:+ PyStr.show_Z out_h +:+ ":"
         +:+ PyStr.show_Z cw +:+ ":" +:+ PyStr.show_Z ch],
     add_event (log_event ("Applying crop with FFmpeg: "
                           +:+ crop_filter_text out_w out_h cw ch) "DEBUG" lq) wd).
Proof.
  intros He Hp Hw Hh out_w out_h. unfold crop_stage. rewrite He. simpl.
  destruct (Z.ltb_spec 0 p); [|lia]. destruct (Z.ltb_spec p 50); [|lia]. simpl.
  unfold bind, lift. rewrite Hw, Hh. rewrite !make_even_even.
  fold out_w out_h. rewrite !editor_log_emit.
  destruct ((out_w <=? 0) || (out_h <=? 0)); reflexivity.
Qed.

Definition cut_is_floor (p w : Z) : bool :=
  match crop_each_side w (NInt p) with
  | Ok c => c =? w * p / 100
  | Raise _ => false
  end.

Lemma cut_is_floor_2_upto_4096 : forallb (cut_is_floor 2) (seqZ 0 4097) = true.
Proof. vm_compute. reflexivity. Qed.

(** For the default two per cent the double-precision cut is the floor, at
    every dimension up to 4096. *)
Lemma crop_each_side_default (w : Z) :
  0 <= w <= 4096 -> crop_each_side w (NInt 2) = Ok (w * 2 / 100).
Proof.
  intros Hw. pose proof cut_is_floor_2_upto_4096 as H.
  rewrite forallb_forall in H. specialize (H w).
  unfold cut_is_floor in H.
  destruct (crop_each_side w (NInt 2)) as [c|e].
  - f_equal. apply Z.eqb_eq, H, list_elem_of_In, elem_of_seqZ. lia.
  - discriminate H. apply list_elem_of_In, elem_of_seqZ. lia.
Qed.

Lemma crop_filter_text_not_hflip (a b c d : Z) : crop_filter_text a b c d <> "hflip".
Proof. unfold crop_filter_text. discriminate. Qed.

Lemma crop_stage_no_hflip edits video_id (w h : Z) lq (wd : world) fs :
  fst (crop_stage edits video_id w h lq wd) = Ok fs -> "hflip" ∉ fs.
Proof.
  unfold crop_stage.
  destruct (PyVal.as_num _) as [cp|]; [|discriminate].
  destruct (PyVal.gt_0 cp && PyVal.lt_50 cp).
  2:{ intros [= <-]. apply not_elem_of_nil. }
  unfold bind, lift.
  destruct (crop_each_side w cp) as [cw|]; [|discriminate].
  destruct (crop_each_side h cp) as [ch|]; [|discriminate].
  rewrite !editor_log_emit.
  destruct (_ || _); simpl; intros [= <-].
  - apply not_elem_of_nil.
  - intros Hin%list_elem_of_singleton. symmetry in Hin.
    exact (crop_filter_text_not_hflip _ _ _ _ Hin).
Qed.

Lemma mirror_stage_absent edits lq (wd : world) :
  edits !! "mirror" = None -> mirror_stage edits lq wd = (Ok [], wd).
Proof. intros He. unfold mirror_stage. rewrite He. reflexivity. Qed.

Lemma crop_stage_absent edits video_id (w h : Z) lq (wd : world) :
  edits !! "crop_percent" = None -> crop_stage edits video_id w h lq wd = (Ok [], wd).
Proof. intros He. unfold crop_stage. rewrite He. reflexivity. Qed.

End Filters.




(** The figures of the specification, on the code. *)
Example crop_stage_examples :
  let run edits w h := fst (editor.crop_stage edits "v" w h true (World ∅ [])) in
  run (<["crop_percent" := PyInt 2]> ∅) 1000 500 = Ok ["crop=960:480:20:10"]
  /\ run (<["crop_percent" := PyInt 0]> ∅) 1000 500 = Ok []
  /\ run (<["crop_percent" := PyInt 51]> ∅) 1000 500 = Ok []
  /\ run (<["crop_percent" := PyInt 2]> ∅) 999 500 = Ok ["crop=960:480:19:10"]
  /\ run (<["crop_percent" := PyInt 2]> ∅) 1 500 = Ok [].
Proof. vm_compute. repeat split; reflexivity. Qed.



(** ** Worlds reached by a run *)

Definition remove_file (p : string) (w : world) : world :=
  World (delete p (files w)) (trace w).

Definition put_file (p : string) (f : file) (w : world) : world :=
  World (<[p := f]> (files w)) (trace w).

(** The world in which a program leaves the file it writes. *)
Definition left_file (writes : option string) (post : option file) (w : world) : world :=
  match writes with
  | Some p =>
      if PyStr.truthy p
      then match post with
           | Some f => put_file p f w
           | None => remove_file p w
           end
      else w
  | None => w
  end.

(** [touches P Pev w w']: from [w] to [w'] only files whose path satisfies
    [P] have changed, and the trace has grown by events that satisfy [Pev]. *)
Definition touches (P : string -> Prop) (Pev : event -> Prop) (w w' : world) : Prop :=
  (forall p, ~ P p -> files w' !! p = files w !! p)
  /\ exists new, trace w' = trace w ++ new /\ Forall Pev new.

Section Touches.

Variable P : string -> Prop.
Variable Pev : event -> Prop.

Lemma touches_refl w : touches P Pev w w.
Proof. split; [auto|]. exists []. rewrite app_nil_r. auto. Qed.

Lemma touches_trans w1 w2 w3 :
  touches P Pev w1 w2 -> touches P Pev w2 w3 -> touches P Pev w1 w3.
Proof.
  intros [Hf1 (n1 & Ht1 & Hp1)] [Hf2 (n2 & Ht2 & Hp2)]. split.
  - intros p Hp. rewrite (Hf2 p Hp). auto.
  - exists (n1 ++ n2). rewrite Ht2, Ht1, app_assoc. split; [reflexivity|].
    apply Forall_app; auto.
Qed.

Lemma touches_add_event e w0 w : Pev e -> touches P Pev w0 w -> touches P Pev w0 (add_event e w).
Proof.
  intros He H. apply (touches_trans _ _ _ H). split; [auto|].
  exists [e]. split; [reflexivity|]. repeat constructor. exact He.
Qed.

Lemma touches_remove_file p w0 w : P p -> touches P Pev w0 w -> touches P Pev w0 (remove_file p w).
Proof.
  intros Hp H. apply (touches_trans _ _ _ H). split.
  - intros q Hq. simpl. apply lookup_delete_ne. intros ->. contradiction.
  - exists []. simpl. rewrite app_nil_r. auto.
Qed.

Lemma touches_put_file p f w0 w : P p -> touches P Pev w0 w -> touches P Pev w0 (put_file p f w).
Proof.
  intros Hp H. apply (touches_trans _ _ _ H). split.
  - intros q Hq. simpl. apply lookup_insert_ne. intros ->. contradiction.
  - exists []. simpl. rewrite app_nil_r. auto.
Qed.

Lemma touches_left_file writes post w0 w :
  (forall p, writes = Some p -> P p) ->
  touches P Pev w0 w -> touches P Pev w0 (left_file writes post w).
Proof.
  intros Hw H. unfold left_file. destruct writes as [p|]; [|exact H].
  destruct (PyStr.truthy p); [|exact H].
  destruct post; [apply touches_put_file | apply touches_remove_file]; auto.
Qed.

End Touches.

Lemma touches_weaken (P P' : string -> Prop) (Pev Pev' : event -> Prop) w w' :
  (forall p, P p -> P' p) -> (forall e, Pev e -> Pev' e) ->
  touches P Pev w w' -> touches P' Pev' w w'.
Proof.
  intros HP HE [Hf (new & Ht & Hn)]. split.
  - intros p Hp. apply Hf. auto.
  - exists new. split; [exact Ht|]. eapply Forall_impl; eauto.
Qed.

Lemma lookup_add_event p e w : Os.lookup p (add_event e w) = Os.lookup p w.
Proof. reflexivity. Qed.

Lemma lookup_remove_file p w : Os.lookup p (remove_file p w) = None.
Proof. unfold Os.lookup, remove_file. simpl. rewrite lookup_delete_eq. destruct (PyStr.truthy p); reflexivity. Qed.

Lemma leave_file_eq writes post w :
  Subprocess.leave_file writes post w = (Ok tt, left_file writes post w).
Proof.
  unfold Subprocess.leave_file, left_file. destruct writes as [p|]; [|reflexivity].
  destruct (PyStr.truthy p); [|reflexivity]. destruct post; reflexivity.
Qed.

Lemma wp_leave_file writes post w (Q : res unit -> world -> Prop) :
  Q (Ok tt) (left_file writes post w) -> wp (Subprocess.leave_file writes post) w Q.
Proof. unfold wp. rewrite leave_file_eq. auto. Qed.

Lemma wp_Popen E cmd writes w (Q : res Subprocess.popen -> world -> Prop) :
  match run E cmd w with
  | SpawnRaises e => Q (Raise e) (add_event (EvPopen cmd) w)
  | fate => Q (Ok (Subprocess.Proc (default "" (head cmd)) writes fate)) (add_event (EvPopen cmd) w)
  end ->
  wp (Subprocess.Popen E cmd writes) w Q.
Proof. unfold wp, Subprocess.Popen. destruct (run E cmd w); auto. Qed.

Lemma wp_communicate p w (Q : res (string * string) -> world -> Prop) :
  match Subprocess.p_fate p with
  | Exits _ out err post => Q (Ok (out, err)) (left_file (Subprocess.p_writes p) post w)
  | TimesOut _ _ post =>
      Q (Raise (Exn TimeoutExpired "Command timed out")) (left_file (Subprocess.p_writes p) post w)
  | SpawnRaises e => Q (Raise e) w
  end ->
  wp (Subprocess.communicate p) w Q.
Proof.
  unfold wp, Subprocess.communicate, bind.
  destruct (Subprocess.p_fate p); rewrite ?leave_file_eq; auto.
Qed.

Lemma wp_kill p w (Q : res unit -> world -> Prop) :
  Q (Ok tt) (add_event (EvKill (Subprocess.p_prog p)) w) -> wp (Subprocess.kill p) w Q.
Proof. auto. Qed.

Lemma wp_exists_remove p w (Q : res unit -> world -> Prop) :
  Q (Ok tt) (if bool_decide (is_Some (Os.lookup p w)) then remove_file p w else w) ->
  wp (bind (Os.exists_ p) (fun ex => when ex (Os.remove p))) w Q.
Proof.
  unfold wp, bind, Os.exists_, when, Os.remove.
  destruct (Os.lookup p w) eqn:Hl; simpl; rewrite ?Hl; auto.
Qed.

Lemma editor_remove_if_exists_eq p what lq w :
  editor.remove_if_exists_logged p what lq w =
  (Ok tt, if bool_decide (is_Some (Os.lookup p w)) then remove_file p w else w).
Proof.
  unfold editor.remove_if_exists_logged, bind, Os.exists_, when, try_except, Os.remove.
  destruct (Os.lookup p w) eqn:Hl; simpl; rewrite ?Hl; reflexivity.
Qed.

Lemma scraper_remove_if_exists_eq p what lq w :
  scraper.remove_if_exists_logged p what lq w =
  (Ok tt, if bool_decide (is_Some (Os.lookup p w)) then remove_file p w else w).
Proof.
  unfold scraper.remove_if_exists_logged, bind, Os.exists_, when, try_except, Os.remove.
  destruct (Os.lookup p w) eqn:Hl; simpl; rewrite ?Hl; reflexivity.
Qed.

Lemma lookup_after_cleanup p w :
  Os.lookup p (if bool_decide (is_Some (Os.lookup p w)) then remove_file p w else w) = None.
Proof.
  destruct (Os.lookup p w) eqn:Hl; simpl.
  - apply lookup_remove_file.
  - exact Hl.
Qed.

Lemma touches_cleanup P Pev p w0 w :
  P p -> touches P Pev w0 w ->
  touches P Pev w0 (if bool_decide (is_Some (Os.lookup p w)) then remove_file p w else w).
Proof. intros Hp H. destruct (bool_decide _); [apply touches_remove_file|]; auto. Qed.

Definition add_status (text : string) (log_queue : bool) (w : world) : world :=
  if log_queue then add_event (EvPut (STATUS_UPDATE text)) w else w.

Lemma editor_put_status_eq text lq w :
  editor.put_status text lq w = (Ok tt, add_status text lq w).
Proof. destruct lq; reflexivity. Qed.

Lemma scraper_put_status_eq text lq w :
  scraper.put_status text lq w = (Ok tt, add_status text lq w).
Proof. destruct lq; reflexivity. Qed.

Lemma lookup_add_status p text lq w : Os.lookup p (add_status text lq w) = Os.lookup p w.
Proof. destruct lq; reflexivity. Qed.

Lemma touches_add_status P (Pev : event -> Prop) text lq w0 w :
  (forall m, Pev (EvPut m)) -> touches P Pev w0 w -> touches P Pev w0 (add_status text lq w).
Proof. intros He H. destruct lq; [apply touches_add_event; auto | exact H]. Qed.

Lemma touches_if P Pev (c : bool) w0 a b :
  touches P Pev w0 a -> touches P Pev w0 b -> touches P Pev w0 (if c then a else b).
Proof. destruct c; auto. Qed.

(** ** Symbolic execution *)

Definition is_message (e : event) : Prop :=
  match e with
  | EvPut _ | EvPrint _ => True
  | _ => False
  end.

Lemma is_message_log_event m l q : is_message (log_event m l q).
Proof. destruct q; exact I. Qed.

Lemma wp_getsize_cases (p : string) w (Q : res Z -> world -> Prop) :
  match Os.lookup p w with
  | Some f => Q (Ok (Z.of_nat (String.length (f_data f)))) w
  | None => Q (Raise (Exn FileNotFoundError "[Errno 2] No such file or directory")) w
  end ->
  wp (Os.getsize p) w Q.
Proof. unfold wp, Os.getsize. destruct (Os.lookup p w); auto. Qed.

Lemma wp_exists_cases (p : string) w (Q : res bool -> world -> Prop) :
  match Os.lookup p w with
  | Some f => Q (Ok true) w
  | None => Q (Ok false) w
  end ->
  wp (Os.exists_ p) w Q.
Proof. unfold wp, Os.exists_. destruct (Os.lookup p w); auto. Qed.

Lemma wp_remove_cases (p : string) w (Q : res unit -> world -> Prop) :
  match Os.lookup p w with
  | Some f => Q (Ok tt) (remove_file p w)
  | None => Q (Raise (Exn FileNotFoundError "[Errno 2] No such file or directory")) w
  end ->
  wp (Os.remove p) w Q.
Proof. unfold wp, Os.remove. destruct (Os.lookup p w); auto. Qed.

Lemma wp_makedirs_cases (name : string) w (Q : res unit -> world -> Prop) :
  (if PyStr.truthy name then Q (Ok tt) w
   else Q (Raise (Exn FileNotFoundError "[Errno 2] No such file or directory: ''")) w) ->
  wp (Os.makedirs name) w Q.
Proof. unfold wp, Os.makedirs. destruct (PyStr.truthy name); auto. Qed.

Lemma wp_eq {A} (m : M A) w (Q : res A -> world -> Prop) r w' :
  m w = (r, w') -> Q r w' -> wp m w Q.
Proof. unfold wp. intros ->. auto. Qed.

Lemma wp_communicate_killed p w (Q : res (string * string) -> world -> Prop) :
  match Subprocess.p_fate p with
  | Exits _ out err _ | TimesOut out err _ => Q (Ok (out, err)) w
  | SpawnRaises e => Q (Raise e) w
  end ->
  wp (Subprocess.communicate_killed p) w Q.
Proof. unfold wp, Subprocess.communicate_killed. destruct (Subprocess.p_fate p); auto. Qed.

Ltac wp_case x :=
  lazymatch goal with
  | H : x = _ |- _ => rewrite H
  | _ => let Hc := fresh "Hcase" in destruct x eqn:Hc
  end.

Ltac wp_lookup := rewrite ?lookup_add_event, ?lookup_add_status.

(** The class tests of the [except] clauses, on an exception that is known. *)
Ltac wp_classes :=
  repeat match goal with
    | |- context [is_class ?c (Exn ?c' ?m)] =>
        let v := eval cbv in (is_class c (Exn c' EmptyString)) in
        lazymatch v with
        | true => change (is_class c (Exn c' m)) with true
        | false => change (is_class c (Exn c' m)) with false
        end
    | |- context [is_OSError (Exn ?c' ?m)] =>
        let v := eval cbv in (is_OSError (Exn c' EmptyString)) in
        lazymatch v with
        | true => change (is_OSError (Exn c' m)) with true
        | false => change (is_OSError (Exn c' m)) with false
        end
    end.

Ltac wp_step0 :=
  wp_classes;
  lazymatch goal with
  | |- wp (bind _ _) _ _ => apply wp_bind
  | |- wp (ret _) _ _ => apply wp_ret
  | |- wp (raise _) _ _ => apply wp_raise
  | |- wp (lift _) _ _ => apply wp_lift
  | |- wp (emit _) _ _ => apply wp_emit
  | |- wp (print _) _ _ => apply wp_emit
  | |- wp (main.put _) _ _ => apply wp_emit
  | |- wp (editor._log _ _ _) _ _ => rewrite editor_log_emit; apply wp_emit
  | |- wp (scraper._log _ _ _) _ _ => rewrite scraper_log_emit; apply wp_emit
  | |- wp (editor.put_status _ _) _ _ => eapply wp_eq; [apply editor_put_status_eq|]
  | |- wp (scraper.put_status _ _) _ _ => eapply wp_eq; [apply scraper_put_status_eq|]
  | |- wp (when _ _) _ _ => apply wp_when
  | |- wp (try_except _ _) _ _ => apply wp_try_except
  | |- wp (try_finally _ _) _ _ => apply wp_try_finally
  | |- wp (attempt _) _ _ => apply wp_attempt
  | |- wp (Os.exists_ _) _ _ => apply wp_exists_cases; wp_lookup
  | |- wp (Os.getsize _) _ _ => apply wp_getsize_cases; wp_lookup
  | |- wp (Os.remove _) _ _ => apply wp_remove_cases; wp_lookup
  | |- wp (Os.makedirs _) _ _ => apply wp_makedirs_cases
  | |- wp (Subprocess.Popen _ _ _) _ _ => apply wp_Popen
  | |- wp (Subprocess.communicate _) _ _ => apply wp_communicate
  | |- wp (Subprocess.communicate_killed _) _ _ => apply wp_communicate_killed
  | |- wp (Subprocess.kill _) _ _ => apply wp_kill
  | |- wp (editor.remove_if_exists_logged _ _ _) _ _ =>
      eapply wp_eq; [apply editor_remove_if_exists_eq|]
  | |- wp (scraper.remove_if_exists_logged _ _ _) _ _ =>
      eapply wp_eq; [apply scraper_remove_if_exists_eq|]
  | |- wp (if true then ?a else _) ?w ?Q => change (wp a w Q)
  | |- wp (if false then _ else ?b) ?w ?Q => change (wp b w Q)
  | |- wp (if ?b then _ else _) _ _ => wp_case b
  | |- wp (match ?x with _ => _ end) _ _ => wp_case x
  | |- match ?x with _ => _ end => wp_case x
  end;
  cbn [fst snd Subprocess.p_fate Subprocess.p_writes Subprocess.p_prog].

(** The steps for the functions of the program that have a lemma of their
    own; it grows as these lemmas are proved. *)
Ltac wp_hook := fail.

Ltac wp_step := first [wp_hook | wp_step0].

(** ** The transform adapter leaves every file but its output alone *)

Section EditVideo.

Import editor.

Lemma output_path_truthy video_id : PyStr.truthy (output_path video_id) = true.
Proof.
  unfold output_path, OsPath.join.
  destruct (OsPath.starts_with_sep _).
  - apply truthy_app_r. reflexivity.
  - reflexivity.
Qed.

(** The filter chain is computed without touching a file; it only logs. *)
Lemma wp_video_filters edits video_id ow oh lq w (Q : res (list string) -> world -> Prop) :
  (forall r w', touches (fun _ => False) is_message w w' -> Q r w') ->
  wp (video_filters edits video_id ow oh lq) w Q.
Proof.
  intros HQ. apply (wp_mono _ _ (fun _ w' => touches (fun _ => False) is_message w w')).
  { intros r w'. apply HQ. }
  unfold video_filters, mirror_stage, crop_stage.
  repeat wp_step;
    repeat (apply touches_add_event; [apply is_message_log_event|]);
    apply touches_refl.
Qed.

End EditVideo.

Ltac wp_hook ::=
  lazymatch goal with
  | |- wp (editor.video_filters _ _ _ _ _) _ _ => apply wp_video_filters; intros ? ? ?
  end.

(** [Popen] is called on a command of the program [prog]. *)
Definition starts (prog : string) (e : event) : Prop :=
  exists cmd, e = EvPopen cmd /\ head cmd = Some prog.

Definition no_start (prog : string) (e : event) : Prop := ~ starts prog e.

(** A transcode is started: [Popen] is called on an ffmpeg command. *)
Definition is_transcode_start : event -> Prop := starts "ffmpeg".

Definition quiet : event -> Prop := no_start "ffmpeg".

(** Every ffmpeg process of this environment runs out of time. *)
Definition ffmpeg_times_out (E : env) : Prop :=
  forall cmd w, head cmd = Some "ffmpeg" ->
    exists out err post, run E cmd w = TimesOut out err post.

(** The program is not installed: starting it raises [FileNotFoundError]. *)
Definition not_installed (prog : string) (E : env) : Prop :=
  forall cmd w, head cmd = Some prog ->
    exists msg, run E cmd w = SpawnRaises (Exn FileNotFoundError msg).

(** The event [e] has been added to the trace between [w] and [w']. *)
Definition emitted_since (e : event) (w w' : world) : Prop :=
  exists new, trace w' = trace w ++ new /\ e ∈ new.

(** [process.kill()] has been called on [prog] between [w] and [w']. *)
Definition killed_since (prog : string) : world -> world -> Prop :=
  emitted_since (EvKill prog).

Lemma quiet_of_message prog e : is_message e -> no_start prog e.
Proof. intros Hm (cmd & -> & _). exact Hm. Qed.

Lemma quiet_log_event prog m l q : no_start prog (log_event m l q).
Proof. apply quiet_of_message, is_message_log_event. Qed.

Lemma quiet_put prog m : no_start prog (EvPut m).
Proof. apply quiet_of_message. exact I. Qed.

Lemma quiet_print prog s : no_start prog (EvPrint s).
Proof. apply quiet_of_message. exact I. Qed.

Lemma quiet_kill prog prog' : no_start prog (EvKill prog').
Proof. intros (cmd & [=] & _). Qed.

Lemma quiet_driver prog what : no_start prog (EvDriver what).
Proof. intros (cmd & [=] & _). Qed.

Lemma quiet_popen prog cmd : head cmd <> Some prog -> no_start prog (EvPopen cmd).
Proof. intros Hh (cmd' & [= <-] & Hc). contradiction. Qed.

Lemma emitted_here e w0 w :
  touches (fun _ => True) (fun _ => True) w0 w -> emitted_since e w0 (add_event e w).
Proof.
  intros [_ (new & Ht & _)]. exists (new ++ [e]). split.
  - simpl. rewrite Ht, app_assoc. reflexivity.
  - apply elem_of_app. right. apply list_elem_of_singleton. reflexivity.
Qed.

Lemma emitted_then P Pev e w0 w w' :
  emitted_since e w0 w -> touches P Pev w w' -> emitted_since e w0 w'.
Proof.
  intros (new & Ht & Hin) [_ (new' & Ht' & _)]. exists (new ++ new'). split.
  - rewrite Ht', Ht, app_assoc. reflexivity.
  - apply elem_of_app. left. exact Hin.
Qed.

Lemma emitted_add_event e e' w0 w :
  emitted_since e w0 w -> emitted_since e w0 (add_event e' w).
Proof.
  intros H. apply (emitted_then (fun _ => True) (fun _ => True) _ _ _ _ H).
  apply touches_add_event; [exact I | apply touches_refl].
Qed.

Lemma emitted_add_status e text lq w0 w :
  emitted_since e w0 w -> emitted_since e w0 (add_status text lq w).
Proof. destruct lq; [apply emitted_add_event | auto]. Qed.

Lemma emitted_remove_file e p w0 w :
  emitted_since e w0 w -> emitted_since e w0 (remove_file p w).
Proof. intros (new & Ht & Hin). exists new. auto. Qed.

Lemma killed_here prog w0 w :
  touches (fun _ => True) (fun _ => True) w0 w ->
  killed_since prog w0 (add_event (EvKill prog) w).
Proof. apply emitted_here. Qed.

Lemma killed_add_event prog e w0 w :
  killed_since prog w0 w -> killed_since prog w0 (add_event e w).
Proof. apply emitted_add_event. Qed.

Lemma killed_remove_file prog p w0 w :
  killed_since prog w0 w -> killed_since prog w0 (remove_file p w).
Proof. apply emitted_remove_file. Qed.

Ltac touches_side :=
  first [ exact I
        | apply is_message_log_event
        | apply quiet_log_event
        | apply quiet_put
        | apply quiet_print
        | apply quiet_kill
        | apply quiet_driver
        | (apply quiet_popen; discriminate)
        | (apply quiet_of_message; assumption)
        | reflexivity
        | (intros ? [= <-]; reflexivity)
        | (intros ? [=])
        | assumption ].

Ltac touches_solve :=
  repeat first
    [ apply touches_refl
    | apply touches_add_event; [touches_side|]
    | apply touches_remove_file; [touches_side|]
    | apply touches_put_file; [touches_side|]
    | apply touches_left_file; [touches_side|]
    | apply touches_add_status; [intros; touches_side|]
    | apply touches_if
    | match goal with
      | H : touches _ _ ?w1 ?w2 |- touches _ _ _ ?w2 =>
          eapply touches_trans;
          [| eapply touches_weaken; [| | exact H];
             [first [solve [intros ? []] | solve [auto]] | intros; touches_side] ]
      end ].

Section EditVideoFrame.

Import editor.

Ltac wp_go := repeat wp_step.

(** Whatever happens, [edit_video] changes no file but its output. *)
Lemma edit_video_touches E input video_id edits lq w :
  wp (edit_video E input video_id edits lq) w
     (fun _ w' => touches (eq (output_path video_id)) (fun _ => True) w w').
Proof.
  unfold edit_video, before_transcode, after_popen, on_exception.
  wp_go; touches_solve.
Qed.

End EditVideoFrame.

(** ** A transcode that runs out of time *)

Fixpoint last_char (s : string) : option ascii :=
  match s with
  | EmptyString => None
  | String c EmptyString => Some c
  | String _ s' => last_char s'
  end.

Lemma last_char_app (a b : string) :
  PyStr.truthy b = true -> last_char (a +:+ b) = last_char b.
Proof.
  intros Hb. induction a as [|c a IH]; [reflexivity|].
  rewrite app_cons. simpl. rewrite IH.
  destruct (a +:+ b) eqn:Hab; [|reflexivity].
  destruct a; [rewrite app_empty_l in Hab; subst b|]; discriminate.
Qed.

Lemma output_path_last video_id : last_char (editor.output_path video_id) = Some "4"%char.
Proof.
  unfold editor.output_path, OsPath.join.
  destruct (OsPath.starts_with_sep _).
  - rewrite last_char_app by reflexivity. reflexivity.
  - simpl negb. simpl orb. cbv iota.
    rewrite last_char_app by reflexivity.
    rewrite <- app_cons. rewrite last_char_app by reflexivity. reflexivity.
Qed.

Lemma output_path_not_ledger video_id :
  editor.output_path video_id <> utils.PROCESSED_VIDEOS_FILE.
Proof.
  intros H. pose proof (output_path_last video_id) as Hl. rewrite H in Hl. discriminate Hl.
Qed.

Section TranscodeTimeout.

Import editor.

Variable E : env.
Hypothesis Hto : ffmpeg_times_out E.

Ltac wp_go :=
  repeat first
    [ lazymatch goal with
      | |- match run E ?cmd ?w with _ => _ end =>
          let out := fresh "out" in
          let err := fresh "err" in
          let post := fresh "post" in
          let Hr := fresh "Hrun" in
          destruct (Hto cmd w eq_refl) as (out & err & post & Hr); rewrite Hr
      end
    | wp_step ].

Ltac killed_solve :=
  repeat first
    [ (apply killed_here; solve [touches_solve])
    | apply killed_add_event
    | apply killed_remove_file ].

(** Under [Hto], [edit_video] never gives a path; and either no transcode
    is started, or the ffmpeg process is killed and no file is left at
    the output path. *)
Lemma edit_video_transcode_timeout input video_id edits lq w :
  wp (edit_video E input video_id edits lq) w
     (fun r w' =>
        ((exists e, r = Raise e) \/ r = Ok None)
        /\ touches (eq (output_path video_id)) (fun _ => True) w w'
        /\ (touches (eq (output_path video_id)) quiet w w'
            \/ (r = Ok None /\ Os.lookup (output_path video_id) w' = None
                /\ killed_since "ffmpeg" w w'))).
Proof.
  unfold edit_video, before_transcode, after_popen, on_exception.
  wp_go.
  all: split; [first [left; eexists; reflexivity | right; reflexivity]|].
  all: split; [solve [touches_solve]|].
  all: first
    [ left; solve [touches_solve]
    | right; split; [reflexivity|]; split;
      [ rewrite ?lookup_add_event, ?lookup_add_status;
        first [apply lookup_remove_file | assumption]
      | solve [killed_solve] ] ].
Qed.

End TranscodeTimeout.

(** ** The worker and the ledger *)

Definition ledger_file (w : world) : option file := files w !! utils.PROCESSED_VIDEOS_FILE.

(** The ledger file after [add_processed_video video_id]. *)
Definition ledger_after_append (video_id : string) (o : option file) : option file :=
  match o with
  | Some f =>
      if f_writable f
      then Some (File (f_data f +:+ video_id +:+ String PyStr.LF "") (f_readable f) true)
      else Some f
  | None => Some (File (video_id +:+ String PyStr.LF "") true true)
  end.

(** The transform gave a path. *)
Definition gave_path (r : res (option string)) : bool :=
  match r with
  | Ok p => from_option PyStr.truthy false p
  | Raise _ => false
  end.

Lemma ledger_file_add_event e w : ledger_file (add_event e w) = ledger_file w.
Proof. reflexivity. Qed.

Lemma ledger_file_touches (P : string -> Prop) Pev w w' :
  ~ P utils.PROCESSED_VIDEOS_FILE -> touches P Pev w w' -> ledger_file w' = ledger_file w.
Proof. intros Hn [Hf _]. apply Hf, Hn. Qed.

Lemma wp_add_processed_video video_id w (Q : res bool -> world -> Prop) :
  (forall b w', ledger_file w' = ledger_after_append video_id (ledger_file w) -> Q (Ok b) w') ->
  wp (utils.add_processed_video video_id utils.PROCESSED_VIDEOS_FILE) w Q.
Proof.
  intros HQ. unfold wp. rewrite add_processed_video_eq.
  change (PyStr.truthy (OsPath.dirname utils.PROCESSED_VIDEOS_FILE)) with true. cbv iota.
  unfold ledger_after_append, ledger_file in HQ.
  destruct (files w !! utils.PROCESSED_VIDEOS_FILE) as [f|] eqn:Hf.
  - destruct (f_writable f) eqn:Hw; apply HQ; simpl.
    + rewrite lookup_insert_eq. reflexivity.
    + exact Hf.
  - apply HQ. simpl. rewrite lookup_insert_eq. reflexivity.
Qed.

Lemma emitted_after P Pev e w0 w1 w2 :
  touches P Pev w0 w1 -> emitted_since e w1 w2 -> emitted_since e w0 w2.
Proof.
  intros [_ (n1 & Ht1 & _)] (n2 & Ht2 & Hin). exists (n1 ++ n2). split.
  - rewrite Ht2, Ht1, app_assoc. reflexivity.
  - apply elem_of_app. right. exact Hin.
Qed.

Lemma killed_after P Pev prog w0 w1 w2 :
  touches P Pev w0 w1 -> killed_since prog w1 w2 -> killed_since prog w0 w2.
Proof. apply emitted_after. Qed.

Section EditItem.

Variable E : env.

(** One item of the worker's loop: the ledger file gets the line of the
    item when the transform gave a path, and is left as it is otherwise. *)
Lemma edit_item_ledger total i info w :
  wp (main.edit_item E total i info) w
     (fun r w' =>
        ledger_file w' = if gave_path r
                         then ledger_after_append (scraper.vi_id info) (ledger_file w)
                         else ledger_file w).
Proof.
  unfold main.edit_item.
  repeat first
    [ (eapply wp_mono; [|apply edit_video_touches]); intros r1 w1 Ht; cbv beta;
      apply (ledger_file_touches _ _ _ _ (fun H => output_path_not_ledger _ H)) in Ht
    | apply wp_add_processed_video; intros ? ? ?
    | wp_step ];
    simpl gave_path; rewrite ?ledger_file_add_event in *; try rewrite Hcase1; congruence.
Qed.

Hypothesis Hto : ffmpeg_times_out E.

(** When every transcode runs out of time, no item is committed; and an
    item for which a transcode was started ends with the process killed
    and no output file. *)
Lemma edit_item_transcode_timeout total i info w :
  wp (main.edit_item E total i info) w
     (fun r w' =>
        ((exists e, r = Raise e) \/ r = Ok None)
        /\ ledger_file w' = ledger_file w
        /\ (touches (eq (editor.output_path (scraper.vi_id info))) quiet w w'
            \/ (r = Ok None
                /\ Os.lookup (editor.output_path (scraper.vi_id info)) w' = None
                /\ killed_since "ffmpeg" w w'))).
Proof.
  unfold main.edit_item.
  repeat first
    [ (eapply wp_mono; [|apply (edit_video_transcode_timeout E Hto)]);
      intros r1 w1 ([[e ->] | ->] & Ht & Hk); cbv beta;
      pose proof (ledger_file_touches _ _ _ _ (fun H => output_path_not_ledger _ H) Ht) as Hl;
      clear Ht
    | wp_step ];
    try discriminate.
  all: split; [first [left; eexists; reflexivity | right; reflexivity]|].
  all: split; [rewrite ?ledger_file_add_event; try assumption; try reflexivity|].
  all: try (left; solve [touches_solve]).
  all: destruct Hk as [Hk | (Heq & Hk1 & Hk2)]; try discriminate Heq.
  all: try (left; solve [touches_solve]).
  all: right; split; [reflexivity|]; split;
    [ rewrite ?lookup_add_event; exact Hk1
    | repeat apply killed_add_event;
      refine (killed_after (fun _ => True) (fun _ => True) _ _ _ _ _ Hk2);
      solve [touches_solve] ].
Qed.

End EditItem.

Lemma quiet_not_started (new : list event) :
  Forall quiet new -> Exists is_transcode_start new -> False.
Proof.
  intros Hq He. apply Exists_exists in He as (e & Hin & Hs).
  rewrite Forall_forall in Hq. exact (Hq e Hin Hs).
Qed.



(** An environment in which ffprobe answers 1000x500 and every ffmpeg
    process runs out of time with a partial output file. *)
Definition env_ffmpeg_hangs : env :=
  Env true
    (fun cmd _ =>
       if bool_decide (head cmd = Some "ffmpeg")
       then TimesOut "" "frame=   12" (Some (File "partial" true true))
       else Exits 0 "1000x500" "" None)
    None "" (fun url => Ok url) (fun _ => false).

Definition world_one_download : world :=
  World (<["videos/7301000000000000001.mp4" := File "mp4 data" true true]> ∅) [].


(** ** The fetch adapter *)

(** The ids that [get_processed_videos] loads from the ledger of the program. *)
Definition ledger_ids (w : world) : gset string :=
  match ledger_file w with
  | Some f => if f_readable f then utils.ids_of_text (f_data f) else ∅
  | None => ∅
  end.

Lemma ledger_ids_ext w w' : ledger_file w' = ledger_file w -> ledger_ids w' = ledger_ids w.
Proof. unfold ledger_ids. intros ->. reflexivity. Qed.

Lemma get_processed_videos_default w :
  exists w', utils.get_processed_videos utils.PROCESSED_VIDEOS_FILE w = (Ok (ledger_ids w), w')
             /\ touches (fun _ => False) is_message w w'.
Proof.
  rewrite get_processed_videos_eq. unfold ledger_ids, ledger_file.
  change (Os.lookup utils.PROCESSED_VIDEOS_FILE w) with (files w !! utils.PROCESSED_VIDEOS_FILE).
  destruct (files w !! utils.PROCESSED_VIDEOS_FILE) as [f|].
  - destruct (f_readable f); eexists; (split; [reflexivity|]); touches_solve.
  - eexists. split; [reflexivity|]. touches_solve.
Qed.

Lemma is_video_processed_default video_id w :
  fst (utils.is_video_processed video_id utils.PROCESSED_VIDEOS_FILE w)
  = Ok (bool_decide (video_id ∈ ledger_ids w)).
Proof.
  rewrite is_video_processed_eq.
  destruct (get_processed_videos_default w) as (w' & -> & _). reflexivity.
Qed.

Lemma wp_is_video_processed video_id w (Q : res bool -> world -> Prop) :
  (forall w', touches (fun _ => False) is_message w w' ->
              Q (Ok (bool_decide (video_id ∈ ledger_ids w))) w') ->
  wp (utils.is_video_processed video_id utils.PROCESSED_VIDEOS_FILE) w Q.
Proof.
  intros HQ. unfold wp. rewrite is_video_processed_eq.
  destruct (get_processed_videos_default w) as (w' & -> & Ht). apply HQ, Ht.
Qed.

Lemma download_path_last folder video_id :
  last_char (scraper.download_path folder video_id) = Some "4"%char.
Proof.
  unfold scraper.download_path, OsPath.join.
  destruct (OsPath.starts_with_sep _).
  - rewrite last_char_app by reflexivity. reflexivity.
  - destruct (negb (PyStr.truthy folder) || OsPath.ends_with_sep folder).
    + rewrite last_char_app by (apply truthy_app_r; reflexivity).
      rewrite last_char_app by reflexivity. reflexivity.
    + rewrite last_char_app by reflexivity.
      rewrite <- app_cons. rewrite last_char_app by reflexivity. reflexivity.
Qed.

Lemma download_path_not_ledger folder video_id :
  scraper.download_path folder video_id <> utils.PROCESSED_VIDEOS_FILE.
Proof.
  intros H. pose proof (download_path_last folder video_id) as Hl. rewrite H in Hl.
  discriminate Hl.
Qed.

Lemma emitted_left_file e writes post w0 w :
  emitted_since e w0 w -> emitted_since e w0 (left_file writes post w).
Proof.
  intros (new & Ht & Hin). exists new. split; [|exact Hin].
  unfold left_file. destruct writes as [p|]; [|exact Ht].
  destruct (PyStr.truthy p); [|exact Ht]. destruct post; exact Ht.
Qed.

Lemma emitted_if e (c : bool) w0 a b :
  emitted_since e w0 a -> emitted_since e w0 b -> emitted_since e w0 (if c then a else b).
Proof. destruct c; auto. Qed.

Ltac emitted_solve :=
  repeat first
    [ (apply emitted_here; solve [touches_solve])
    | apply emitted_add_event
    | apply emitted_add_status
    | apply emitted_remove_file
    | apply emitted_left_file
    | apply emitted_if ].

Ltac wp_hook ::=
  lazymatch goal with
  | |- wp (editor.video_filters _ _ _ _ _) _ _ => apply wp_video_filters; intros ? ? ?
  | |- wp (utils.is_video_processed _ utils.PROCESSED_VIDEOS_FILE) _ _ =>
      apply wp_is_video_processed; intros ? ?
  end.

Section DownloadVideo.

Import scraper.

Variable E : env.

Ltac wp_go := repeat wp_step.

(** Whatever happens, [download_video] changes no file but the one it
    downloads to. *)
Lemma download_video_touches video_id video_url folder lq w :
  wp (download_video E video_id video_url folder lq) w
     (fun _ w' => touches (eq (download_path folder video_id)) (fun _ => True) w w').
Proof.
  unfold download_video, fetch_body, fetch_on_exception, verify_body, verify_on_exception.
  wp_go; touches_solve.
Qed.

End DownloadVideo.

Section DownloadVideoCases.

Import scraper.

Variable E : env.

(** An id that is in the ledger: nothing is fetched. *)
Lemma download_video_skips_processed video_id video_url folder lq w :
  video_id ∈ ledger_ids w ->
  wp (download_video E video_id video_url folder lq) w
     (fun r w' => r = Ok None /\ touches (fun _ => False) is_message w w').
Proof.
  intros Hin. unfold download_video.
  wp_step. wp_step. rewrite bool_decide_eq_true_2 by exact Hin.
  repeat wp_step. split; [reflexivity|]. touches_solve.
Qed.

(** An id that is not in the ledger: the fetch tool is started. *)
Lemma download_video_fetches_unprocessed video_id video_url folder lq w :
  video_id ∉ ledger_ids w ->
  PyStr.truthy folder = true ->
  wp (download_video E video_id video_url folder lq) w
     (fun r w' =>
        emitted_since
          (EvPopen (yt_dlp_command (download_path folder video_id) video_url)) w w').
Proof.
  intros Hin Hf.
  unfold download_video, fetch_body, fetch_on_exception, verify_body, verify_on_exception.
  wp_step. wp_step. rewrite bool_decide_eq_false_2 by exact Hin.
  repeat wp_step.
  all: solve [emitted_solve].
Qed.

(** The fetch tool is not installed: the call returns nothing, changes no
    file, and logs at the critical level, after having tried to start
    the tool. *)
Lemma download_video_tool_missing video_id video_url folder lq w :
  not_installed "yt-dlp" E ->
  video_id ∉ ledger_ids w ->
  PyStr.truthy folder = true ->
  wp (download_video E video_id video_url folder lq) w
     (fun r w' =>
        r = Ok None
        /\ touches (fun _ => False) (fun _ => True) w w'
        /\ emitted_since
             (EvPopen (yt_dlp_command (download_path folder video_id) video_url)) w w'
        /\ emitted_since
             (log_event "CRITICAL: yt-dlp command not found. Ensure yt-dlp is installed and in PATH."
                "CRITICAL" lq) w w').
Proof.
  intros Hm Hin Hf.
  unfold download_video, fetch_on_exception.
  wp_step. wp_step. rewrite bool_decide_eq_false_2 by exact Hin.
  repeat first
    [ lazymatch goal with
      | |- match run E ?cmd ?w with _ => _ end =>
          let msg := fresh "msg" in
          let Hr := fresh "Hrun" in
          destruct (Hm cmd w eq_refl) as (msg & Hr); rewrite Hr
      end
    | wp_step ].
  split; [reflexivity|]. split; [solve [touches_solve]|].
  split; solve [emitted_solve].
Qed.

(** The probe tool is not installed: either the probe was never started,
    or the downloaded file is returned and kept, with a log at the
    critical level. *)
Lemma download_video_probe_missing video_id video_url folder lq w :
  not_installed "ffprobe" E ->
  wp (download_video E video_id video_url folder lq) w
     (fun r w' =>
        touches (eq (download_path folder video_id)) (no_start "ffprobe") w w'
        \/ (r = Ok (Some (download_path folder video_id))
            /\ (exists f, Os.lookup (download_path folder video_id) w' = Some f
                          /\ f_data f <> "")
            /\ emitted_since
                 (log_event
                    "CRITICAL: ffprobe (part of FFmpeg) not found in PATH. Cannot verify video integrity."
                    "CRITICAL" lq) w w')).
Proof.
  intros Hm.
  unfold download_video, fetch_body, fetch_on_exception, verify_body, verify_on_exception.
  repeat first
    [ lazymatch goal with
      | |- match run E ?cmd ?w with _ => _ end =>
          let msg := fresh "msg" in
          let Hr := fresh "Hrun" in
          destruct (Hm cmd w eq_refl) as (msg & Hr); rewrite Hr
      end
    | wp_step ].
  all: try (left; solve [touches_solve]).
  all: try match goal with
           | H : _ && false && _ = true |- _ =>
               exfalso; rewrite andb_false_r in H; discriminate H
           end.
  all: right; split; [reflexivity|]; split; [|solve [emitted_solve]].
  all: eexists; split; [wp_lookup; eassumption|].
  all: match goal with
       | H : _ && (0 <? Z.of_nat (String.length (f_data ?f))) = true |- _ =>
           apply andb_prop in H as [_ H]; destruct (f_data f); [discriminate H | discriminate]
       end.
Qed.

End DownloadVideoCases.

Lemma no_start_not_started prog (new : list event) :
  Forall (no_start prog) new -> Exists (starts prog) new -> False.
Proof.
  intros Hq He. apply Exists_exists in He as (e & Hin & Hs).
  rewrite Forall_forall in Hq. exact (Hq e Hin Hs).
Qed.

Lemma touches_nothing_files Pev w w' :
  touches (fun _ => False) Pev w w' -> files w' = files w.
Proof. intros [Hf _]. apply map_eq. intros p. apply Hf. tauto. Qed.

Section VerifyDownloaded.

Import scraper.

Variable E : env.
Hypothesis Hm : not_installed "ffprobe" E.

(** The stand-alone verifier, on a file that is there and not empty. *)
Lemma verify_downloaded_video_probe_missing filepath video_id lq w f :
  Os.lookup filepath w = Some f ->
  f_data f <> "" ->
  wp (verify_downloaded_video E filepath video_id lq) w
     (fun r w' =>
        r = Ok true
        /\ Os.lookup filepath w' = Some f
        /\ emitted_since
             (log_event
                "CRITICAL: ffprobe (part of FFmpeg) not found in PATH. Cannot verify video integrity."
                "CRITICAL" lq) w w').
Proof.
  intros Hl Hne. unfold verify_downloaded_video.
  assert (Hsize : (Z.of_nat (String.length (f_data f)) =? 0) = false).
  { destruct (f_data f); [contradiction | reflexivity]. }
  repeat first
    [ lazymatch goal with
      | |- match run E ?cmd ?w with _ => _ end =>
          let msg := fresh "msg" in
          let Hr := fresh "Hrun" in
          destruct (Hm cmd w eq_refl) as (msg & Hr); rewrite Hr
      | |- wp (if negb true || (_ =? 0) then _ else _) _ _ => rewrite Hsize; simpl orb
      end
    | wp_step ].
  split; [reflexivity|]. split; [wp_lookup; exact Hl|]. solve [emitted_solve].
Qed.

End VerifyDownloaded.

(** C8.  When ffprobe is not installed (starting it raises
    [FileNotFoundError]): a run of [download_video] that gets as far as the
    probe returns the path of the downloaded file, which is still there and
    not empty, and logs at the critical level; and
    [verify_downloaded_video], on a file that is there and not empty,
    returns [True], keeps the file and logs at the critical level. *)
Theorem missing_probe_passes_the_artifact (E : env) :
  not_installed "ffprobe" E ->
  (forall video_id video_url folder lq w r w' new,
      scraper.download_video E video_id video_url folder lq w = (r, w') ->
      trace w' = trace w ++ new ->
      Exists (starts "ffprobe") new ->
      r = Ok (Some (scraper.download_path folder video_id))
      /\ (exists f, Os.lookup (scraper.download_path folder video_id) w' = Some f
                    /\ f_data f <> "")
      /\ log_event "CRITICAL: ffprobe (part of FFmpeg) not found in PATH. Cannot verify video integrity."
           "CRITICAL" lq ∈ new)
  /\ (forall filepath video_id lq w r w' new f,
        Os.lookup filepath w = Some f ->
        f_data f <> "" ->
        scraper.verify_downloaded_video E filepath video_id lq w = (r, w') ->
        trace w' = trace w ++ new ->
        r = Ok true
        /\ Os.lookup filepath w' = Some f
        /\ log_event "CRITICAL: ffprobe (part of FFmpeg) not found in PATH. Cannot verify video integrity."
             "CRITICAL" lq ∈ new).
Proof.
  intros Hm. split.
  - intros video_id video_url folder lq w r w' new Hrun Htr Hst.
    pose proof (wp_run _ _ _ _ _ Hrun (download_video_probe_missing E _ _ _ _ _ Hm))
      as [Hq | (-> & Hf & (new' & Htr' & Hin))].
    + exfalso. destruct Hq as [_ (new' & Htr' & Hq)].
      rewrite Htr in Htr'. apply app_inv_head in Htr'. subst new'.
      exact (no_start_not_started _ _ Hq Hst).
    + rewrite Htr in Htr'. apply app_inv_head in Htr'. subst new'. auto.
  - intros filepath video_id lq w r w' new f Hl Hne Hrun Htr.
    pose proof (wp_run _ _ _ _ _ Hrun
                  (verify_downloaded_video_probe_missing E Hm _ _ _ _ _ Hl Hne))
      as (-> & Hl' & (new' & Htr' & Hin)).
    rewrite Htr in Htr'. apply app_inv_head in Htr'. subst new'. auto.
Qed.

(** An environment in which yt-dlp downloads a file and ffprobe is not
    installed. *)
Definition env_no_ffprobe : env :=
  Env true
    (fun cmd _ =>
       if bool_decide (head cmd = Some "ffprobe")
       then SpawnRaises (Exn FileNotFoundError "[Errno 2] No such file or directory: 'ffprobe'")
       else Exits 0 "" "" (Some (File "mp4 data" true true)))
    None "" (fun url => Ok url) (fun _ => false).

Lemma missing_probe_passes_the_artifact_witness :
  let run := scraper.download_video env_no_ffprobe "7301000000000000001"
               "https://www.tiktok.com/@a/video/7301000000000000001" "videos" true (World ∅ []) in
  fst run = Ok (Some "videos/7301000000000000001.mp4")
  /\ (exists f, Os.lookup "videos/7301000000000000001.mp4" (snd run) = Some f /\ f_data f <> "")
  /\ EvPut (LOG "CRITICAL: ffprobe (part of FFmpeg) not found in PATH. Cannot verify video integrity."
              "CRITICAL") ∈ trace (snd run).
Proof.
  intros run.
  assert (Hm : not_installed "ffprobe" env_no_ffprobe).
  { intros cmd w H. simpl. rewrite bool_decide_eq_true_2 by exact H. eauto. }
  destruct (missing_probe_passes_the_artifact env_no_ffprobe Hm) as [H _].
  apply (H "7301000000000000001" "https://www.tiktok.com/@a/video/7301000000000000001"
           "videos" true (World ∅ []) (fst run) (snd run) (trace (snd run))).
  - apply surjective_pairing.
  - reflexivity.
  - apply Exists_exists.
    exists (EvPopen (scraper.ffprobe_command "videos/7301000000000000001.mp4")).
    split; [|eexists; split; reflexivity].
    apply list_elem_of_In. vm_compute. tauto.
Defined.

(** C3, counterexample.  With the same id, url and tools, [download_video]
    downloads when the ledger does not hold the id, and returns nothing,
    without starting any process, when the ledger holds it. *)
Lemma fetch_adapter_depends_on_ledger :
  let id := "7301000000000000001" in
  let url := "https://www.tiktok.com/@a/video/7301000000000000001" in
  let without := World ∅ [] in
  let within := World (<["data/processed_videos.txt" :=
                          File ("7301000000000000001" +:+ String PyStr.LF "") true true]> ∅) [] in
  fst (scraper.download_video env_no_ffprobe id url "videos" true without)
  = Ok (Some "videos/7301000000000000001.mp4")
  /\ fst (scraper.download_video env_no_ffprobe id url "videos" true within) = Ok None
  /\ trace (snd (scraper.download_video env_no_ffprobe id url "videos" true within))
     = [EvPut (LOG "Video 7301000000000000001 already processed (checked again). Skipping download."
                 "INFO")].
Proof. vm_compute. repeat split; reflexivity. Qed.

(** C3, as amended.  The fetch adapter checks the ledger itself: when
    [is_video_processed] is true for the id, [download_video] returns
    nothing, changes no file and starts no process; when it is false (and
    the download folder has a name), the fetch tool is started on the url. *)
Theorem fetch_adapter_rechecks_ledger (E : env) (video_id video_url folder : string)
    (lq : bool) (w : world) :
  let run := scraper.download_video E video_id video_url folder lq w in
  (fst (utils.is_video_processed video_id utils.PROCESSED_VIDEOS_FILE w) = Ok true ->
   fst run = Ok None
   /\ files (snd run) = files w
   /\ exists new, trace (snd run) = trace w ++ new /\ Forall is_message new)
  /\ (fst (utils.is_video_processed video_id utils.PROCESSED_VIDEOS_FILE w) = Ok false ->
      PyStr.truthy folder = true ->
      exists new, trace (snd run) = trace w ++ new
                  /\ EvPopen (scraper.yt_dlp_command (scraper.download_path folder video_id)
                                video_url) ∈ new).
Proof.
  intros run. subst run. rewrite is_video_processed_default. split.
  - intros [= Hin%bool_decide_eq_true_1].
    pose proof (download_video_skips_processed E video_id video_url folder lq w Hin) as Hwp.
    unfold wp in Hwp. destruct Hwp as [Hr Ht]. split; [exact Hr|].
    split; [exact (touches_nothing_files _ _ _ Ht) | exact (proj2 Ht)].
  - intros [= Hin%bool_decide_eq_false_1] Hf.
    exact (download_video_fetches_unprocessed E video_id video_url folder lq w Hin Hf).
Qed.

Lemma fetch_adapter_rechecks_ledger_witness :
  let within := World (<["data/processed_videos.txt" :=
                          File ("7301000000000000001" +:+ String PyStr.LF "") true true]> ∅) [] in
  let run := scraper.download_video env_no_ffprobe "7301000000000000001"
               "https://www.tiktok.com/@a/video/7301000000000000001" "videos" true within in
  fst run = Ok None
  /\ files (snd run) = files within
  /\ exists new, trace (snd run) = trace within ++ new /\ Forall is_message new.
Proof.
  intros within run.
  apply (proj1 (fetch_adapter_rechecks_ledger env_no_ffprobe "7301000000000000001"
                  "https://www.tiktok.com/@a/video/7301000000000000001" "videos" true within)).
  vm_compute. reflexivity.
Defined.

(** ** The editing loop commits exactly the transformed items *)

(** The ids of the items of the loop whose transform gives a path, in the
    order of the loop: the loop is followed item by item, through the worlds
    it goes through, and ends where the loop ends (a stop request or an
    exception). *)
Fixpoint transformed_ids (E : env) (total i : nat) (infos : list scraper.video_info)
    (w : world) : list string :=
  match infos with
  | [] => []
  | info :: rest =>
      if stop_is_set E i then []
      else match main.edit_item E total i info w with
           | (Ok p, w') =>
               (if from_option PyStr.truthy false p then [scraper.vi_id info] else [])
               ++ transformed_ids E total (S i) rest w'
           | (Raise _, _) => []
           end
  end.

(** The text of the ledger file (empty when there is no file). *)
Definition ledger_text (w : world) : string := from_option f_data "" (ledger_file w).

(** The ledger file can be appended to: it is missing or writable. *)
Definition ledger_appendable (w : world) : bool := from_option f_writable true (ledger_file w).

(** One line per id. *)
Fixpoint ledger_lines (ids : list string) : string :=
  match ids with
  | [] => ""
  | video_id :: rest => video_id +:+ String PyStr.LF "" +:+ ledger_lines rest
  end.

Section EditLoop.

Variable E : env.

Lemma ledger_after_appends (ids : list string) (o : option file) :
  from_option f_writable true o = true ->
  from_option f_data "" (foldl (fun o video_id => ledger_after_append video_id o) o ids)
  = from_option f_data "" o +:+ ledger_lines ids.
Proof.
  revert o. induction ids as [|video_id ids IH]; intros o Hw.
  - simpl. rewrite app_empty_r. reflexivity.
  - simpl foldl. rewrite IH.
    + destruct o as [f|]; simpl in *.
      * rewrite Hw. simpl. rewrite !app_assoc_str. reflexivity.
      * rewrite !app_assoc_str. reflexivity.
    + destruct o as [f|]; simpl in *; [rewrite Hw|]; reflexivity.
Qed.

(** The result of [edit_item] is the result of its call of [edit_video]. *)
Lemma edit_item_result total i info w :
  PyStr.truthy (scraper.vi_id info) = true ->
  PyStr.truthy (scraper.vi_filepath info) = true ->
  exists w2, touches (fun _ => False) is_message w w2
    /\ fst (main.edit_item E total i info w)
       = fst (editor.edit_video E (scraper.vi_filepath info) (scraper.vi_id info) None true w2).
Proof.
  intros Hid Hpath.
  assert (Hwp : wp (main.edit_item E total i info) w
                  (fun r _ => exists w2, touches (fun _ => False) is_message w w2
                     /\ r = fst (editor.edit_video E (scraper.vi_filepath info)
                                   (scraper.vi_id info) None true w2))).
  2:{ exact Hwp. }
  unfold main.edit_item. rewrite Hid, Hpath. simpl orb. cbv iota.
  wp_step. wp_step. wp_step. wp_step. wp_step.
  unfold wp at 1.
  destruct (editor.edit_video E (scraper.vi_filepath info) (scraper.vi_id info) None true _)
    as [[p|e] w1] eqn:Hev; cbn [fst snd].
  - repeat first [apply wp_add_processed_video; intros ? ? ? | wp_step].
    all: refine (ex_intro _ _ (conj _ _)); [|rewrite Hev; reflexivity]; touches_solve.
  - refine (ex_intro _ _ (conj _ _)); [|rewrite Hev; reflexivity]. touches_solve.
Qed.

Lemma edit_loop_ledger total infos : forall i ec fe w,
  let run := main.edit_loop E total i infos ec fe w in
  ledger_file (snd run)
  = foldl (fun o video_id => ledger_after_append video_id o) (ledger_file w)
      (transformed_ids E total i infos w)
  /\ forall ec' fe', fst run = Ok (ec', fe') ->
       ec' = (ec + length (transformed_ids E total i infos w))%nat.
Proof.
  induction infos as [|info rest IH]; intros i ec fe w run; subst run.
  - simpl. split; [reflexivity|]. intros ec' fe' [= <- <-]. lia.
  - simpl main.edit_loop. simpl transformed_ids.
    destruct (stop_is_set E i).
    { simpl. split; [reflexivity|]. intros ec' fe' [= <- <-]. lia. }
    unfold bind.
    pose proof (edit_item_ledger E total i info w) as Hitem. unfold wp in Hitem.
    destruct (main.edit_item E total i info w) as [[p|e] w1]; cbn [fst snd] in Hitem.
    + simpl gave_path in Hitem.
      destruct (from_option PyStr.truthy false p).
      * destruct (IH (S i) (ec + 1)%nat fe w1) as [IH1 IH2].
        rewrite IH1, Hitem. split; [reflexivity|].
        intros ec' fe' Hr. rewrite (IH2 _ _ Hr). simpl. lia.
      * destruct (IH (S i) ec (fe + 1)%nat w1) as [IH1 IH2].
        rewrite IH1, Hitem. split; [reflexivity|].
        intros ec' fe' Hr. rewrite (IH2 _ _ Hr). simpl. lia.
    + simpl in *. split; [exact Hitem|]. intros ec' fe' [=].
Qed.

End EditLoop.


(** An environment in which ffprobe answers 1000x500 and ffmpeg encodes the
    first video and fails on any other. *)
Definition env_second_transcode_fails : env :=
  Env true
    (fun cmd _ =>
       if bool_decide (head cmd = Some "ffmpeg") then
         if bool_decide (cmd !! 3%nat = Some "videos/7301000000000000001.mp4")
         then Exits 0 "" "" (Some (File "edited" true true))
         else Exits 1 "" "Invalid data found when processing input" None
       else Exits 0 "1000x500" "" None)
    None "" (fun url => Ok url) (fun _ => false).

Definition world_two_downloads : world :=
  World (<["videos/7301000000000000001.mp4" := File "mp4 data" true true]>
           (<["videos/7301000000000000002.mp4" := File "mp4 data" true true]> ∅)) [].


(** ** Discovery *)

(** The pair that one element of the page stands for, if it stands for one:
    its [href] is there, holds /video/, and has a path with a part that
    looks like an id. *)
Definition element_pair (E : env) (el : element) : option (string * string) :=
  match el with
  | Href (Some url) =>
      if PyStr.truthy url && PyStr.contains "/video/" url then
        match urlparse_path E url with
        | Ok path =>
            match List.find scraper.looks_like_id (rev (PyStr.split "/" path)) with
            | Some video_id => Some (video_id, url)
            | None => None
            end
        | Raise _ => None
        end
      else None
  | _ => None
  end.

(** The pairs on the page after the [i]-th scroll, in the order of the page. *)
Definition round_pairs (E : env) (d : driver) (i : nat) : list (string * string) :=
  match drv_scroll d i with
  | Found els => omap (element_pair E) els
  | _ => []
  end.

(** All that the browser offers over the scrolls, in the order of discovery. *)
Definition offered (E : env) (drv : option driver) (scroll_pauses : nat)
    : list (string * string) :=
  match drv with
  | Some d => concat (round_pairs E d <$> seq 0 scroll_pauses)
  | None => []
  end.

(** What holds of the two collections of the scan: no id twice, the set is
    the set of the ids of the list, and no id of the list is in the ledger. *)
Definition collected_ok (w : world) (l : list (string * string)) (found : gset string) : Prop :=
  NoDup l.*1
  /\ (forall video_id, video_id ∈ found <-> video_id ∈ l.*1)
  /\ (forall video_id, video_id ∈ l.*1 -> video_id ∉ ledger_ids w).

Section Discovery.

Import scraper.

Variable E : env.

Lemma ledger_ids_touches Pev w w' :
  touches (fun _ => False) Pev w w' -> ledger_ids w' = ledger_ids w.
Proof. intros Ht. apply ledger_ids_ext. unfold ledger_file. apply (proj1 Ht). tauto. Qed.

Lemma collected_ok_touches Pev w w' l found :
  touches (fun _ => False) Pev w w' -> collected_ok w l found -> collected_ok w' l found.
Proof.
  intros Ht (H1 & H2 & H3). repeat split; auto; try apply H2.
  rewrite (ledger_ids_touches _ _ _ Ht). auto.
Qed.

Lemma collected_ok_snoc w l found video_id url :
  collected_ok w l found -> video_id ∉ found -> video_id ∉ ledger_ids w ->
  collected_ok w (l ++ [(video_id, url)]) ({[video_id]} ∪ found).
Proof.
  intros (H1 & H2 & H3) Hf Hl. rewrite H2 in Hf. split; [|split].
  - rewrite fmap_app. apply NoDup_app. split; [exact H1|]. split.
    + intros x Hx Hx'. apply list_elem_of_singleton in Hx'. subst x. contradiction.
    + apply NoDup_singleton.
  - intros x. rewrite fmap_app, elem_of_app, elem_of_union, elem_of_singleton, H2.
    simpl. rewrite list_elem_of_singleton. tauto.
  - intros x. rewrite fmap_app, elem_of_app. simpl. rewrite list_elem_of_singleton.
    intros [Hx | ->]; auto.
Qed.

(** One element: the collections are left as they are, or get the pair of
    the element, whose id is new and not in the ledger. *)
Lemma scan_element_spec N lq el l found w :
  wp (scan_element E N lq el l found) w
     (fun r w' =>
        touches (fun _ => False) is_message w w'
        /\ exists l' found' stop, r = Ok (l', found', stop)
           /\ ((l' = l /\ found' = found)
               \/ exists video_id url,
                    element_pair E el = Some (video_id, url)
                    /\ (video_id ∉ found) /\ (video_id ∉ ledger_ids w)
                    /\ l' = l ++ [(video_id, url)]
                    /\ found' = {[video_id]} ∪ found)).
Proof.
  unfold scan_element, get_video_id_from_url.
  repeat wp_step.
  all: split; [solve [touches_solve]|].
  all: eexists _, _, _; split; [reflexivity|].
  all: try (left; split; reflexivity).
  all: right; eexists _, _.
  all: subst; unfold element_pair.
  all: repeat match goal with
         | H : _ = _ |- _ => rewrite H
         end.
  apply andb_prop in Hcase4 as [_ Hf%negb_true_iff%bool_decide_eq_false_1].
  apply negb_true_iff, bool_decide_eq_false_1 in Hcase5.
  split; [reflexivity|]. split; [exact Hf|]. split; [exact Hcase5|].
  split; reflexivity.
Qed.

Lemma omap_pairs_cons el els :
  omap (element_pair E) (el :: els)
  = from_option (fun x => [x]) [] (element_pair E el) ++ omap (element_pair E) els.
Proof. simpl. destruct (element_pair E el); reflexivity. Qed.

(** The elements of one round: the list grows by a sublist of the pairs of
    the round, and the collections stay in order. *)
Lemma scan_elements_spec N lq els : forall l found w,
  collected_ok w l found ->
  wp (scan_elements E N lq els l found) w
     (fun r w' =>
        touches (fun _ => False) is_message w w'
        /\ exists l' found' new, r = Ok (l', found') /\ l' = l ++ new
           /\ new `sublist_of` omap (element_pair E) els
           /\ collected_ok w l' found').
Proof.
  induction els as [|el els IH]; intros l found w Hok.
  - simpl. apply wp_ret. split; [apply touches_refl|].
    exists l, found, []. rewrite app_nil_r. repeat split; try apply Hok. constructor.
  - simpl scan_elements. apply wp_bind.
    eapply wp_mono; [|apply scan_element_spec].
    intros r w1 (Ht1 & l1 & f1 & stop & -> & Hstep). cbv beta iota.
    assert (Hok1 : exists new1, l1 = l ++ new1
                     /\ new1 `sublist_of` from_option (fun x => [x]) [] (element_pair E el)
                     /\ collected_ok w l1 f1).
    { destruct Hstep as [[-> ->] | (video_id & url & Hp & Hf & Hl & -> & ->)].
      - exists []. rewrite app_nil_r. split; [reflexivity|]. split; [apply sublist_nil_l|].
        exact Hok.
      - exists [(video_id, url)]. split; [reflexivity|]. rewrite Hp. split; [reflexivity|].
        apply collected_ok_snoc; assumption. }
    destruct Hok1 as (new1 & -> & Hsub1 & Hok1).
    destruct stop.
    + apply wp_ret. split; [exact Ht1|].
      exists (l ++ new1), f1, new1. split; [reflexivity|]. split; [reflexivity|].
      split; [|exact Hok1]. rewrite omap_pairs_cons. apply sublist_inserts_r, Hsub1.
    + eapply wp_mono; [|apply (IH _ _ _ (collected_ok_touches _ _ _ _ _ Ht1 Hok1))].
      intros r w2 (Ht2 & l2 & f2 & new2 & -> & -> & Hsub2 & Hok2).
      split; [exact (touches_trans _ _ _ _ _ Ht1 Ht2)|].
      exists ((l ++ new1) ++ new2), f2, (new1 ++ new2).
      split; [reflexivity|]. split; [rewrite app_assoc; reflexivity|].
      split.
      * rewrite omap_pairs_cons. apply sublist_app; assumption.
      * destruct Hok2 as (H1 & H2 & H3). repeat split; auto; try apply H2.
        intros x Hx. rewrite <- (ledger_ids_touches _ _ _ Ht1). auto.
Qed.

(** The rounds of scrolling: the list grows by a sublist of what the rounds
    offer, keeps its ids distinct and out of the ledger, and no file changes. *)
Lemma scroll_rounds_spec d hashtag N pauses time lq rounds : forall l found w,
  collected_ok w l found ->
  wp (scroll_rounds E d hashtag N pauses time lq rounds l found) w
     (fun r w' =>
        touches (fun _ => False) (fun _ => True) w w'
        /\ exists l' new, r = Ok l' /\ l' = l ++ new
           /\ new `sublist_of` concat (round_pairs E d <$> rounds)
           /\ NoDup l'.*1
           /\ (forall video_id, video_id ∈ l'.*1 -> video_id ∉ ledger_ids w)).
Proof.
  induction rounds as [|i rounds IH]; intros l found w Hok.
  - simpl. apply wp_ret. split; [apply touches_refl|].
    exists l, []. rewrite app_nil_r. repeat split; try apply Hok. constructor.
  - simpl scroll_rounds. unfold round_pairs at 1.
    assert (Hstop : forall w1 : world,
               touches (fun _ => False) (fun _ => True) w w1 ->
               touches (fun _ => False) (fun _ => True) w w1
               /\ exists l' new, Ok l = Ok l' /\ l' = l ++ new
                  /\ new `sublist_of` concat (round_pairs E d <$> i :: rounds)
                  /\ NoDup l'.*1
                  /\ (forall video_id, video_id ∈ l'.*1 -> video_id ∉ ledger_ids w)).
    { intros w1 Ht. split; [exact Ht|]. exists l, []. rewrite app_nil_r.
      repeat split; try apply Hok. apply sublist_nil_l. }
    assert (Hscan : forall els w1,
               touches (fun _ => False) (fun _ => True) w w1 ->
               els `sublist_of` round_pairs E d i ->
               wp (let* r := scan_elements E N lq
                               (match drv_scroll d i with Found e => e | _ => [] end) l found in
                   let '(video_info_list, found_video_ids) := r in
                   if N <=? Z.of_nat (length video_info_list)
                   then _log ("Target number of " +:+ PyStr.show_Z N
                              +:+ " new videos found for hashtag '" +:+ hashtag +:+ "'.")
                          "INFO" lq ;; ret video_info_list
                   else _log ("Collected " +:+ show_nat (length video_info_list)
                              +:+ " new videos so far for hashtag '" +:+ hashtag +:+ "'...")
                          "DEBUG" lq ;;
                        scroll_rounds E d hashtag N pauses time lq rounds
                          video_info_list found_video_ids) w1
                  (fun r w' =>
                     touches (fun _ => False) (fun _ => True) w w'
                     /\ exists l' new, r = Ok l' /\ l' = l ++ new
                        /\ new `sublist_of` concat (round_pairs E d <$> i :: rounds)
                        /\ NoDup l'.*1
                        /\ (forall video_id, video_id ∈ l'.*1 -> video_id ∉ ledger_ids w))).
    { intros _ w1 Ht1 _. apply wp_bind.
      eapply wp_mono;
        [|apply (scan_elements_spec N lq _ _ _ _ (collected_ok_touches _ _ _ _ _ Ht1 Hok))].
      intros r w2 (Ht2 & l2 & f2 & new2 & -> & -> & Hsub2 & Hok2). cbv beta iota.
      assert (Ht12 : touches (fun _ => False) (fun _ => True) w w2).
      { apply (touches_trans _ _ _ _ _ Ht1).
        eapply touches_weaken; [| |exact Ht2]; auto. }
      assert (Hok2' : collected_ok w (l ++ new2) f2).
      { destruct Hok2 as (H1 & H2 & H3). repeat split; auto; try apply H2.
        intros x Hx. rewrite <- (ledger_ids_touches _ _ _ Ht1). auto. }
      assert (Hsub2' : new2 `sublist_of` round_pairs E d i).
      { unfold round_pairs. destruct (drv_scroll d i); try exact Hsub2;
          apply sublist_nil_r in Hsub2; subst new2; apply sublist_nil_l. }
      destruct (N <=? Z.of_nat (length (l ++ new2))).
      - repeat wp_step. split; [solve [touches_solve]|].
        exists (l ++ new2), new2. split; [reflexivity|]. split; [reflexivity|].
        split; [simpl; apply sublist_inserts_r, Hsub2'|].
        split; [apply Hok2' | apply Hok2'].
      - wp_step. wp_step.
        match goal with
        | |- wp _ ?w3 _ =>
            assert (Ht3 : touches (fun _ => False) (fun _ => True) w w3) by touches_solve
        end.
        eapply wp_mono; [|apply (IH _ _ _ (collected_ok_touches _ _ _ _ _ Ht3 Hok2'))].
        intros r w4 (Ht4 & l4 & new4 & -> & -> & Hsub4 & Hnd4 & Hled4).
        split; [exact (touches_trans _ _ _ _ _ Ht3 Ht4)|].
        exists ((l ++ new2) ++ new4), (new2 ++ new4).
        split; [reflexivity|]. split; [rewrite app_assoc; reflexivity|].
        split; [simpl; apply sublist_app; assumption|].
        split; [exact Hnd4|].
        intros x Hx. rewrite <- (ledger_ids_touches _ _ _ Ht3). auto. }
    wp_step. wp_step. wp_step. wp_step.
    destruct (drv_scroll d i) as [e|e|els] eqn:Hscroll.
    + repeat wp_step. apply Hstop. touches_solve.
    + wp_step. wp_step. wp_step. wp_step. wp_step. wp_step. wp_step. wp_step. wp_step.
      wp_step. wp_step.
      apply (Hscan []); [touches_solve | apply sublist_nil_l].
    + wp_step. wp_step. wp_step. wp_step. wp_step. wp_step. wp_step. wp_step.
      apply (Hscan []); [touches_solve | apply sublist_nil_l].
Qed.

End Discovery.

Section DiscoverySpec.

Import scraper.

Variable E : env.

Lemma slice_to_sublist {A} (n : Z) (l : list A) : PyList.slice_to n l `sublist_of` l.
Proof. unfold PyList.slice_to. destruct (n <? 0); apply sublist_take. Qed.

Lemma slice_to_length {A} (n : Z) (l : list A) :
  0 <= n -> Z.of_nat (length (PyList.slice_to n l)) <= n.
Proof.
  intros Hn. unfold PyList.slice_to. destruct (Z.ltb_spec n 0); [lia|].
  rewrite length_take. lia.
Qed.

(** Discovery as a whole. *)
Lemma get_video_links_spec drv hashtag N pauses time lq w :
  wp (get_video_links_from_tiktok E drv hashtag N pauses time lq) w
     (fun r w' =>
        touches (fun _ => False) (fun _ => True) w w'
        /\ exists l, r = Ok l
           /\ l `sublist_of` offered E drv pauses
           /\ NoDup l.*1
           /\ (forall video_id, video_id ∈ l.*1 -> video_id ∉ ledger_ids w)
           /\ (0 <= N -> Z.of_nat (length l) <= N)).
Proof.
  assert (Hnil : forall w1 : world,
             touches (fun _ => False) (fun _ => True) w w1 ->
             touches (fun _ => False) (fun _ => True) w w1
             /\ exists l, Ok [] = Ok l
                /\ l `sublist_of` offered E drv pauses
                /\ NoDup l.*1
                /\ (forall video_id, video_id ∈ l.*1 -> video_id ∉ ledger_ids w)
                /\ (0 <= N -> Z.of_nat (length l) <= N)).
  { intros w1 Ht. split; [exact Ht|]. exists []. split; [reflexivity|].
    split; [apply sublist_nil_l|]. split; [constructor|].
    split; [intros x Hx; apply elem_of_nil in Hx; contradiction | simpl; lia]. }
  unfold get_video_links_from_tiktok.
  cbv zeta. repeat wp_step; try solve [apply Hnil; touches_solve].
  match goal with
  | |- wp _ ?w3 _ =>
      assert (Ht3 : touches (fun _ => False) (fun _ => True) w w3) by touches_solve
  end.
  assert (Hok : forall w1, collected_ok w1 [] ∅).
  { intros w1. split; [constructor|]. split.
    - intros x. split; intros Hx; [apply elem_of_empty in Hx | apply elem_of_nil in Hx];
        contradiction.
    - intros x Hx. apply elem_of_nil in Hx. contradiction. }
  eapply wp_mono; [|apply (scroll_rounds_spec E d hashtag N pauses time lq _ _ _ _ (Hok _))].
  intros r w4 (Ht4 & l4 & new4 & -> & -> & Hsub4 & Hnd4 & Hled4).
  simpl app in *.
  assert (Hfinal : forall w5 : world,
             touches (fun _ => False) (fun _ => True) w4 w5 ->
             touches (fun _ => False) (fun _ => True) w w5
             /\ exists l, Ok (PyList.slice_to N new4) = Ok l
                /\ l `sublist_of` offered E (Some d) pauses
                /\ NoDup l.*1
                /\ (forall video_id, video_id ∈ l.*1 -> video_id ∉ ledger_ids w)
                /\ (0 <= N -> Z.of_nat (length l) <= N)).
  { intros w5 Ht5. split; [exact (touches_trans _ _ _ _ _ Ht3 (touches_trans _ _ _ _ _ Ht4 Ht5))|].
    exists (PyList.slice_to N new4). split; [reflexivity|].
    pose proof (slice_to_sublist N new4) as Hs.
    split; [etrans; [exact Hs | exact Hsub4]|].
    split; [eapply sublist_NoDup; [exact Hnd4 | apply fmap_sublist, Hs]|].
    split; [|apply slice_to_length].
    intros x Hx. rewrite <- (ledger_ids_touches _ _ _ Ht3). apply Hled4.
    eapply sublist_subseteq; [apply fmap_sublist, Hs | exact Hx]. }
  repeat wp_step; apply Hfinal; touches_solve.
Qed.

End DiscoverySpec.

(** C9.  For every browser session, hashtag, target count N >= 0 and
    ledger: discovery returns a list of at most N pairs, with no id twice,
    with no id for which [is_video_processed] is true, in the order in
    which the browser offers them (it is a sublist of what the scrolls
    offer); and it changes no file. *)
Theorem discovery_returns_new_distinct_ids_in_order (E : env) (drv : option driver)
    (hashtag : string) (N : Z) (scroll_pauses scroll_time : nat) (lq : bool) (w : world) :
  0 <= N ->
  let run := scraper.get_video_links_from_tiktok E drv hashtag N scroll_pauses scroll_time lq w in
  exists l, fst run = Ok l
    /\ Z.of_nat (length l) <= N
    /\ NoDup l.*1
    /\ (forall video_id url, (video_id, url) ∈ l ->
          fst (utils.is_video_processed video_id utils.PROCESSED_VIDEOS_FILE w) = Ok false)
    /\ l `sublist_of` offered E drv scroll_pauses
    /\ files (snd run) = files w.
Proof.
  intros HN run.
  destruct (get_video_links_spec E drv hashtag N scroll_pauses scroll_time lq w)
    as (Ht & l & Hr & Hsub & Hnd & Hled & Hlen).
  exists l. split; [exact Hr|]. split; [exact (Hlen HN)|]. split; [exact Hnd|].
  split; [|split; [exact Hsub | exact (touches_nothing_files _ _ _ Ht)]].
  intros video_id url Hin. rewrite is_video_processed_default. f_equal.
  apply bool_decide_eq_false_2, Hled.
  apply list_elem_of_fmap. exists (video_id, url). split; [reflexivity | exact Hin].
Qed.

(** A page that shows two links, one of them twice, and a third link after
    the first scroll. *)
Definition page_of_three : driver :=
  Driver (fun _ => None) None
    (fun i =>
       match i with
       | O => Found [Href (Some "https://www.tiktok.com/@a/video/7301000000000000001");
                     Href None;
                     Href (Some "https://www.tiktok.com/@b/video/7301000000000000002");
                     Href (Some "https://www.tiktok.com/@a/video/7301000000000000001")]
       | S O => Found [Href (Some "https://www.tiktok.com/@b/video/7301000000000000002");
                       Href (Some "https://www.tiktok.com/@c/video/7301000000000000003")]
       | _ => Found []
       end)
    None.

(** An environment with that page, in which no program can be started;
    the path of a url is what follows the 22 characters of the host. *)
Definition env_no_ytdlp : env :=
  Env true
    (fun cmd _ =>
       SpawnRaises (Exn FileNotFoundError
                      ("[Errno 2] No such file or directory: '" +:+ default "" (head cmd) +:+ "'")))
    (Some page_of_three) ""
    (fun url => Ok (String.substring 22 (String.length url - 22) url))
    (fun _ => false).

Definition world_second_in_ledger : world :=
  World (<["data/processed_videos.txt" :=
            File ("7301000000000000002" +:+ String PyStr.LF "") true true]> ∅) [].

Lemma discovery_returns_new_distinct_ids_in_order_witness :
  let run := scraper.get_video_links_from_tiktok env_no_ytdlp (Some page_of_three) "cats" 2 5 3
               true world_second_in_ledger in
  fst run = Ok [("7301000000000000001", "https://www.tiktok.com/@a/video/7301000000000000001");
                ("7301000000000000003", "https://www.tiktok.com/@c/video/7301000000000000003")]
  /\ exists l, fst run = Ok l
       /\ Z.of_nat (length l) <= 2
       /\ NoDup l.*1
       /\ (forall video_id url, (video_id, url) ∈ l ->
             fst (utils.is_video_processed video_id utils.PROCESSED_VIDEOS_FILE
                    world_second_in_ledger) = Ok false)
       /\ l `sublist_of` offered env_no_ytdlp (Some page_of_three) 5
       /\ files (snd run) = files world_second_in_ledger.
Proof.
  intros run. split.
  - vm_compute. reflexivity.
  - apply (discovery_returns_new_distinct_ids_in_order env_no_ytdlp (Some page_of_three)
             "cats" 2 5 3 true world_second_in_ledger).
    lia.
Defined.

(** ** The fetch tool is not installed *)

(** The commands that [Popen] was called on, in the order of the calls. *)
Definition popen_commands (t : list event) : list (list string) :=
  omap (fun e => match e with EvPopen cmd => Some cmd | _ => None end) t.

(** The messages logged at the critical level, in order. *)
Definition critical_logs (t : list event) : list string :=
  omap (fun e => match e with
                 | EvPut (LOG message level) =>
                     if bool_decide (level = "CRITICAL") then Some message else None
                 | _ => None
                 end) t.

Definition tool_missing_event (lq : bool) : event :=
  log_event "CRITICAL: yt-dlp command not found. Ensure yt-dlp is installed and in PATH."
    "CRITICAL" lq.

Definition fetch_start (video_id video_url : string) : event :=
  EvPopen (scraper.yt_dlp_command
             (scraper.download_path scraper.VIDEOS_DOWNLOAD_DIR video_id) video_url).

Section ToolMissing.

Import scraper.

Variable E : env.
Hypothesis Hm : not_installed "yt-dlp" E.

(** One fetch: no result and no file changed; for an id that is not in the
    ledger the tool is tried and the critical message logged. *)
Lemma download_video_no_tool video_id video_url lq w :
  wp (download_video E video_id video_url VIDEOS_DOWNLOAD_DIR lq) w
     (fun r w' =>
        r = Ok None
        /\ touches (fun _ => False) (fun _ => True) w w'
        /\ (video_id ∉ ledger_ids w ->
            emitted_since (fetch_start video_id video_url) w w'
            /\ emitted_since (tool_missing_event lq) w w')).
Proof.
  destruct (decide (video_id ∈ ledger_ids w)) as [Hin | Hin].
  - eapply wp_mono; [|apply (download_video_skips_processed E _ _ VIDEOS_DOWNLOAD_DIR _ _ Hin)].
    intros r w' (Hr & Ht). split; [exact Hr|]. split; [|contradiction].
    eapply touches_weaken; [| |exact Ht]; auto.
  - eapply wp_mono; [|apply (download_video_tool_missing E _ _ VIDEOS_DOWNLOAD_DIR _ _ Hm Hin eq_refl)].
    intros r w' (Hr & Ht & H1 & H2). auto.
Qed.

(** The loop: every item fails in this way and the loop goes on to the
    next one. *)
Lemma download_loop_no_tool lq total : forall links i acc w,
  wp (download_loop E lq total i links acc) w
     (fun r w' =>
        r = Ok (acc, None)
        /\ touches (fun _ => False) (fun _ => True) w w'
        /\ (forall video_id video_url,
              (video_id, video_url) ∈ links -> video_id ∉ ledger_ids w ->
              emitted_since (fetch_start video_id video_url) w w'
              /\ emitted_since (tool_missing_event lq) w w')).
Proof.
  induction links as [|[video_id video_url] rest IH]; intros i acc w.
  - simpl. apply wp_ret. split; [reflexivity|]. split; [apply touches_refl|].
    intros ? ? Hin. apply elem_of_nil in Hin. contradiction.
  - simpl download_loop. wp_step. wp_step. wp_step. wp_step.
    match goal with
    | |- wp _ ?w1 _ =>
        assert (Ht1 : touches (fun _ => False) (fun _ => True) w w1) by touches_solve
    end.
    eapply wp_mono; [|apply download_video_no_tool].
    intros r w2 (-> & Ht2 & Hem). cbn [from_option].
    wp_step. wp_step.
    match goal with
    | |- wp _ ?w3 _ =>
        assert (Ht3 : touches (fun _ => False) (fun _ => True) w2 w3) by touches_solve
    end.
    eapply wp_mono; [|apply IH].
    intros r w4 (-> & Ht4 & Hrest).
    pose proof (touches_trans _ _ _ _ _ Ht1 Ht2) as Ht12.
    pose proof (touches_trans _ _ _ _ _ Ht12 Ht3) as Ht13.
    split; [reflexivity|]. split; [exact (touches_trans _ _ _ _ _ Ht13 Ht4)|].
    intros id url Hin Hled. apply elem_of_cons in Hin. destruct Hin as [Heq | Hin].
    + injection Heq as -> ->.
      rewrite <- (ledger_ids_touches _ _ _ Ht1) in Hled.
      destruct (Hem Hled) as [H1 H2].
      pose proof (touches_trans _ _ _ _ _ Ht3 Ht4) as Ht24.
      split; eapply emitted_after; try exact Ht1; eapply emitted_then; eauto.
    + rewrite <- (ledger_ids_touches _ _ _ Ht13) in Hled.
      destruct (Hrest id url Hin Hled) as [H1 H2].
      split; eapply emitted_after; eauto.
Qed.

(** The run: nothing is downloaded and no file is changed. *)
Lemma scrape_no_tool hashtag N lq w :
  wp (scrape_and_download_videos_by_hashtag E hashtag N lq) w
     (fun r w' => r = Ok [] /\ touches (fun _ => False) (fun _ => True) w w').
Proof.
  unfold scrape_and_download_videos_by_hashtag, setup_driver, quit_driver. cbv zeta.
  repeat wp_step; try solve [split; [reflexivity | touches_solve]].
  match goal with
  | |- wp _ ?w1 _ =>
      assert (Ht1 : touches (fun _ => False) (fun _ => True) w w1) by touches_solve
  end.
  eapply wp_mono; [|apply get_video_links_spec].
  intros r w2 (Ht2 & l & -> & _).
  pose proof (touches_trans _ _ _ _ _ Ht1 Ht2) as Ht12.
  assert (Hend : forall w5 : world,
             touches (fun _ => False) (fun _ => True) w2 w5 ->
             @Ok (list video_info) [] = Ok []
             /\ touches (fun _ => False) (fun _ => True) w w5).
  { intros w5 Ht5. split; [reflexivity | exact (touches_trans _ _ _ _ _ Ht12 Ht5)]. }
  destruct l as [|link l].
  - repeat wp_step; apply Hend; touches_solve.
  - wp_step. wp_step. wp_step.
    match goal with
    | |- wp _ ?w3 _ =>
        assert (Ht3 : touches (fun _ => False) (fun _ => True) w2 w3) by touches_solve
    end.
    eapply wp_mono; [|apply download_loop_no_tool].
    intros r w4 (-> & Ht4 & _).
    pose proof (touches_trans _ _ _ _ _ Ht3 Ht4) as Ht24.
    assert (Hend' : forall w5 : world,
               touches (fun _ => False) (fun _ => True) w4 w5 ->
               @Ok (list video_info) [] = Ok []
               /\ touches (fun _ => False) (fun _ => True) w w5).
    { intros w5 Ht5. apply Hend. exact (touches_trans _ _ _ _ _ Ht24 Ht5). }
    repeat wp_step; apply Hend'; touches_solve.
Qed.

(** The worker: it reports that no video was processed. *)
Lemma scraping_worker_no_tool hashtag N w :
  wp (main.scraping_worker E hashtag N) w
     (fun r w' =>
        r = Ok tt
        /\ touches (fun _ => False) (fun _ => True) w w'
        /\ emitted_since
             (EvPut (TASK_COMPLETE ("No new videos processed for #" +:+ hashtag +:+ "."))) w w').
Proof.
  unfold main.scraping_worker.
  wp_step. wp_step. wp_step. wp_step. wp_step. wp_step. wp_step.
  match goal with
  | |- wp _ ?w1 _ =>
      assert (Ht1 : touches (fun _ => False) (fun _ => True) w w1) by touches_solve
  end.
  eapply wp_mono; [|apply scrape_no_tool].
  intros r w2 (-> & Ht2).
  pose proof (touches_trans _ _ _ _ _ Ht1 Ht2) as Ht12.
  repeat wp_step. split; [reflexivity|]. split; [touches_solve|].
  apply emitted_add_event, emitted_here.
  apply (touches_add_event (fun _ => True) (fun _ => True)); [exact I|].
  eapply touches_weaken; [| |exact Ht12]; auto.
Qed.

End ToolMissing.

(** C1, counterexample.  No program can be started and the page offers two
    new videos: the run ends with nothing downloaded, but the fetch tool
    has been tried for the first video and then again for the second. *)
Lemma missing_fetch_tool_does_not_stop_the_batch :
  let run := scraper.scrape_and_download_videos_by_hashtag env_no_ytdlp "cats" 2 true
               (World ∅ []) in
  not_installed "yt-dlp" env_no_ytdlp
  /\ fst run = Ok []
  /\ popen_commands (trace (snd run))
     = [scraper.yt_dlp_command "videos/7301000000000000001.mp4"
          "https://www.tiktok.com/@a/video/7301000000000000001";
        scraper.yt_dlp_command "videos/7301000000000000002.mp4"
          "https://www.tiktok.com/@b/video/7301000000000000002"]
  /\ critical_logs (trace (snd run))
     = ["CRITICAL: yt-dlp command not found. Ensure yt-dlp is installed and in PATH.";
        "Install with: pip install yt-dlp";
        "CRITICAL: yt-dlp command not found. Ensure yt-dlp is installed and in PATH.";
        "Install with: pip install yt-dlp"].
Proof.
  split; [intros cmd w _; eexists; reflexivity|].
  vm_compute. repeat split; reflexivity.
Qed.

(** C1, as amended.  When the fetch tool is not installed, each fetch
    returns no result and changes no file, and for an id that is not in the
    ledger it logs at the critical level after trying to start the tool;
    the download loop treats this as the failure of that item and goes on:
    it ends without an exception, with nothing collected, having tried the
    tool for every link whose id is not in the ledger; so the run returns
    the empty list with no file changed, and the worker reports that no
    video was processed. *)
Theorem missing_fetch_tool_fails_every_item (E : env) :
  not_installed "yt-dlp" E ->
  (forall video_id video_url lq w,
     let run := scraper.download_video E video_id video_url scraper.VIDEOS_DOWNLOAD_DIR lq w in
     fst run = Ok None
     /\ files (snd run) = files w
     /\ (video_id ∉ ledger_ids w ->
         emitted_since (fetch_start video_id video_url) w (snd run)
         /\ emitted_since (tool_missing_event lq) w (snd run)))
  /\ (forall lq total i links acc w,
        let run := scraper.download_loop E lq total i links acc w in
        fst run = Ok (acc, None)
        /\ files (snd run) = files w
        /\ (forall video_id video_url,
              (video_id, video_url) ∈ links -> video_id ∉ ledger_ids w ->
              emitted_since (fetch_start video_id video_url) w (snd run)
              /\ emitted_since (tool_missing_event lq) w (snd run)))
  /\ (forall hashtag N lq w,
        let run := scraper.scrape_and_download_videos_by_hashtag E hashtag N lq w in
        fst run = Ok [] /\ files (snd run) = files w)
  /\ (forall hashtag N w,
        let run := main.scraping_worker E hashtag N w in
        fst run = Ok tt
        /\ files (snd run) = files w
        /\ emitted_since
             (EvPut (TASK_COMPLETE ("No new videos processed for #" +:+ hashtag +:+ ".")))
             w (snd run)).
Proof.
  intros Hm. split; [|split; [|split]].
  - intros video_id video_url lq w run.
    destruct (download_video_no_tool E Hm video_id video_url lq w) as (Hr & Ht & Hem).
    split; [exact Hr|]. split; [exact (touches_nothing_files _ _ _ Ht) | exact Hem].
  - intros lq total i links acc w run.
    destruct (download_loop_no_tool E Hm lq total links i acc w) as (Hr & Ht & Hem).
    split; [exact Hr|]. split; [exact (touches_nothing_files _ _ _ Ht) | exact Hem].
  - intros hashtag N lq w run.
    destruct (scrape_no_tool E Hm hashtag N lq w) as (Hr & Ht).
    split; [exact Hr | exact (touches_nothing_files _ _ _ Ht)].
  - intros hashtag N w run.
    destruct (scraping_worker_no_tool E Hm hashtag N w) as (Hr & Ht & Hem).
    split; [exact Hr|]. split; [exact (touches_nothing_files _ _ _ Ht) | exact Hem].
Qed.

Lemma missing_fetch_tool_fails_every_item_witness :
  let links := [("7301000000000000001", "https://www.tiktok.com/@a/video/7301000000000000001");
                ("7301000000000000002", "https://www.tiktok.com/@b/video/7301000000000000002")] in
  let run := scraper.download_loop env_no_ytdlp true 2 0 links [] (World ∅ []) in
  fst run = Ok ([], None)
  /\ files (snd run) = ∅
  /\ emitted_since (fetch_start "7301000000000000002"
                      "https://www.tiktok.com/@b/video/7301000000000000002")
       (World ∅ []) (snd run)
  /\ emitted_since (tool_missing_event true) (World ∅ []) (snd run).
Proof.
  intros links run.
  assert (Hm : not_installed "yt-dlp" env_no_ytdlp).
  { intros cmd w _. eexists. reflexivity. }
  destruct (missing_fetch_tool_fails_every_item env_no_ytdlp Hm) as (_ & Hloop & _).
  destruct (Hloop true 2%nat 0%nat links [] (World ∅ [])) as (Hr & Hf & Hem).
  split; [exact Hr|]. split; [exact Hf|].
  apply (Hem "7301000000000000002" "https://www.tiktok.com/@b/video/7301000000000000002").
  - apply elem_of_cons. right. apply elem_of_cons. left. reflexivity.
  - unfold ledger_ids, ledger_file. simpl files. rewrite lookup_empty.
    apply not_elem_of_empty.
Defined.

(** * Further properties of the code *)

(** ** The ledger *)

Section Strip.

Import PyStr.

Lemma lstrip_rstrip_comm (s : string) : rstrip (lstrip s) = lstrip (rstrip s).
Proof.
  induction s as [|c s IH]; [reflexivity|].
  cbn [lstrip rstrip]. destruct (isspace c) eqn:Hc.
  - rewrite IH. destruct (rstrip s) as [|d r]; [reflexivity|].
    cbn [lstrip]. rewrite Hc. reflexivity.
  - destruct (rstrip s) as [|d r] eqn:Hr.
    + cbn [rstrip lstrip]. rewrite Hr, Hc. reflexivity.
    + cbn [rstrip lstrip]. rewrite Hr, Hc. reflexivity.
Qed.

Lemma lstrip_idemp (s : string) : lstrip (lstrip s) = lstrip s.
Proof.
  induction s as [|c s IH]; [reflexivity|].
  cbn [lstrip]. destruct (isspace c) eqn:Hc; [exact IH|].
  cbn [lstrip]. rewrite Hc. reflexivity.
Qed.

Lemma rstrip_idemp (s : string) : rstrip (rstrip s) = rstrip s.
Proof.
  induction s as [|c s IH]; [reflexivity|].
  cbn [rstrip]. destruct (rstrip s) as [|d r] eqn:Hr.
  - destruct (isspace c) eqn:Hc; [reflexivity|]. cbn [rstrip]. rewrite Hc. reflexivity.
  - cbn [rstrip] in IH |- *. cbn [rstrip]. rewrite IH. reflexivity.
Qed.

Lemma strip_idemp (s : string) : strip (strip s) = strip s.
Proof.
  unfold strip. rewrite lstrip_rstrip_comm, lstrip_idemp, rstrip_idemp. reflexivity.
Qed.

End Strip.

Section LoadedIds.

Import PyStr utils.

Lemma one_line_cons_intro (c : ascii) (s : string) :
  Ascii.eqb c LF = false -> Ascii.eqb c CR = false -> one_line s = true ->
  one_line (String c s) = true.
Proof.
  unfold one_line. cbn [contains_char].
  rewrite (Ascii.eqb_sym LF c), (Ascii.eqb_sym CR c). intros -> ->. auto.
Qed.

(** Every line that iterating over the file gives is the text of one line,
    with or without a line feed after it. *)
Lemma readlines_lines (s : string) :
  Forall (fun l => exists body, one_line body = true
                                /\ (l = body \/ l = body +:+ String LF ""))
         (readlines s).
Proof.
  remember (String.length s) as n eqn:Hn.
  assert (Hle : (String.length s <= n)%nat) by lia. clear Hn.
  revert s Hle. induction n as [|n IH]; intros s Hle.
  { destruct s; [constructor | simpl in Hle; lia]. }
  destruct s as [|c s]; [constructor|].
  simpl in Hle. cbn [readlines].
  destruct (Ascii.eqb c LF) eqn:HLF.
  { constructor; [exists ""; split; [reflexivity | right; reflexivity]|].
    apply IH. lia. }
  destruct (Ascii.eqb c CR) eqn:HCR.
  { constructor; [exists ""; split; [reflexivity | right; reflexivity]|].
    destruct s as [|d s]; [constructor|].
    simpl in Hle. destruct (Ascii.eqb d LF); apply IH; simpl; lia. }
  pose proof (IH s ltac:(lia)) as Hs.
  destruct (readlines s) as [|l ls].
  - constructor; [|constructor]. exists (String c ""). split; [|left; reflexivity].
    apply one_line_cons_intro; auto.
  - apply Forall_cons in Hs as [(body & Hb & Hl) Hls].
    constructor; [|exact Hls].
    exists (String c body). split; [apply one_line_cons_intro; auto|].
    destruct Hl as [-> | ->]; [left | right]; reflexivity.
Qed.

Lemma one_line_lstrip (s : string) : one_line s = true -> one_line (lstrip s) = true.
Proof.
  induction s as [|c s IH]; [reflexivity|]. intros H.
  cbn [lstrip]. destruct (isspace c); [|exact H].
  apply one_line_cons in H as (_ & _ & H). auto.
Qed.

Lemma one_line_rstrip (s : string) : one_line s = true -> one_line (rstrip s) = true.
Proof.
  induction s as [|c s IH]; [reflexivity|]. intros H.
  apply one_line_cons in H as (H1 & H2 & H).
  cbn [rstrip]. destruct (rstrip s) as [|d r] eqn:Hr.
  - destruct (isspace c); [reflexivity|]. apply one_line_cons_intro; auto.
  - apply one_line_cons_intro; auto.
Qed.

Lemma clean_id_strip (body : string) :
  one_line body = true -> truthy (strip body) = true -> clean_id (strip body) = true.
Proof.
  intros Hb Ht. unfold clean_id. rewrite Ht, strip_idemp, String.eqb_refl.
  unfold strip. rewrite one_line_lstrip; [reflexivity|]. apply one_line_rstrip, Hb.
Qed.

(** What the loader keeps of a text are clean ids. *)
Lemma ids_of_text_clean (data video_id : string) :
  video_id ∈ ids_of_text data -> clean_id video_id = true.
Proof.
  unfold ids_of_text. rewrite elem_of_list_to_set, list_elem_of_filter.
  intros [Ht Hin]. apply list_elem_of_fmap in Hin as (l & -> & Hl).
  pose proof (readlines_lines data) as Hall. rewrite Forall_forall in Hall.
  destruct (Hall l Hl) as (body & Hb & [-> | ->]).
  - apply clean_id_strip; assumption.
  - rewrite strip_app_LF in Ht |- *. apply clean_id_strip; assumption.
Qed.

End LoadedIds.

(** X1.  Whatever the ledger file holds, every id that
    [get_processed_videos] returns is clean: not empty, without white space
    around it and without a line break; so [is_video_processed] is never
    true for an empty id or for an id with white space around it. *)
Theorem loaded_ids_are_clean (video_id filepath : string) (w : world) :
  fst (utils.is_video_processed video_id filepath w) = Ok true ->
  clean_id video_id = true
  /\ forall ids, fst (utils.get_processed_videos filepath w) = Ok ids ->
       forall other, other ∈ ids -> clean_id other = true.
Proof.
  intros H.
  assert (Hall : forall ids, fst (utils.get_processed_videos filepath w) = Ok ids ->
                   forall other, other ∈ ids -> clean_id other = true).
  { intros ids. rewrite get_processed_videos_eq.
    destruct (Os.lookup filepath w) as [f|].
    - destruct (f_readable f); simpl; intros [= <-] other Hin.
      + exact (ids_of_text_clean _ _ Hin).
      + apply elem_of_empty in Hin. contradiction.
    - destruct (PyStr.truthy (OsPath.dirname filepath)); simpl; [|discriminate].
      intros [= <-] other Hin. apply elem_of_empty in Hin. contradiction. }
  split; [|exact Hall].
  rewrite contains_is_membership in H.
  destruct (fst (utils.get_processed_videos filepath w)) as [ids|e] eqn:Hl; [|discriminate].
  injection H as H. apply bool_decide_eq_true_1 in H. exact (Hall ids eq_refl _ H).
Qed.

Lemma loaded_ids_are_clean_witness :
  let w := World (<["data/processed_videos.txt" :=
                     File ("  7300 " +:+ String PyStr.CR (String PyStr.LF
                            (String PyStr.LF ("7301" +:+ String PyStr.LF "")))) true true]> ∅) [] in
  fst (utils.get_processed_videos utils.PROCESSED_VIDEOS_FILE w) = Ok ({["7300"]} ∪ {["7301"]})
  /\ clean_id "7300" = true.
Proof.
  intros w. split; [vm_compute; reflexivity|].
  apply (loaded_ids_are_clean "7300" utils.PROCESSED_VIDEOS_FILE w).
  vm_compute. reflexivity.
Defined.

(** X2.  [add_processed_video] never raises.  It returns [True] exactly
    when the path has a directory part and the file is absent or writable;
    then the file holds its former text followed by the id and a line feed,
    whether or not the id was there already, and no other file has
    changed.  Otherwise it returns [False], prints one line and changes no
    file; this is so for every path without a directory part. *)
Theorem append_never_raises_and_fails_closed (video_id filepath : string) (w : world) :
  let run := utils.add_processed_video video_id filepath w in
  let ok := PyStr.truthy (OsPath.dirname filepath)
            && from_option f_writable true (files w !! filepath) in
  fst run = Ok ok
  /\ (ok = true ->
      (exists f, files (snd run) !! filepath = Some f
                 /\ f_data f = from_option f_data "" (files w !! filepath)
                               +:+ video_id +:+ String PyStr.LF "")
      /\ (forall p, p <> filepath -> files (snd run) !! p = files w !! p)
      /\ trace (snd run) = trace w)
  /\ (ok = false ->
      files (snd run) = files w
      /\ exists line, trace (snd run) = trace w ++ [EvPrint line]).
Proof.
  intros run ok. subst run ok. rewrite add_processed_video_eq.
  destruct (PyStr.truthy (OsPath.dirname filepath)); cbn [andb].
  - destruct (files w !! filepath) as [f|] eqn:Hf; cbn [from_option].
    + destruct (f_writable f); cbn [fst snd files trace].
      * split; [reflexivity|]. split; [|discriminate]. intros _. split.
        { eexists. rewrite lookup_insert_eq. split; reflexivity. }
        split; [|reflexivity]. intros p Hp. apply lookup_insert_ne. congruence.
      * split; [reflexivity|]. split; [discriminate|]. intros _.
        split; [reflexivity|]. eexists. reflexivity.
    + cbn [fst snd files trace]. split; [reflexivity|]. split; [|discriminate].
      intros _. split.
      { eexists. rewrite lookup_insert_eq. split; reflexivity. }
      split; [|reflexivity]. intros p Hp. apply lookup_insert_ne. congruence.
  - cbn [fst snd]. split; [reflexivity|]. split; [discriminate|]. intros _.
    split; [reflexivity|]. eexists. reflexivity.
Qed.

Lemma append_never_raises_and_fails_closed_witness :
  let w := World (<["data/processed_videos.txt" :=
                     File ("7300" +:+ String PyStr.LF "") true true]> ∅) [] in
  (exists f, files (snd (utils.add_processed_video "7300" "data/processed_videos.txt" w))
               !! "data/processed_videos.txt" = Some f
             /\ f_data f = "7300" +:+ String PyStr.LF ("7300" +:+ String PyStr.LF ""))
  /\ fst (utils.add_processed_video "7300" "processed_videos.txt" w) = Ok false
  /\ files (snd (utils.add_processed_video "7300" "processed_videos.txt" w)) = files w.
Proof.
  intros w. split.
  - destruct (append_never_raises_and_fails_closed "7300" "data/processed_videos.txt" w)
      as (_ & H & _).
    destruct (H eq_refl) as ((f & Hf & Hd) & _). exists f. split; [exact Hf | exact Hd].
  - destruct (append_never_raises_and_fails_closed "7300" "processed_videos.txt" w)
      as (Hr & _ & H).
    split; [exact Hr | exact (proj1 (H eq_refl))].
Defined.

Section Unterminated.

Import PyStr utils.

(** A last line without a line feed and the text appended after it are read
    as one line. *)
Lemma ids_of_text_glued (text last video_id : string) :
  line_terminated text = true ->
  one_line (last +:+ video_id) = true ->
  ids_of_text (text +:+ last +:+ video_id +:+ String LF "")
  = ids_of_text text
    ∪ (if truthy (strip (last +:+ video_id)) then {[strip (last +:+ video_id)]} else ∅).
Proof.
  intros Ht Hl.
  assert (Hone : ids_of_text ((last +:+ video_id) +:+ String LF "")
                 = if truthy (strip (last +:+ video_id))
                   then {[strip (last +:+ video_id)]} else ∅).
  { unfold ids_of_text. rewrite (readlines_one_line _ Hl). simpl.
    rewrite strip_app_LF.
    destruct (truthy (strip (last +:+ video_id))) eqn:Hs.
    - rewrite filter_cons_True by exact Hs. rewrite filter_nil. simpl.
      apply (right_id_L ∅ (∪)).
    - rewrite filter_cons_False by (rewrite Hs; discriminate). reflexivity. }
  rewrite <- (app_assoc_str last video_id) .
  destruct text as [|c text].
  - rewrite app_empty_l, Hone, ids_of_text_empty. symmetry. apply (left_id_L ∅ (∪)).
  - apply ends_with_split in Ht as [s' ->].
    rewrite app_assoc_str. change (String LF "" +:+ ?x) with (String LF x).
    rewrite ids_of_text_after_LF, Hone. reflexivity.
Qed.

End Unterminated.

(** X3.  The id is appended to the text as it is: on a writable ledger
    whose text does not end its last line, that line and the new id are
    read back as one id, so that after a successful append
    [is_video_processed] is false for the id (unless the glued line
    happens to strip to it). *)
Theorem append_after_unterminated_line_glues (text last video_id : string)
    (fs : gmap string file) (t : list event) :
  line_terminated text = true ->
  one_line (last +:+ video_id) = true ->
  PyStr.strip (last +:+ video_id) <> video_id ->
  video_id ∉ utils.ids_of_text text ->
  let w := World (<[utils.PROCESSED_VIDEOS_FILE := File (text +:+ last) true true]> fs) t in
  let w1 := snd (utils.add_processed_video video_id utils.PROCESSED_VIDEOS_FILE w) in
  fst (utils.add_processed_video video_id utils.PROCESSED_VIDEOS_FILE w) = Ok true
  /\ fst (utils.get_processed_videos utils.PROCESSED_VIDEOS_FILE w1)
     = Ok (utils.ids_of_text text
           ∪ (if PyStr.truthy (PyStr.strip (last +:+ video_id))
              then {[PyStr.strip (last +:+ video_id)]} else ∅))
  /\ fst (utils.is_video_processed video_id utils.PROCESSED_VIDEOS_FILE w1) = Ok false.
Proof.
  intros Ht Hl Hne Hnot w w1. subst w1 w.
  rewrite add_processed_video_eq.
  change (PyStr.truthy (OsPath.dirname utils.PROCESSED_VIDEOS_FILE)) with true.
  cbn [files]. rewrite lookup_insert_eq. cbn [f_writable f_data f_readable fst snd].
  split; [reflexivity|].
  rewrite contains_is_membership, get_processed_videos_eq.
  unfold Os.lookup. change (PyStr.truthy utils.PROCESSED_VIDEOS_FILE) with true.
  cbn [files]. rewrite lookup_insert_eq. cbn [f_readable f_data fst].
  rewrite app_assoc_str, (ids_of_text_glued _ _ _ Ht Hl).
  split; [reflexivity|]. f_equal. apply bool_decide_eq_false_2.
  intros [H | H]%elem_of_union; [contradiction|].
  destruct (PyStr.truthy (PyStr.strip (last +:+ video_id))).
  - apply elem_of_singleton_1 in H. congruence.
  - apply elem_of_empty in H. exact H.
Qed.

Lemma append_after_unterminated_line_glues_witness :
  let w := World (<[utils.PROCESSED_VIDEOS_FILE :=
                     File ("7300" +:+ String PyStr.LF "7301") true true]> ∅) [] in
  let w1 := snd (utils.add_processed_video "7302" utils.PROCESSED_VIDEOS_FILE w) in
  fst (utils.get_processed_videos utils.PROCESSED_VIDEOS_FILE w1)
  = Ok ({["7300"]} ∪ {["73017302"]})
  /\ fst (utils.is_video_processed "7302" utils.PROCESSED_VIDEOS_FILE w1) = Ok false.
Proof.
  intros w w1.
  assert (Hnot : "7302" ∉ utils.ids_of_text ("7300" +:+ String PyStr.LF "")).
  { vm_compute. intros H. discriminate H. }
  destruct (append_after_unterminated_line_glues ("7300" +:+ String PyStr.LF "") "7301" "7302"
              ∅ [] eq_refl eq_refl ltac:(discriminate) Hnot) as (_ & H1 & H2).
  split; [|exact H2]. vm_compute. reflexivity.
Defined.

(** ** The transform adapter *)

Section EditVideoResult.

Import editor.

Variable E : env.

(** A path is returned only for a file that is there and not empty, after
    an ffmpeg process has been started. *)
Lemma edit_video_result input video_id edits lq w :
  wp (edit_video E input video_id edits lq) w
     (fun r w' =>
        forall p, r = Ok (Some p) ->
          p = output_path video_id
          /\ (exists f, Os.lookup p w' = Some f /\ 0 < Z.of_nat (String.length (f_data f)))
          /\ exists filters,
               emitted_since (EvPopen (ffmpeg_cmd input filters (output_path video_id))) w w').
Proof.
  unfold edit_video, before_transcode, after_popen, on_exception.
  repeat wp_step.
  all: intros p' Hp'; try discriminate Hp'.
  all: injection Hp' as <-; split; [reflexivity|].
  all: match goal with
       | H : _ && false && _ = true |- _ => rewrite andb_false_r in H; discriminate H
       | H : _ && true && (0 <? _) = true |- _ =>
           apply andb_prop in H as [_ H]; apply Z.ltb_lt in H
       end.
  all: split; [rewrite lookup_add_event; eexists; split; [eassumption | assumption]|].
  all: eexists; solve [emitted_solve].
Qed.

End EditVideoResult.

(** X4.  When [edit_video] returns a path, it is the path
    edited_videos/<id>_edited_ffmpeg.mp4, an ffmpeg process has been started
    on the input with that path as its output, and the file at that path
    exists and is not empty. *)
Theorem edited_path_is_a_written_file (E : env) (input video_id : string)
    (edits : option (gmap string pyval)) (lq : bool) (w : world) (p : string) :
  let run := editor.edit_video E input video_id edits lq w in
  fst run = Ok (Some p) ->
  p = editor.output_path video_id
  /\ (exists f, files (snd run) !! p = Some f /\ f_data f <> "")
  /\ exists filters,
       emitted_since (EvPopen (editor.ffmpeg_cmd input filters p)) w (snd run).
Proof.
  intros run Hr.
  destruct (edit_video_result E input video_id edits lq w p Hr) as (-> & (f & Hf & Hsize) & Hem).
  split; [reflexivity|]. split; [|exact Hem].
  exists f. unfold Os.lookup in Hf. rewrite output_path_truthy in Hf.
  split; [exact Hf|]. intros Hd. rewrite Hd in Hsize. simpl in Hsize. lia.
Qed.

Lemma edited_path_is_a_written_file_witness :
  let run := editor.edit_video env_second_transcode_fails "videos/7301000000000000001.mp4"
               "7301000000000000001" None true world_two_downloads in
  fst run = Ok (Some "edited_videos/7301000000000000001_edited_ffmpeg.mp4")
  /\ exists f, files (snd run) !! "edited_videos/7301000000000000001_edited_ffmpeg.mp4" = Some f
               /\ f_data f <> "".
Proof.
  intros run.
  assert (Hr : fst run = Ok (Some "edited_videos/7301000000000000001_edited_ffmpeg.mp4")).
  { vm_compute. reflexivity. }
  split; [exact Hr|].
  exact (proj1 (proj2 (edited_path_is_a_written_file env_second_transcode_fails
                         "videos/7301000000000000001.mp4" "7301000000000000001" None true
                         world_two_downloads _ Hr))).
Defined.

(** X5.  Whatever happens in it, [edit_video] leaves every file other
    than its output file as it was: it never changes or removes its input
    (when that is not the output path itself), nor any other file. *)
Theorem edit_video_changes_only_its_output (E : env) (input video_id : string)
    (edits : option (gmap string pyval)) (lq : bool) (w : world) (p : string) :
  p <> editor.output_path video_id ->
  files (snd (editor.edit_video E input video_id edits lq w)) !! p = files w !! p.
Proof.
  intros Hp.
  destruct (edit_video_touches E input video_id edits lq w) as [Hf _].
  apply Hf. congruence.
Qed.

Lemma edit_video_changes_only_its_output_witness :
  files (snd (editor.edit_video env_second_transcode_fails "videos/7301000000000000002.mp4"
                "7301000000000000002" None true world_two_downloads))
    !! "videos/7301000000000000002.mp4"
  = Some (File "mp4 data" true true).
Proof.
  rewrite (edit_video_changes_only_its_output env_second_transcode_fails
             "videos/7301000000000000002.mp4" "7301000000000000002" None true
             world_two_downloads "videos/7301000000000000002.mp4").
  - vm_compute. reflexivity.
  - vm_compute. discriminate.
Defined.

Section EditVideoEarly.

Import editor.

Variable E : env.

(** Without ffmpeg on the PATH, or without the input file, nothing is done. *)
Lemma edit_video_prechecks input video_id edits lq w :
  which_ffmpeg E = false \/ Os.lookup input w = None ->
  wp (edit_video E input video_id edits lq) w
     (fun r w' => r = Ok None /\ touches (fun _ => False) is_message w w').
Proof.
  intros H. unfold edit_video, check_ffmpeg.
  destruct (which_ffmpeg E) eqn:Hff; cbn [negb].
  - destruct H as [H | H]; [discriminate|].
    wp_step. wp_step. rewrite H. cbn [negb]. repeat wp_step.
    split; [reflexivity | touches_solve].
  - repeat wp_step. split; [reflexivity | touches_solve].
Qed.

(** The probe for the dimensions ends with a status other than 0, or with
    an output that is not two integers around an x. *)
Definition probe_fails (input : string) : Prop :=
  forall w, exists rc out err post,
    run E (ffprobe_cmd input) w = Exits rc out err post
    /\ (rc <> 0 \/ exists e, parse_dimensions out = Raise e).

Lemma edit_video_probe_fails input video_id edits lq w :
  probe_fails input ->
  wp (edit_video E input video_id edits lq) w
     (fun r w' => r = Ok None /\ touches (fun _ => False) (no_start "ffmpeg") w w').
Proof.
  intros Hp. unfold edit_video, before_transcode, after_popen, on_exception.
  repeat first
    [ lazymatch goal with
      | |- match run E (ffprobe_cmd input) ?w with _ => _ end =>
          let rc := fresh "rc" in
          let out := fresh "out" in
          let err := fresh "err" in
          let post := fresh "post" in
          let Hr := fresh "Hrun" in
          let Hbad := fresh "Hbad" in
          destruct (Hp w) as (rc & out & err & post & Hr & Hbad); rewrite Hr
      end
    | wp_step ].
  all: try (split; [reflexivity | solve [touches_solve]]).
  all: exfalso; destruct Hbad as [Hbad | [e' Hbad]]; [|discriminate Hbad].
  all: match goal with
       | H : negb (Subprocess.returncode _ =? 0) = false |- _ =>
           apply negb_false_iff, Z.eqb_eq in H; exact (Hbad H)
       end.
Qed.

(** The probe for the dimensions runs out of time. *)
Definition probe_times_out (input : string) : Prop :=
  forall w, exists out err post, run E (ffprobe_cmd input) w = TimesOut out err post.

Lemma edit_video_probe_times_out input video_id edits lq w f :
  which_ffmpeg E = true ->
  Os.lookup input w = Some f ->
  probe_times_out input ->
  wp (edit_video E input video_id edits lq) w
     (fun r w' =>
        r = Raise (Exn UnboundLocalError
                     "cannot access local variable 'process' where it is not associated with a value")
        /\ touches (fun _ => False) (no_start "ffmpeg") w w').
Proof.
  intros Hff Hin Hp. unfold edit_video, before_transcode, after_popen, on_exception, check_ffmpeg.
  rewrite Hff. cbn [negb].
  wp_step. wp_step. rewrite Hin. cbn [negb].
  repeat first
    [ lazymatch goal with
      | |- match run E (ffprobe_cmd input) ?w with _ => _ end =>
          let out := fresh "out" in
          let err := fresh "err" in
          let post := fresh "post" in
          let Hr := fresh "Hrun" in
          destruct (Hp w) as (out & err & post & Hr); rewrite Hr
      end
    | wp_step ].
  all: split; [reflexivity | solve [touches_solve]].
Qed.

End EditVideoEarly.



(** X6.  Without ffmpeg on the PATH, or when the input file does not
    exist, [edit_video] returns nothing, changes no file and starts no
    process: it only logs. *)
Theorem edit_video_needs_ffmpeg_and_input (E : env) (input video_id : string)
    (edits : option (gmap string pyval)) (lq : bool) (w : world) :
  which_ffmpeg E = false \/ Os.lookup input w = None ->
  let run := editor.edit_video E input video_id edits lq w in
  fst run = Ok None
  /\ files (snd run) = files w
  /\ exists new, trace (snd run) = trace w ++ new /\ Forall is_message new.
Proof.
  intros H run.
  destruct (edit_video_prechecks E input video_id edits lq w H) as (Hr & Ht).
  split; [exact Hr|]. split; [exact (touches_nothing_files _ _ _ Ht) | exact (proj2 Ht)].
Qed.

Lemma edit_video_needs_ffmpeg_and_input_witness :
  let run := editor.edit_video env_second_transcode_fails "videos/missing.mp4" "7301" None true
               world_two_downloads in
  fst run = Ok None
  /\ files (snd run) = files world_two_downloads
  /\ exists new, trace (snd run) = trace world_two_downloads ++ new /\ Forall is_message new.
Proof.
  apply (edit_video_needs_ffmpeg_and_input env_second_transcode_fails "videos/missing.mp4"
           "7301" None true world_two_downloads).
  right. vm_compute. reflexivity.
Defined.


(** An environment in which ffprobe prints no dimensions. *)
Definition env_probe_prints_nothing : env :=
  Env true (fun cmd _ => Exits 0 "N/A" "" None) None "" (fun url => Ok url) (fun _ => false).


Section ProbeTimeout.

Variable E : env.

Lemma edit_item_probe_times_out total i info w f :
  which_ffmpeg E = true ->
  PyStr.truthy (scraper.vi_id info) = true ->
  Os.lookup (scraper.vi_filepath info) w = Some f ->
  probe_times_out E (scraper.vi_filepath info) ->
  wp (main.edit_item E total i info) w
     (fun r w' =>
        r = Raise (Exn UnboundLocalError
                     "cannot access local variable 'process' where it is not associated with a value")
        /\ touches (fun _ => False) (no_start "ffmpeg") w w').
Proof.
  intros Hff Hid Hin Hp. unfold main.edit_item. cbv zeta.
  rewrite Hid. cbn [negb orb].
  assert (Hpath : PyStr.truthy (scraper.vi_filepath info) = true).
  { unfold Os.lookup in Hin. destruct (PyStr.truthy (scraper.vi_filepath info));
      [reflexivity | discriminate]. }
  rewrite Hpath. cbn [negb].
  wp_step. wp_step. wp_step. wp_step. wp_step.
  match goal with
  | |- wp _ ?w1 _ =>
      assert (Ht1 : touches (fun _ => False) (no_start "ffmpeg") w w1) by touches_solve
  end.
  eapply wp_mono;
    [|apply (edit_video_probe_times_out E _ _ _ _ _ f Hff); [rewrite !lookup_add_event; exact Hin | exact Hp]].
  intros r w2 (-> & Ht2). split; [reflexivity|].
  exact (touches_trans _ _ _ _ _ Ht1 Ht2).
Qed.

End ProbeTimeout.

(** X8.  When ffprobe runs out of time in [edit_video] (ffmpeg is on the
    PATH and the input file exists), the handler of the timeout reads the
    variable [process], which is not bound yet: [edit_video] raises
    [UnboundLocalError] instead of returning nothing.  No ffmpeg process is
    started and no file is changed; and the editing loop of the worker
    ends with this exception at that item, so that the items after it are
    not edited. *)
Theorem probe_timeout_escapes_edit_video (E : env) (input video_id : string)
    (edits : option (gmap string pyval)) (lq : bool) (w : world) :
  which_ffmpeg E = true ->
  is_Some (Os.lookup input w) ->
  probe_times_out E input ->
  let unbound := Exn UnboundLocalError
                   "cannot access local variable 'process' where it is not associated with a value" in
  let run := editor.edit_video E input video_id edits lq w in
  fst run = Raise unbound
  /\ files (snd run) = files w
  /\ (exists new, trace (snd run) = trace w ++ new /\ Forall (no_start "ffmpeg") new)
  /\ forall total i rest ec fe,
       PyStr.truthy video_id = true ->
       stop_is_set E i = false ->
       let loop := main.edit_loop E total i (scraper.VideoInfo video_id input :: rest) ec fe w in
       fst loop = Raise unbound /\ files (snd loop) = files w.
Proof.
  intros Hff [f Hin] Hp unbound run.
  destruct (edit_video_probe_times_out E input video_id edits lq w f Hff Hin Hp) as (Hr & Ht).
  split; [exact Hr|]. split; [exact (touches_nothing_files _ _ _ Ht)|].
  split; [exact (proj2 Ht)|].
  intros total i rest ec fe Hid Hstop loop. subst loop.
  cbn [main.edit_loop]. rewrite Hstop.
  pose proof (edit_item_probe_times_out E total i (scraper.VideoInfo video_id input) w f
                Hff Hid Hin Hp) as Hitem.
  unfold wp in Hitem. destruct Hitem as (Hri & Hti).
  unfold bind.
  destruct (main.edit_item E total i (scraper.VideoInfo video_id input) w) as [r w1].
  cbn [fst snd] in Hri, Hti. subst r. cbn [fst snd].
  split; [reflexivity | exact (touches_nothing_files _ _ _ Hti)].
Qed.

(** An environment in which every program runs out of time. *)
Definition env_everything_hangs : env :=
  Env true (fun cmd _ => TimesOut "" "" None) None "" (fun url => Ok url) (fun _ => false).

Lemma probe_timeout_escapes_edit_video_witness :
  fst (editor.edit_video env_everything_hangs "videos/7301000000000000001.mp4"
         "7301000000000000001" None true world_two_downloads)
  = Raise (Exn UnboundLocalError
             "cannot access local variable 'process' where it is not associated with a value").
Proof.
  apply (probe_timeout_escapes_edit_video env_everything_hangs "videos/7301000000000000001.mp4"
           "7301000000000000001" None true world_two_downloads).
  - reflexivity.
  - eexists. vm_compute. reflexivity.
  - intros w. exists "", "", None. reflexivity.
Defined.

(** ** The crop rectangle *)

(** The float is not negative; NaN is let through, [int] raises on it. *)
Definition not_negative (f : spec_float) : Prop :=
  match f with
  | S754_zero s | S754_infinity s | S754_finite s _ _ => s = false
  | S754_nan => True
  end.

Section Signs.

Lemma binary_round_aux_not_negative (m e : Z) (l : location) :
  not_negative (binary_round_aux PyFloat.prec PyFloat.emax false m e l).
Proof.
  unfold binary_round_aux.
  destruct (shr_fexp _ _ m e l) as [mrs' e'].
  destruct (shr_fexp _ _ _ e' loc_Exact) as [mrs'' e''].
  destruct (shr_m mrs''); [reflexivity | | exact I].
  destruct (e'' <=? _); reflexivity.
Qed.

Lemma of_Z_not_negative (z : Z) (g : spec_float) :
  0 <= z -> PyFloat.of_Z z = Some g -> not_negative g.
Proof.
  intros Hz. unfold PyFloat.of_Z, binary_normalize.
  destruct z as [|p|p]; [intros [= <-]; reflexivity | | lia].
  unfold binary_round. destruct (shl_align _ _ _) as [mz ez].
  pose proof (binary_round_aux_not_negative (Zpos mz) ez loc_Exact) as H.
  destruct (binary_round_aux _ _ false (Zpos mz) ez loc_Exact); intros [= <-]; exact H.
Qed.

Lemma div_not_negative (x y : spec_float) :
  not_negative x -> not_negative y -> not_negative (PyFloat.div x y).
Proof.
  unfold PyFloat.div, SFdiv.
  destruct x as [sx|sx| |sx mx ex], y as [sy|sy| |sy my ey]; simpl;
    try (intros -> ->; reflexivity); try (intros; exact I).
  intros -> ->. destruct (SFdiv_core_binary _ _ _ _ _ _) as [[mz ez] lz].
  apply binary_round_aux_not_negative.
Qed.

Lemma mul_not_negative (x y : spec_float) :
  not_negative x -> not_negative y -> not_negative (PyFloat.mul x y).
Proof.
  unfold PyFloat.mul, SFmul.
  destruct x as [sx|sx| |sx mx ex], y as [sy|sy| |sy my ey]; simpl;
    try (intros -> ->; reflexivity); try (intros; exact I).
  intros -> ->. apply binary_round_aux_not_negative.
Qed.

Lemma trunc_not_negative (f : spec_float) (a : Z) :
  not_negative f -> PyFloat.trunc f = Ok a -> 0 <= a.
Proof.
  destruct f as [s|s| |s m e]; simpl; try discriminate.
  - intros _ [= <-]. lia.
  - intros -> [= <-]. destruct e as [|k|k].
    + rewrite Z.shiftl_0_r. lia.
    + apply Z.shiftl_nonneg. lia.
    + apply Z.shiftr_nonneg. lia.
Qed.

Lemma gt_0_not_negative (f : spec_float) :
  PyFloat.ltb PyFloat.zero f = true -> not_negative f.
Proof.
  destruct f as [s|s| |s m e]; try discriminate; try (intros; exact I);
    destruct s; try discriminate; reflexivity.
Qed.

(** [int(dim * (crop_percent / 100.0))] is not negative for a dimension
    that is not negative and a percentage above 0. *)
Lemma crop_each_side_not_negative (dim : Z) (p : num) (c : Z) :
  0 <= dim -> PyVal.gt_0 p = true -> editor.crop_each_side dim p = Ok c -> 0 <= c.
Proof.
  intros Hd Hp. unfold editor.crop_each_side.
  assert (Hq : forall q, PyVal.div_100 p = Ok q -> not_negative q).
  { intros q. unfold PyVal.div_100. destruct p as [z|f]; simpl in Hp.
    - apply Z.ltb_lt in Hp.
      destruct (PyFloat.of_Z z) as [g|] eqn:Hg; [|discriminate].
      intros [= <-]. apply div_not_negative; [|reflexivity].
      apply (of_Z_not_negative z); [lia | exact Hg].
    - intros [= <-]. apply div_not_negative; [|reflexivity].
      apply gt_0_not_negative, Hp. }
  destruct (PyVal.div_100 p) as [q|]; [|discriminate].
  unfold PyVal.int_mul_float.
  destruct (PyFloat.of_Z dim) as [g|] eqn:Hg; [|discriminate].
  apply trunc_not_negative, mul_not_negative; [|apply Hq; reflexivity].
  apply (of_Z_not_negative dim); assumption.
Qed.

End Signs.

(** X9.  For a frame of width W >= 0 and height H >= 0, whatever the value
    of crop_percent, when the crop stage does not raise it gives no filter
    or the one filter crop=w:h:x:y of a rectangle inside the frame: x and
    y are not negative, w and h are positive and even, the two margins x
    are equal and x + w + x is W or W - 1, and likewise for the height. *)
Theorem crop_rectangle_is_inside_the_frame (edits : gmap string pyval) (video_id : string)
    (W H : Z) (lq : bool) (wd : world) (filters : list string) :
  0 <= W -> 0 <= H ->
  fst (editor.crop_stage edits video_id W H lq wd) = Ok filters ->
  filters = []
  \/ exists w h x y,
       filters = [editor.crop_filter_text w h x y]
       /\ 0 <= x /\ 0 <= y /\ 0 < w /\ 0 < h
       /\ Z.even w = true /\ Z.even h = true
       /\ W - 1 <= x + w + x <= W /\ H - 1 <= y + h + y <= H.
Proof.
  intros HW HH. unfold editor.crop_stage.
  destruct (PyVal.as_num _) as [cp|]; [|discriminate].
  destruct (PyVal.gt_0 cp && PyVal.lt_50 cp) eqn:Hrange.
  2:{ intros [= <-]. left. reflexivity. }
  apply andb_prop in Hrange as [Hgt _].
  unfold bind, lift.
  destruct (editor.crop_each_side W cp) as [cw|] eqn:Hcw; [|discriminate].
  destruct (editor.crop_each_side H cp) as [ch|] eqn:Hch; [|discriminate].
  pose proof (crop_each_side_not_negative W cp cw HW Hgt Hcw) as Hx.
  pose proof (crop_each_side_not_negative H cp ch HH Hgt Hch) as Hy.
  rewrite !editor_log_emit.
  destruct (_ || _) eqn:Hbad; simpl; intros [= <-]; [left; reflexivity|].
  right. apply orb_false_elim in Hbad as [Hw Hh].
  apply Z.leb_gt in Hw, Hh.
  exists (editor.make_even (W - 2 * cw)), (editor.make_even (H - 2 * ch)), cw, ch.
  split; [reflexivity|].
  pose proof (make_even_is_even (W - 2 * cw)) as Hew.
  pose proof (make_even_is_even (H - 2 * ch)) as Heh.
  assert (Hm : forall v, v - 1 <= editor.make_even v <= v).
  { intros v. rewrite make_even_even. destruct (Z.even v); lia. }
  pose proof (Hm (W - 2 * cw)). pose proof (Hm (H - 2 * ch)).
  repeat split; try assumption; lia.
Qed.

Lemma crop_rectangle_is_inside_the_frame_witness :
  fst (editor.crop_stage editor.default_edits "7301" 1081 607 true (World ∅ []))
  = Ok [editor.crop_filter_text 1038 582 21 12]
  /\ ([editor.crop_filter_text 1038 582 21 12] = []
      \/ exists w h x y,
           [editor.crop_filter_text 1038 582 21 12] = [editor.crop_filter_text w h x y]
           /\ 0 <= x /\ 0 <= y /\ 0 < w /\ 0 < h
           /\ Z.even w = true /\ Z.even h = true
           /\ 1081 - 1 <= x + w + x <= 1081 /\ 607 - 1 <= y + h + y <= 607).
Proof.
  assert (Hrun : fst (editor.crop_stage editor.default_edits "7301" 1081 607 true (World ∅ []))
                 = Ok [editor.crop_filter_text 1038 582 21 12]).
  { vm_compute. reflexivity. }
  split; [exact Hrun|].
  apply (crop_rectangle_is_inside_the_frame editor.default_edits "7301" 1081 607 true
           (World ∅ [])); [lia | lia | exact Hrun].
Defined.

(** ** Reading the dimensions back *)

Section Decimal.

Import PyStr.

Definition is_dec (c : ascii) : bool :=
  match dec_digit c with Some _ => true | None => false end.

Lemma dec_digit_digit_char (d : Z) : 0 <= d < 10 -> dec_digit (digit_char d) = Some d.
Proof.
  intros Hd.
  assert (H : d = 0 \/ d = 1 \/ d = 2 \/ d = 3 \/ d = 4 \/ d = 5 \/ d = 6 \/ d = 7
              \/ d = 8 \/ d = 9) by lia.
  repeat (destruct H as [-> | H]; [reflexivity|]). subst d. reflexivity.
Qed.

Lemma parse_digits_app_digit (d : Z) (ds rest : string) (P : Z -> Z) :
  (forall a af r, parse_digits a af (ds +:+ r) = parse_digits (P a) true r) ->
  0 <= d < 10 ->
  forall a af,
    parse_digits a af ((ds +:+ String (digit_char d) "") +:+ rest)
    = parse_digits (10 * P a + d) true rest.
Proof.
  intros Hds Hd a af. rewrite app_assoc_str, Hds. rewrite app_cons, app_empty_l.
  cbn [parse_digits]. rewrite (dec_digit_digit_char d Hd). reflexivity.
Qed.

(** The digits that [str] writes for a number that is not negative, and
    what [int] makes of them. *)
Lemma show_pos_fuel_spec (fuel : nat) : forall n : Z,
  0 <= n < 2 ^ Z.of_nat (S fuel) ->
  exists ds k,
    (forall acc, show_pos_fuel (S fuel) n acc = ds +:+ acc)
    /\ truthy ds = true
    /\ all_chars is_dec ds = true
    /\ 0 <= k
    /\ forall a af rest, parse_digits a af (ds +:+ rest) = parse_digits (a * 10 ^ k + n) true rest.
Proof.
  assert (Hone : forall n, 0 <= n < 10 ->
            truthy (String (digit_char n) "") = true
            /\ all_chars is_dec (String (digit_char n) "") = true
            /\ forall a af rest,
                 parse_digits a af (String (digit_char n) "" +:+ rest)
                 = parse_digits (a * 10 ^ 1 + n) true rest).
  { intros n Hn. split; [reflexivity|]. split.
    - cbn [all_chars]. unfold is_dec. rewrite (dec_digit_digit_char n Hn). reflexivity.
    - intros a af rest. rewrite app_cons, app_empty_l. cbn [parse_digits].
      rewrite (dec_digit_digit_char n Hn). f_equal. lia. }
  induction fuel as [|fuel IH]; intros n Hn.
  - assert (Hn10 : 0 <= n < 10) by (change (2 ^ Z.of_nat 1) with 2 in Hn; lia).
    exists (String (digit_char n) ""), 1.
    destruct (Hone n Hn10) as (H1 & H2 & H3).
    split; [|split; [exact H1 | split; [exact H2 | split; [lia | exact H3]]]].
    intros acc. cbn [show_pos_fuel]. rewrite Z.mod_small by lia.
    destruct (n <? 10); reflexivity.
  - destruct (Z.ltb_spec n 10) as [Hlt | Hge].
    + exists (String (digit_char n) ""), 1.
      destruct (Hone n ltac:(lia)) as (H1 & H2 & H3).
      split; [|split; [exact H1 | split; [exact H2 | split; [lia | exact H3]]]].
      intros acc. change (show_pos_fuel (S (S fuel)) n acc)
        with (let acc' := String (digit_char (n mod 10)) acc in
              if n <? 10 then acc' else show_pos_fuel (S fuel) (n / 10) acc').
      cbv zeta. rewrite Z.mod_small by lia.
      destruct (Z.ltb_spec n 10); [reflexivity | lia].
    + assert (Hdiv : 0 <= n / 10 < 2 ^ Z.of_nat (S fuel)).
      { split; [apply Z.div_pos; lia|].
        apply Z.div_lt_upper_bound; [lia|].
        rewrite (Nat2Z.inj_succ (S fuel)), Z.pow_succ_r in Hn by lia. lia. }
      destruct (IH (n / 10) Hdiv) as (ds & k & Hshow & Ht & Hall & Hk & Hparse).
      pose proof (Z.mod_pos_bound n 10 ltac:(lia)) as Hmod.
      exists (ds +:+ String (digit_char (n mod 10)) ""), (k + 1).
      split; [|split; [|split; [|split; [lia|]]]].
      * intros acc. change (show_pos_fuel (S (S fuel)) n acc)
          with (let acc' := String (digit_char (n mod 10)) acc in
                if n <? 10 then acc' else show_pos_fuel (S fuel) (n / 10) acc').
        cbv zeta. destruct (Z.ltb_spec n 10); [lia|].
        rewrite Hshow, app_assoc_str. reflexivity.
      * destruct ds; [discriminate | reflexivity].
      * clear -Hall Hmod. induction ds as [|c ds IHds].
        -- rewrite app_empty_l. cbn [all_chars]. unfold is_dec.
           rewrite (dec_digit_digit_char _ Hmod). reflexivity.
        -- rewrite app_cons. cbn [all_chars] in Hall |- *.
           apply andb_prop in Hall as [Hc Hall]. rewrite Hc, (IHds Hall). reflexivity.
      * intros a af rest.
        rewrite (parse_digits_app_digit (n mod 10) ds rest (fun a => a * 10 ^ k + n / 10))
          by (intros; apply Hparse || lia).
        f_equal. rewrite Z.pow_add_r by lia.
        pose proof (Z.div_mod n 10 ltac:(lia)). lia.
Qed.

Lemma show_nonneg_spec (n : Z) :
  0 <= n ->
  exists ds,
    show_Z n = ds /\ truthy ds = true /\ all_chars is_dec ds = true
    /\ parse_digits 0 false ds = Some n.
Proof.
  intros Hn. unfold show_Z. destruct (Z.ltb_spec n 0); [lia|].
  assert (Hb : 0 <= n < 2 ^ Z.of_nat (S (Z.to_nat (Z.log2 n)))).
  { split; [lia|]. rewrite Nat2Z.inj_succ, Z2Nat.id by apply Z.log2_nonneg.
    destruct (Z.eq_dec n 0) as [-> | Hne]; [reflexivity|].
    apply Z.log2_spec. lia. }
  destruct (show_pos_fuel_spec _ n Hb) as (ds & k & Hshow & Ht & Hall & Hk & Hparse).
  exists ds. replace (Z.to_nat (Z.log2 n) + 1)%nat with (S (Z.to_nat (Z.log2 n))) by lia.
  rewrite Hshow, app_empty_r. split; [reflexivity|]. split; [exact Ht|]. split; [exact Hall|].
  specialize (Hparse 0 false ""). rewrite app_empty_r in Hparse. rewrite Hparse.
  reflexivity.
Qed.

(** A character that [str] writes for an integer. *)
Definition is_num_char (c : ascii) : bool := is_dec c || Ascii.eqb c "-"%char.

Lemma is_dec_facts (c : ascii) :
  is_dec c = true ->
  isspace c = false /\ Ascii.eqb c "x"%char = false /\ Ascii.eqb c "-"%char = false
  /\ Ascii.eqb c "+"%char = false.
Proof.
  unfold is_dec, dec_digit.
  destruct c as [[] [] [] [] [] [] [] []]; vm_compute; intros H; try discriminate H;
    repeat split; reflexivity.
Qed.

Lemma is_num_char_facts (c : ascii) :
  is_num_char c = true -> isspace c = false /\ Ascii.eqb c "x"%char = false.
Proof.
  unfold is_num_char. intros [H | H]%orb_prop.
  - destruct (is_dec_facts c H) as (H1 & H2 & _). auto.
  - apply Ascii.eqb_eq in H. subst c. split; reflexivity.
Qed.

Lemma all_dec_num (s : string) : all_chars is_dec s = true -> all_chars is_num_char s = true.
Proof.
  induction s as [|c s IH]; [reflexivity|]. cbn [all_chars].
  intros [Hc Hs]%andb_prop. unfold is_num_char at 1. rewrite Hc, (IH Hs). reflexivity.
Qed.

(** [int(str(n))] is [n]. *)
Lemma show_Z_spec (n : Z) :
  truthy (show_Z n) = true /\ all_chars is_num_char (show_Z n) = true
  /\ (strip (show_Z n) = show_Z n -> int_of_string (show_Z n) = Some n).
Proof.
  destruct (Z.ltb_spec n 0) as [Hneg | Hpos].
  - destruct (show_nonneg_spec (- n) ltac:(lia)) as (ds & Hds & Ht & Hall & Hparse).
    assert (Hs : show_Z n = String "-"%char ds).
    { unfold show_Z in Hds |- *. destruct (Z.ltb_spec n 0); [|lia].
      destruct (Z.ltb_spec (- n) 0); [lia|]. rewrite Hds. reflexivity. }
    rewrite Hs. split; [reflexivity|]. split.
    { cbn [all_chars]. rewrite (all_dec_num _ Hall). reflexivity. }
    intros Hstrip. unfold int_of_string. rewrite Hstrip.
    change (Ascii.eqb "-" "-") with true. cbv iota. rewrite Hparse. simpl. f_equal. lia.
  - destruct (show_nonneg_spec n Hpos) as (ds & Hds & Ht & Hall & Hparse).
    rewrite Hds. split; [exact Ht|]. split; [exact (all_dec_num _ Hall)|].
    intros Hstrip. unfold int_of_string. rewrite Hstrip.
    destruct ds as [|c ds]; [discriminate|].
    cbn [all_chars] in Hall. apply andb_prop in Hall as [Hc _].
    destruct (is_dec_facts c Hc) as (_ & _ & Hm & Hp). rewrite Hm, Hp. exact Hparse.
Qed.

Lemma lstrip_no_space (s : string) :
  all_chars (fun c => negb (isspace c)) s = true -> lstrip s = s.
Proof.
  destruct s as [|c s]; [reflexivity|]. cbn [all_chars lstrip].
  intros [Hc _]%andb_prop. apply negb_true_iff in Hc. rewrite Hc. reflexivity.
Qed.

Lemma rstrip_no_space (s : string) :
  all_chars (fun c => negb (isspace c)) s = true -> rstrip s = s.
Proof.
  induction s as [|c s IH]; [reflexivity|]. cbn [all_chars rstrip].
  intros [Hc Hs]%andb_prop. apply negb_true_iff in Hc. rewrite (IH Hs), Hc.
  destruct s; reflexivity.
Qed.

Lemma strip_no_space (s : string) :
  all_chars (fun c => negb (isspace c)) s = true -> strip s = s.
Proof.
  intros H. unfold strip. rewrite (rstrip_no_space _ H). apply lstrip_no_space, H.
Qed.

Lemma all_chars_app (p : ascii -> bool) (a b : string) :
  all_chars p (a +:+ b) = all_chars p a && all_chars p b.
Proof.
  induction a as [|c a IH]; [reflexivity|].
  rewrite app_cons. cbn [all_chars]. rewrite IH, andb_assoc. reflexivity.
Qed.

Lemma all_chars_impl (p q : ascii -> bool) (s : string) :
  (forall c, p c = true -> q c = true) -> all_chars p s = true -> all_chars q s = true.
Proof.
  intros Hpq. induction s as [|c s IH]; [reflexivity|]. cbn [all_chars].
  intros [Hc Hs]%andb_prop. rewrite (Hpq c Hc), (IH Hs). reflexivity.
Qed.

Lemma split_no_sep (sep : ascii) (s : string) :
  all_chars (fun c => negb (Ascii.eqb c sep)) s = true -> split sep s = [s].
Proof.
  induction s as [|c s IH]; [reflexivity|]. cbn [all_chars split].
  intros [Hc Hs]%andb_prop. apply negb_true_iff in Hc. rewrite Hc, (IH Hs). reflexivity.
Qed.

Lemma split_at_sep (sep : ascii) (a b : string) :
  all_chars (fun c => negb (Ascii.eqb c sep)) a = true ->
  split sep (a +:+ String sep b) = a :: split sep b.
Proof.
  induction a as [|c a IH]; intros H.
  - rewrite app_empty_l. cbn [split]. rewrite Ascii.eqb_refl. reflexivity.
  - cbn [all_chars] in H. apply andb_prop in H as [Hc Ha]. apply negb_true_iff in Hc.
    rewrite app_cons. cbn [split]. rewrite Hc, (IH Ha). reflexivity.
Qed.

End Decimal.


(** ** The id of a url *)

Section LastMatch.

Context {A : Type}.
Variable p : A -> bool.

(** Searching the reversed list finds the last element that satisfies [p]. *)
Lemma find_rev_Some (l : list A) (x : A) :
  List.find p (rev l) = Some x <->
  exists before after, l = before ++ x :: after /\ p x = true
                       /\ Forall (fun y => p y = false) after.
Proof.
  induction l as [|a l IH] using rev_ind.
  - simpl. split; [discriminate|]. intros (before & after & H & _).
    destruct before; discriminate H.
  - rewrite rev_app_distr. simpl. destruct (p a) eqn:Ha.
    + split.
      * intros [= <-]. exists l, []. split; [reflexivity|]. split; [exact Ha | constructor].
      * intros (before & after & Hl & Hx & Hafter).
        destruct after as [|b after _] using rev_ind.
        -- apply app_inj_tail in Hl as [_ ->]. reflexivity.
        -- rewrite app_comm_cons, app_assoc in Hl. apply app_inj_tail in Hl as [_ ->].
           apply Forall_app in Hafter as [_ Hb]. apply Forall_inv in Hb. congruence.
    + rewrite IH. split.
      * intros (before & after & -> & Hx & Hafter).
        exists before, (after ++ [a]). split; [rewrite <- app_assoc; reflexivity|].
        split; [exact Hx|]. apply Forall_app. split; [exact Hafter|].
        constructor; [exact Ha | constructor].
      * intros (before & after & Hl & Hx & Hafter).
        destruct after as [|b after _] using rev_ind.
        -- apply app_inj_tail in Hl as [_ ->]. congruence.
        -- rewrite app_comm_cons, app_assoc in Hl. apply app_inj_tail in Hl as [-> ->].
           apply Forall_app in Hafter as [Hafter _].
           exists before, after. auto.
Qed.

Lemma find_rev_None (l : list A) :
  List.find p (rev l) = None <-> Forall (fun y => p y = false) l.
Proof.
  rewrite List.Forall_forall. split.
  - intros H x Hx. apply (find_none _ _ H). apply in_rev in Hx. exact Hx.
  - intros H. destruct (List.find p (rev l)) as [x|] eqn:Hf; [|reflexivity].
    apply find_some in Hf as [Hin Hx]. apply in_rev in Hin. rewrite (H x Hin) in Hx.
    discriminate Hx.
Qed.

End LastMatch.

Section UrlIds.

Import PyStr scraper.

Lemma isdigit_char_facts (c : ascii) :
  isdigit_char c = true ->
  isspace c = false /\ Ascii.eqb LF c = false /\ Ascii.eqb CR c = false.
Proof.
  destruct c as [[] [] [] [] [] [] [] []]; vm_compute; intros H; try discriminate H;
    repeat split; reflexivity.
Qed.

Lemma contains_char_none (c : ascii) (s : string) :
  all_chars (fun d => negb (Ascii.eqb c d)) s = true -> contains_char c s = false.
Proof.
  induction s as [|d s IH]; [reflexivity|]. cbn [all_chars contains_char].
  intros [Hd Hs]%andb_prop. apply negb_true_iff in Hd. rewrite Hd. auto.
Qed.

(** A string of digits is a clean id. *)
Lemma looks_like_id_clean (part : string) : looks_like_id part = true -> clean_id part = true.
Proof.
  unfold looks_like_id, isdigit. intros [[Ht Hall]%andb_prop _]%andb_prop.
  unfold clean_id, one_line. rewrite Ht.
  rewrite strip_no_space, String.eqb_refl.
  2:{ revert Hall. apply all_chars_impl. intros c Hc.
      destruct (isdigit_char_facts c Hc) as [-> _]. reflexivity. }
  rewrite !contains_char_none; [reflexivity | |].
  - revert Hall. apply all_chars_impl. intros c Hc.
    destruct (isdigit_char_facts c Hc) as (_ & _ & ->). reflexivity.
  - revert Hall. apply all_chars_impl. intros c Hc.
    destruct (isdigit_char_facts c Hc) as (_ & -> & _). reflexivity.
Qed.

(** The id of a pair that the page offers comes from the path of its url. *)
Lemma element_pair_id (E : env) (el : element) (video_id url : string) :
  element_pair E el = Some (video_id, url) ->
  el = Href (Some url)
  /\ contains "/video/" url = true
  /\ looks_like_id video_id = true
  /\ exists path before after,
       urlparse_path E url = Ok path
       /\ split "/" path = before ++ video_id :: after
       /\ Forall (fun part => looks_like_id part = false) after.
Proof.
  unfold element_pair. destruct el as [[u|]|e]; try discriminate.
  destruct (truthy u && contains "/video/" u) eqn:Hc; [|discriminate].
  apply andb_prop in Hc as [_ Hc].
  destruct (urlparse_path E u) as [path|e] eqn:Hp; [|discriminate].
  destruct (List.find _ _) as [i|] eqn:Hf; [|discriminate].
  intros [= <- <-]. apply find_rev_Some in Hf as (before & after & Hs & Hi & Hafter).
  split; [reflexivity|]. split; [exact Hc|]. split; [exact Hi|].
  exists path, before, after. rewrite Hp. auto.
Qed.

Lemma offered_pairs (E : env) (drv : option driver) (pauses : nat) (pair : string * string) :
  pair ∈ offered E drv pauses ->
  exists d i els el,
    drv = Some d /\ (i < pauses)%nat /\ drv_scroll d i = Found els
    /\ el ∈ els /\ element_pair E el = Some pair.
Proof.
  unfold offered. destruct drv as [d|]; [|intros H; apply elem_of_nil in H; contradiction].
  intros Hin. apply list_elem_of_In, in_concat in Hin as (l & Hl & Hin).
  apply list_elem_of_In in Hl, Hin.
  apply list_elem_of_fmap in Hl as (i & -> & Hi).
  apply elem_of_seq in Hi. unfold round_pairs in Hin.
  destruct (drv_scroll d i) as [e|e|els] eqn:Hs;
    try (apply elem_of_nil in Hin; contradiction).
  apply list_elem_of_omap in Hin as (el & Hel & Hp).
  exists d, i, els, el. split; [reflexivity|]. split; [lia|]. auto.
Qed.

End UrlIds.

(** X11.  [get_video_id_from_url] never raises and changes no file.  When
    the url can be parsed, its result is the last of the parts of the path
    between slashes that is made of digits only and is longer than 15
    characters, and nothing when no part is; when parsing the url raises,
    the result is nothing and the error is logged. *)
Theorem url_id_is_the_last_long_digit_part (E : env) (url : string) (lq : bool) (w : world) :
  let run := scraper.get_video_id_from_url E url lq w in
  match urlparse_path E url with
  | Ok path =>
      snd run = w
      /\ ((exists video_id before after,
             fst run = Ok (Some video_id)
             /\ PyStr.split "/" path = before ++ video_id :: after
             /\ scraper.looks_like_id video_id = true
             /\ Forall (fun part => scraper.looks_like_id part = false) after)
          \/ (fst run = Ok None
              /\ Forall (fun part => scraper.looks_like_id part = false) (PyStr.split "/" path)))
  | Raise e =>
      fst run = Ok None
      /\ files (snd run) = files w
      /\ trace (snd run)
         = trace w ++ [log_event ("Error extracting video ID from " +:+ url +:+ ": "
                                  +:+ exn_text e) "ERROR" lq]
  end.
Proof.
  intros run. subst run. unfold scraper.get_video_id_from_url.
  destruct (urlparse_path E url) as [path|e].
  - split; [reflexivity|]. cbn [ret fst].
    destruct (List.find scraper.looks_like_id (rev (PyStr.split "/" path))) as [i|] eqn:Hf.
    + left. apply find_rev_Some in Hf as (before & after & Hs & Hi & Hafter).
      exists i, before, after. auto.
    + right. split; [reflexivity|]. apply find_rev_None, Hf.
  - unfold bind. rewrite scraper_log_emit. cbn. auto.
Qed.

(** X12.  Every pair that discovery returns is the href of an element of
    the page that contains "/video/", with the id that
    [get_video_id_from_url] reads in it: a string of digits longer than 15
    characters, and so a clean id, one that the ledger gives back as it is
    stored. *)
Theorem discovered_ids_are_long_digit_strings (E : env) (drv : option driver)
    (hashtag : string) (N : Z) (scroll_pauses scroll_time : nat) (lq : bool) (w : world)
    (l : list (string * string)) (video_id url : string) :
  fst (scraper.get_video_links_from_tiktok E drv hashtag N scroll_pauses scroll_time lq w) = Ok l ->
  (video_id, url) ∈ l ->
  scraper.looks_like_id video_id = true
  /\ clean_id video_id = true
  /\ PyStr.contains "/video/" url = true
  /\ (exists d i els, drv = Some d /\ (i < scroll_pauses)%nat
                      /\ drv_scroll d i = Found els /\ Href (Some url) ∈ els)
  /\ exists path before after,
       urlparse_path E url = Ok path
       /\ PyStr.split "/" path = before ++ video_id :: after
       /\ Forall (fun part => scraper.looks_like_id part = false) after.
Proof.
  intros Hr Hin.
  destruct (get_video_links_spec E drv hashtag N scroll_pauses scroll_time lq w)
    as (_ & l' & Hr' & Hsub & _).
  rewrite Hr in Hr'. injection Hr' as <-.
  pose proof (elem_of_sublist _ _ _ Hin Hsub) as Hoff.
  apply offered_pairs in Hoff as (d & i & els & el & -> & Hi & Hs & Hel & Hp).
  apply element_pair_id in Hp as (-> & Hc & Hid & Hpath).
  split; [exact Hid|]. split; [exact (looks_like_id_clean _ Hid)|]. split; [exact Hc|].
  split; [|exact Hpath]. exists d, i, els. auto.
Qed.

Lemma discovered_ids_are_long_digit_strings_witness :
  scraper.looks_like_id "7301000000000000003" = true
  /\ clean_id "7301000000000000003" = true
  /\ PyStr.contains "/video/" "https://www.tiktok.com/@c/video/7301000000000000003" = true.
Proof.
  assert (Hr : fst (scraper.get_video_links_from_tiktok env_no_ytdlp (Some page_of_three) "cats"
                      2 5 3 true world_second_in_ledger)
               = Ok [("7301000000000000001", "https://www.tiktok.com/@a/video/7301000000000000001");
                     ("7301000000000000003", "https://www.tiktok.com/@c/video/7301000000000000003")]).
  { vm_compute. reflexivity. }
  destruct (discovered_ids_are_long_digit_strings env_no_ytdlp (Some page_of_three) "cats"
              2 5 3 true world_second_in_ledger _ "7301000000000000003"
              "https://www.tiktok.com/@c/video/7301000000000000003" Hr)
    as (H1 & H2 & H3 & _).
  - apply elem_of_cons. right. apply elem_of_cons. left. reflexivity.
  - auto.
Defined.

(** ** The fetch adapter *)

Section DownloadResult.

Import scraper.

Variable E : env.

(** [download_video] does not raise when the folder has a name, and a path
    is returned only for a file that is there and not empty. *)
Lemma download_video_result video_id video_url folder lq w :
  wp (download_video E video_id video_url folder lq) w
     (fun r w' =>
        (PyStr.truthy folder = true -> exists o, r = Ok o)
        /\ forall p, r = Ok (Some p) ->
             p = download_path folder video_id
             /\ (video_id ∉ ledger_ids w)
             /\ (exists f, Os.lookup p w' = Some f /\ 0 < Z.of_nat (String.length (f_data f)))
             /\ emitted_since (EvPopen (yt_dlp_command p video_url)) w w').
Proof.
  unfold download_video, fetch_body, fetch_on_exception, verify_body, verify_on_exception.
  repeat wp_step.
  all: split; [intros Hfolder; first [eexists; reflexivity | discriminate Hfolder]|].
  all: intros p' Hp'; try discriminate Hp'.
  all: injection Hp' as <-.
  all: split; [reflexivity|].
  all: split; [eapply bool_decide_eq_false_1; eassumption|].
  all: match goal with
       | H : _ && false && _ = true |- _ => rewrite andb_false_r in H; discriminate H
       | H : _ && true && (0 <? _) = true |- _ =>
           apply andb_prop in H as [_ H]; apply Z.ltb_lt in H
       end.
  all: split; [rewrite ?lookup_add_event; eexists; split; [eassumption | assumption]|].
  all: eapply emitted_after; [exact H|]; solve [emitted_solve].
Qed.

(** Without a folder name the directory cannot be made: the call raises
    before anything is started. *)
Lemma download_video_empty_folder video_id video_url lq w :
  video_id ∉ ledger_ids w ->
  wp (download_video E video_id video_url "" lq) w
     (fun r w' =>
        r = Raise (Exn FileNotFoundError "[Errno 2] No such file or directory: ''")
        /\ touches (fun _ => False) is_message w w').
Proof.
  intros Hin. unfold download_video.
  wp_step. wp_step. rewrite bool_decide_eq_false_2 by exact Hin.
  cbv zeta. wp_step. wp_step. cbn [PyStr.truthy].
  split; [reflexivity | touches_solve].
Qed.

End DownloadResult.

(** X13.  When [download_video] returns a path, it is the path
    <folder>/<id>.mp4, the id was not in the ledger, yt-dlp has been
    started on the url with that path as its output, and the file at that
    path exists and is not empty. *)
Theorem downloaded_path_is_a_written_file (E : env) (video_id video_url folder : string)
    (lq : bool) (w : world) (p : string) :
  let run := scraper.download_video E video_id video_url folder lq w in
  fst run = Ok (Some p) ->
  p = scraper.download_path folder video_id
  /\ fst (utils.is_video_processed video_id utils.PROCESSED_VIDEOS_FILE w) = Ok false
  /\ (exists f, files (snd run) !! p = Some f /\ f_data f <> "")
  /\ emitted_since (EvPopen (scraper.yt_dlp_command p video_url)) w (snd run).
Proof.
  intros run Hr.
  destruct (download_video_result E video_id video_url folder lq w) as [_ H].
  destruct (H p Hr) as (-> & Hled & (f & Hf & Hsize) & Hem).
  split; [reflexivity|]. split.
  { rewrite is_video_processed_default, bool_decide_eq_false_2 by exact Hled. reflexivity. }
  split; [|exact Hem]. exists f. split.
  - unfold Os.lookup in Hf. destruct (PyStr.truthy _); [exact Hf | discriminate Hf].
  - intros Hd. rewrite Hd in Hsize. simpl in Hsize. lia.
Qed.

Lemma downloaded_path_is_a_written_file_witness :
  let run := scraper.download_video env_no_ffprobe "7301000000000000001"
               "https://www.tiktok.com/@a/video/7301000000000000001" "videos" true
               (World ∅ []) in
  fst run = Ok (Some "videos/7301000000000000001.mp4")
  /\ exists f, files (snd run) !! "videos/7301000000000000001.mp4" = Some f /\ f_data f <> "".
Proof.
  intros run.
  assert (Hr : fst run = Ok (Some "videos/7301000000000000001.mp4")) by (vm_compute; reflexivity).
  split; [exact Hr|].
  exact (proj1 (proj2 (proj2 (downloaded_path_is_a_written_file env_no_ffprobe
                                "7301000000000000001"
                                "https://www.tiktok.com/@a/video/7301000000000000001"
                                "videos" true (World ∅ []) _ Hr)))).
Defined.

(** X14.  With a download folder that has a name, [download_video] never
    raises, whatever the tools do, and it changes no file other than
    <folder>/<id>.mp4.  With the empty folder name and an id that is not in
    the ledger it raises [FileNotFoundError], from [os.makedirs], before
    any process is started. *)
Theorem download_video_raises_only_without_folder (E : env) (video_id video_url folder : string)
    (lq : bool) (w : world) :
  let run := scraper.download_video E video_id video_url folder lq w in
  (PyStr.truthy folder = true ->
   (exists o, fst run = Ok o)
   /\ forall p, p <> scraper.download_path folder video_id ->
        files (snd run) !! p = files w !! p)
  /\ (folder = "" ->
      fst (utils.is_video_processed video_id utils.PROCESSED_VIDEOS_FILE w) = Ok false ->
      fst run = Raise (Exn FileNotFoundError "[Errno 2] No such file or directory: ''")
      /\ files (snd run) = files w
      /\ exists new, trace (snd run) = trace w ++ new /\ Forall is_message new).
Proof.
  intros run. split.
  - intros Hf. split.
    + exact (proj1 (download_video_result E video_id video_url folder lq w) Hf).
    + intros p Hp.
      destruct (download_video_touches E video_id video_url folder lq w) as [Hfiles _].
      apply Hfiles. congruence.
  - intros -> Hnot.
    rewrite is_video_processed_default in Hnot. injection Hnot as Hnot.
    apply bool_decide_eq_false_1 in Hnot.
    destruct (download_video_empty_folder E video_id video_url lq w Hnot) as (Hr & Ht).
    split; [exact Hr|]. split; [exact (touches_nothing_files _ _ _ Ht) | exact (proj2 Ht)].
Qed.

Lemma download_video_raises_only_without_folder_witness :
  (exists o, fst (scraper.download_video env_everything_hangs "7301000000000000001"
                    "https://www.tiktok.com/@a/video/7301000000000000001" "videos" true
                    (World ∅ [])) = Ok o)
  /\ fst (scraper.download_video env_everything_hangs "7301000000000000001"
            "https://www.tiktok.com/@a/video/7301000000000000001" "" true (World ∅ []))
     = Raise (Exn FileNotFoundError "[Errno 2] No such file or directory: ''").
Proof.
  split.
  - apply (download_video_raises_only_without_folder env_everything_hangs "7301000000000000001"
             "https://www.tiktok.com/@a/video/7301000000000000001" "videos" true (World ∅ [])).
    reflexivity.
  - apply (download_video_raises_only_without_folder env_everything_hangs "7301000000000000001"
             "https://www.tiktok.com/@a/video/7301000000000000001" "" true (World ∅ []));
      [reflexivity | vm_compute; reflexivity].
Defined.

(** ** The stand-alone verifier *)

Section VerifyResult.

Import scraper.

Variable E : env.

Lemma verify_downloaded_video_result filepath video_id lq w :
  wp (verify_downloaded_video E filepath video_id lq) w
     (fun r w' =>
        exists b, r = Ok b
          /\ touches (eq filepath) (fun _ => True) w w'
          /\ (b = true ->
              files w' = files w
              /\ exists f, Os.lookup filepath w = Some f
                           /\ 0 < Z.of_nat (String.length (f_data f)))
          /\ (from_option (fun f => f_data f =? "")%string true (Os.lookup filepath w) = true ->
              b = false /\ touches (eq filepath) is_message w w')).
Proof.
  unfold verify_downloaded_video.
  repeat wp_step.
  all: eexists; split; [reflexivity|].
  all: split; [solve [touches_solve]|].
  all: try match goal with
       | H : negb false || _ = false |- _ => discriminate H
       end.
  all: split; [intros Hb; try discriminate Hb | intros Hempty].
  all: try match goal with
       | H : negb true || (Z.of_nat (String.length (f_data ?f)) =? 0) = false
         |- _ /\ exists _, _ =>
           split; [reflexivity|]; exists f; split; [reflexivity|];
           cbn [negb orb] in H; apply Z.eqb_neq in H; lia
       end.
  all: try (exfalso; cbn [from_option] in Hempty; apply String.eqb_eq in Hempty;
      match goal with
      | H : negb true || (Z.of_nat (String.length (f_data ?f)) =? 0) = false |- _ =>
          rewrite Hempty in H; simpl in H; discriminate H
      end).
  all: first
    [ solve [split; [reflexivity | touches_solve]]
    | exfalso; cbn [from_option] in Hempty; apply String.eqb_eq in Hempty;
      match goal with
      | H : negb true || (Z.of_nat (String.length (f_data ?f)) =? 0) = false |- _ =>
          rewrite Hempty in H; simpl in H; discriminate H
      end ].
Qed.

End VerifyResult.

(** X15.  [verify_downloaded_video] never raises and changes no file other
    than the one it checks.  It returns [True] only for a file that exists
    and is not empty, and then it has changed nothing; for a file that is
    missing or empty it returns [False] without starting ffprobe. *)
Theorem verify_accepts_only_nonempty_files (E : env) (filepath video_id : string)
    (lq : bool) (w : world) :
  let run := scraper.verify_downloaded_video E filepath video_id lq w in
  exists b, fst run = Ok b
    /\ (forall p, p <> filepath -> files (snd run) !! p = files w !! p)
    /\ (b = true ->
        files (snd run) = files w
        /\ exists f, files w !! filepath = Some f /\ f_data f <> "")
    /\ (files w !! filepath = None \/ (exists f, files w !! filepath = Some f /\ f_data f = "") ->
        b = false
        /\ exists new, trace (snd run) = trace w ++ new /\ Forall is_message new).
Proof.
  intros run.
  destruct (verify_downloaded_video_result E filepath video_id lq w)
    as (b & Hr & Ht & Htrue & Hempty).
  exists b. split; [exact Hr|]. split; [|split].
  - intros p Hp. apply (proj1 Ht). congruence.
  - intros Hb. destruct (Htrue Hb) as (Hfiles & f & Hf & Hsize).
    split; [exact Hfiles|]. exists f. split.
    + unfold Os.lookup in Hf. destruct (PyStr.truthy filepath); [exact Hf | discriminate Hf].
    + intros Hd. rewrite Hd in Hsize. simpl in Hsize. lia.
  - intros Hmissing.
    assert (H : from_option (fun f => f_data f =? "")%string true (Os.lookup filepath w) = true).
    { unfold Os.lookup. destruct (PyStr.truthy filepath); [|reflexivity].
      destruct Hmissing as [-> | (f & -> & Hd)]; [reflexivity|].
      simpl. rewrite Hd. reflexivity. }
    destruct (Hempty H) as (Hb & Htm). split; [exact Hb | exact (proj2 Htm)].
Qed.

Lemma verify_accepts_only_nonempty_files_witness :
  let w := World (<["videos/7301000000000000001.mp4" := File "" true true]> ∅) [] in
  fst (scraper.verify_downloaded_video env_no_ffprobe "videos/7301000000000000001.mp4"
         "7301000000000000001" true w) = Ok false.
Proof.
  intros w.
  destruct (verify_accepts_only_nonempty_files env_no_ffprobe "videos/7301000000000000001.mp4"
              "7301000000000000001" true w) as (b & Hr & _ & _ & Hempty).
  rewrite Hr. f_equal. apply Hempty. right.
  exists (File "" true true). split; [vm_compute; reflexivity | reflexivity].
Defined.

(** ** What a run downloads *)

Section Paths.

Lemma length_app_str (a b : string) :
  String.length (a +:+ b) = (String.length a + String.length b)%nat.
Proof. induction a as [|c a IH]; [reflexivity|]. rewrite app_cons. simpl. rewrite IH. reflexivity. Qed.

Lemma app_inj_tail_str (a b t : string) : a +:+ t = b +:+ t -> a = b.
Proof.
  revert b. induction a as [|c a IH]; intros [|d b] H.
  - reflexivity.
  - apply (f_equal String.length) in H. rewrite app_empty_l, app_cons in H.
    simpl in H. rewrite length_app_str in H. lia.
  - apply (f_equal String.length) in H. rewrite app_empty_l, app_cons in H.
    simpl in H. rewrite length_app_str in H. lia.
  - rewrite !app_cons in H. injection H as -> H. f_equal. exact (IH _ H).
Qed.

(** Two ids have two download paths. *)
Lemma download_path_inj (a b : string) :
  scraper.download_path scraper.VIDEOS_DOWNLOAD_DIR a
  = scraper.download_path scraper.VIDEOS_DOWNLOAD_DIR b -> a = b.
Proof.
  unfold scraper.download_path, OsPath.join, scraper.VIDEOS_DOWNLOAD_DIR.
  change (negb (PyStr.truthy "videos") || OsPath.ends_with_sep "videos") with false.
  cbv iota. intros H. apply (app_inj_tail_str a b ".mp4").
  destruct (OsPath.starts_with_sep (a +:+ ".mp4")) eqn:Ha,
           (OsPath.starts_with_sep (b +:+ ".mp4")) eqn:Hb.
  - exact H.
  - rewrite H in Ha. discriminate Ha.
  - rewrite <- H in Hb. discriminate Hb.
  - injection H as H. exact H.
Qed.

End Paths.

(** The item names a file that is where [download_video] puts it, and the
    file is there and not empty. *)
Definition on_disk (w : world) (info : scraper.video_info) : Prop :=
  scraper.vi_filepath info
  = scraper.download_path scraper.VIDEOS_DOWNLOAD_DIR (scraper.vi_id info)
  /\ exists f, files w !! scraper.vi_filepath info = Some f /\ f_data f <> "".

Lemma wp_conj {A} (m : M A) (w : world) (Q1 Q2 : res A -> world -> Prop) :
  wp m w Q1 -> wp m w Q2 -> wp m w (fun r w' => Q1 r w' /\ Q2 r w').
Proof. unfold wp. auto. Qed.

Section DownloadLoop.

Import scraper.

Variable E : env.

Lemma on_disk_kept (w w' : world) (info : video_info) :
  files w' !! vi_filepath info = files w !! vi_filepath info ->
  on_disk w info -> on_disk w' info.
Proof. intros H [Hp Hf]. split; [exact Hp|]. rewrite H. exact Hf. Qed.

Lemma on_disk_same_files (w w' : world) (l : list video_info) :
  files w' = files w -> Forall (on_disk w) l -> Forall (on_disk w') l.
Proof.
  intros H Hl. eapply Forall_impl; [exact Hl|].
  intros info. apply on_disk_kept. rewrite H. reflexivity.
Qed.

(** Downloading [video_id] leaves the items of the other ids on disk. *)
Lemma on_disk_other_download (w w' : world) (video_id : string) (l : list video_info) :
  touches (eq (download_path VIDEOS_DOWNLOAD_DIR video_id)) (fun _ => True) w w' ->
  (forall info, info ∈ l -> vi_id info <> video_id) ->
  Forall (on_disk w) l -> Forall (on_disk w') l.
Proof.
  intros [Hf _] Hne Hl. rewrite Forall_forall in Hl |- *. intros info Hin.
  pose proof (Hl info Hin) as Hd. apply (on_disk_kept w); [|exact Hd].
  apply Hf. destruct Hd as [Hp _]. rewrite Hp. intros Heq.
  apply download_path_inj in Heq. exact (Hne info Hin (eq_sym Heq)).
Qed.

Definition ids_of (l : list video_info) : list string := vi_id <$> l.

(** The loop: what it has collected is on disk, and it has collected new
    items for some of the links, in their order. *)
Lemma download_loop_result lq total : forall links i acc w,
  NoDup links.*1 ->
  Forall (on_disk w) acc ->
  (forall info, info ∈ acc -> vi_id info ∉ links.*1) ->
  wp (download_loop E lq total i links acc) w
     (fun r w' =>
        exists new oe,
          r = Ok (acc ++ new, oe)
          /\ Forall (on_disk w') (acc ++ new)
          /\ ids_of new `sublist_of` links.*1
          /\ (forall info, info ∈ new -> vi_id info ∉ ledger_ids w)
          /\ touches (fun p => p <> utils.PROCESSED_VIDEOS_FILE) (fun _ => True) w w').
Proof.
  induction links as [|[video_id video_url] rest IH]; intros i acc w Hnd Hacc Hfresh.
  - simpl. apply wp_ret. exists [], None. rewrite app_nil_r.
    split; [reflexivity|]. split; [exact Hacc|]. split; [constructor|].
    split; [intros ? Hin; apply elem_of_nil in Hin; contradiction | apply touches_refl].
  - cbn [fmap list_fmap fst] in Hnd. apply NoDup_cons in Hnd as [Hnew Hnd].
    simpl download_loop. wp_step. wp_step. wp_step. wp_step.
    match goal with
    | |- wp _ ?w1 _ =>
        assert (Hf1 : files w1 = files w) by (destruct lq; reflexivity);
        assert (Ht1 : touches (fun p => p <> utils.PROCESSED_VIDEOS_FILE) (fun _ => True) w w1)
          by touches_solve;
        assert (Hl1 : ledger_ids w1 = ledger_ids w)
          by (apply ledger_ids_ext; unfold ledger_file; rewrite Hf1; reflexivity);
        generalize dependent w1
    end.
    intros w1 Hf1 Ht1 Hl1.
    eapply wp_mono;
      [|apply (wp_conj _ _ _ _ (download_video_result E video_id video_url VIDEOS_DOWNLOAD_DIR lq w1)
                 (download_video_touches E video_id video_url VIDEOS_DOWNLOAD_DIR lq w1))].
    intros r w2 [[Hok Hres] Ht2]. cbv beta.
    assert (Hacc2 : Forall (on_disk w2) acc).
    { apply (on_disk_other_download w1 w2 video_id); [exact Ht2 | |].
      - intros info Hin Heq. apply (Hfresh info Hin). rewrite Heq.
        apply elem_of_cons. left. reflexivity.
      - exact (on_disk_same_files _ _ _ Hf1 Hacc). }
    assert (Ht12 : touches (fun p => p <> utils.PROCESSED_VIDEOS_FILE) (fun _ => True) w w2).
    { apply (touches_trans _ _ _ _ _ Ht1).
      eapply touches_weaken; [| |exact Ht2]; [|auto].
      intros p <-. apply download_path_not_ledger. }
    assert (Hl2 : ledger_ids w2 = ledger_ids w).
    { apply ledger_ids_ext. unfold ledger_file. apply (proj1 Ht12). intros H. exact (H eq_refl). }
    destruct (Hok eq_refl) as [o ->].
    assert (Hfresh' : forall info, info ∈ acc -> vi_id info ∉ rest.*1).
    { intros info Hin Hin'. apply (Hfresh info Hin). apply elem_of_cons. right. exact Hin'. }
    destruct (from_option PyStr.truthy false o) eqn:Htruthy.
    + destruct o as [p|]; [|discriminate Htruthy]. cbn [default].
      pose proof (Hres p eq_refl) as (Hp & Hled & (f & Hf & Hsize) & _).
      clear Hres Hok. subst p.
      wp_step. wp_step.
      match goal with
      | |- wp _ ?w3 _ =>
          assert (Hf3 : files w3 = files w2) by (destruct lq; reflexivity);
          assert (Ht3 : touches (fun p => p <> utils.PROCESSED_VIDEOS_FILE) (fun _ => True) w w3)
            by touches_solve;
          generalize dependent w3
      end.
      intros w3 Hf3 Ht3.
      set (item := VideoInfo video_id (download_path VIDEOS_DOWNLOAD_DIR video_id)).
      assert (Hitem : on_disk w3 item).
      { split; [reflexivity|]. rewrite Hf3. exists f. split.
        - unfold Os.lookup in Hf. cbn [vi_filepath item].
          destruct (PyStr.truthy _); [exact Hf | discriminate Hf].
        - intros Hd. rewrite Hd in Hsize. simpl in Hsize. lia. }
      eapply wp_mono; [|apply (IH (S i) (acc ++ [item]) w3 Hnd)].
      * intros r w4 (new & oe & -> & Hdisk & Hsub & Hnl & Ht4).
        exists (item :: new), oe. rewrite <- app_assoc in Hdisk |- *.
        split; [reflexivity|]. split; [exact Hdisk|]. split; [apply sublist_skip, Hsub|]. split.
        -- intros info [-> | Hin]%elem_of_cons.
           ++ cbn [vi_id item]. rewrite <- Hl1. exact Hled.
           ++ assert (Hl3 : ledger_ids w3 = ledger_ids w).
              { apply ledger_ids_ext. unfold ledger_file. apply (proj1 Ht3).
                intros H. exact (H eq_refl). }
              rewrite <- Hl3. exact (Hnl info Hin).
        -- exact (touches_trans _ _ _ _ _ Ht3 Ht4).
      * apply Forall_app. split; [exact (on_disk_same_files _ _ _ Hf3 Hacc2)|].
        constructor; [exact Hitem | constructor].
      * intros info [Hin | Hin]%elem_of_app; [exact (Hfresh' info Hin)|].
        apply list_elem_of_singleton in Hin. subst info. exact Hnew.
    + wp_step. wp_step.
      match goal with
      | |- wp _ ?w3 _ =>
          assert (Hf3 : files w3 = files w2) by (destruct lq; reflexivity);
          assert (Ht3 : touches (fun p => p <> utils.PROCESSED_VIDEOS_FILE) (fun _ => True) w w3)
            by touches_solve;
          generalize dependent w3
      end.
      intros w3 Hf3 Ht3.
      eapply wp_mono;
        [|apply (IH (S i) acc w3 Hnd (on_disk_same_files _ _ _ Hf3 Hacc2) Hfresh')].
      intros r w4 (new & oe & -> & Hdisk & Hsub & Hnl & Ht4).
      exists new, oe. split; [reflexivity|]. split; [exact Hdisk|].
      split; [apply sublist_cons, Hsub|]. split.
      * intros info Hin.
        assert (Hl3 : ledger_ids w3 = ledger_ids w).
        { apply ledger_ids_ext. unfold ledger_file. apply (proj1 Ht3).
          intros H. exact (H eq_refl). }
        rewrite <- Hl3. exact (Hnl info Hin).
      * exact (touches_trans _ _ _ _ _ Ht3 Ht4).
Qed.

End DownloadLoop.

Section ScrapeResult.

Import scraper.

Variable E : env.

Lemma on_disk_touches_nothing Pev (w w' : world) (l : list video_info) :
  touches (fun _ => False) Pev w w' -> Forall (on_disk w) l -> Forall (on_disk w') l.
Proof. intros Ht. apply on_disk_same_files. exact (touches_nothing_files _ _ _ Ht). Qed.

(** What a run of the scraper comes to. *)
Definition scrape_post (N : Z) (w : world) (r : res (list video_info)) (w' : world) : Prop :=
  exists infos links,
    r = Ok infos
    /\ Forall (on_disk w') infos
    /\ links `sublist_of` offered E (chrome E) 5
    /\ NoDup links.*1
    /\ ids_of infos `sublist_of` links.*1
    /\ (forall video_id, video_id ∈ ids_of infos -> video_id ∉ ledger_ids w)
    /\ (0 <= N -> Z.of_nat (length links) <= N)
    /\ touches (fun p => p <> utils.PROCESSED_VIDEOS_FILE) (fun _ => True) w w'
    /\ (is_Some (chrome E) -> emitted_since (EvDriver "quit") w w')
    /\ (chrome E = None -> infos = [] /\ touches (fun _ => False) is_message w w').

Lemma scrape_result hashtag N lq w :
  wp (scrape_and_download_videos_by_hashtag E hashtag N lq) w (scrape_post N w).
Proof.
  unfold scrape_and_download_videos_by_hashtag, setup_driver, quit_driver. cbv zeta.
  destruct (chrome E) as [d|] eqn:Hchrome.
  2:{ repeat wp_step. exists [], []. unfold offered. rewrite Hchrome.
      split; [reflexivity|]. split; [constructor|]. split; [apply sublist_nil_l|].
      split; [constructor|]. split; [constructor|].
      split; [intros ? Hin; apply elem_of_nil in Hin; contradiction|].
      split; [intros HN; exact HN|].
      split; [touches_solve|].
      split; [intros [? Hs]; discriminate Hs|].
      intros _. split; [reflexivity | touches_solve]. }
  repeat wp_step.
  match goal with
  | |- wp _ ?w1 _ =>
      assert (Ht1 : touches (fun _ => False) (fun _ => True) w w1) by touches_solve;
      generalize dependent w1
  end.
  intros w1 Ht1.
  eapply wp_mono; [|apply get_video_links_spec].
  intros r w2 (Ht2 & l & -> & Hsub & Hnd & Hled & Hlen).
  pose proof (touches_trans _ _ _ _ _ Ht1 Ht2) as Ht12.
  assert (Hled' : forall video_id, video_id ∈ l.*1 -> video_id ∉ ledger_ids w).
  { intros x Hx. rewrite <- (ledger_ids_touches _ _ _ Ht1). exact (Hled x Hx). }
  (* the end of the run, from a world [w4] in which [new] is on disk *)
  assert (Hend : forall (new : list video_info) (w4 w5 : world),
             Forall (on_disk w4) new ->
             ids_of new `sublist_of` l.*1 ->
             touches (fun p => p <> utils.PROCESSED_VIDEOS_FILE) (fun _ => True) w w4 ->
             touches (fun _ => False) (fun _ => True) w4 w5 ->
             emitted_since (EvDriver "quit") w4 w5 ->
             scrape_post N w (Ok new) w5).
  { intros new w4 w5 Hdisk Hids Ht4 Ht5 Hquit. exists new, l.
    split; [reflexivity|]. split; [exact (on_disk_touches_nothing _ _ _ _ Ht5 Hdisk)|].
    split; [rewrite Hchrome; exact Hsub|]. split; [exact Hnd|]. split; [exact Hids|].
    split; [intros x Hx; apply Hled'; exact (elem_of_sublist _ _ _ Hx Hids)|].
    split; [exact Hlen|].
    split.
    { apply (touches_trans _ _ _ _ _ Ht4).
      eapply touches_weaken; [| |exact Ht5]; [intros ? [] | auto]. }
    split; [|intros Hn; congruence].
    intros _. exact (emitted_after _ _ _ _ _ _ Ht4 Hquit). }
  assert (Hw2 : touches (fun p => p <> utils.PROCESSED_VIDEOS_FILE) (fun _ => True) w w2).
  { eapply touches_weaken; [| |exact Ht12]; [intros ? [] | auto]. }
  destruct l as [|link l].
  - repeat wp_step.
    all: apply (Hend [] w2); [constructor | constructor | exact Hw2 | touches_solve | emitted_solve].
  - wp_step. wp_step. wp_step.
    match goal with
    | |- wp _ ?w3 _ =>
        assert (Ht3 : touches (fun _ => False) (fun _ => True) w2 w3) by touches_solve;
        generalize dependent w3
    end.
    intros w3 Ht3.
    eapply wp_mono;
      [|apply (download_loop_result E lq _ (link :: l) 0%nat [] w3 Hnd (List.Forall_nil _))].
    2:{ intros ? Hin. apply elem_of_nil in Hin. contradiction. }
    intros r w4 (new & oe & -> & Hdisk & Hids & _ & Ht4). cbn [app] in Hdisk |- *.
    assert (Hw4 : touches (fun p => p <> utils.PROCESSED_VIDEOS_FILE) (fun _ => True) w w4).
    { apply (touches_trans _ _ _ _ _ Hw2). refine (touches_trans _ _ _ _ _ _ Ht4).
      eapply touches_weaken; [| |exact Ht3]; [intros ? [] | auto]. }
    destruct oe as [e|]; repeat wp_step.
    all: apply (Hend new w4); [exact Hdisk | exact Hids | exact Hw4 | touches_solve | emitted_solve].
Qed.

End ScrapeResult.

(** An environment with the page of three links in which yt-dlp downloads
    a file and ffprobe finds a video stream in it. *)
Definition env_downloads : env :=
  Env true
    (fun cmd _ =>
       if bool_decide (head cmd = Some "yt-dlp")
       then Exits 0 "" "" (Some (File "mp4 data" true true))
       else Exits 0 "h264" "" None)
    (Some page_of_three) ""
    (fun url => Ok (String.substring 22 (String.length url - 22) url))
    (fun _ => false).

(** X16.  A run of the scraper never raises, and every item of the list it
    returns names a file videos/<id>.mp4 that exists and is not empty when
    the run ends.  The ids of the list are distinct, none of them was in
    the ledger when the run began, and for a target count N >= 0 there are
    at most N items. *)
Theorem downloaded_items_are_on_disk (E : env) (hashtag : string) (N : Z) (lq : bool)
    (w : world) :
  let run := scraper.scrape_and_download_videos_by_hashtag E hashtag N lq w in
  exists infos,
    fst run = Ok infos
    /\ (forall info, info ∈ infos ->
          scraper.vi_filepath info
          = scraper.download_path scraper.VIDEOS_DOWNLOAD_DIR (scraper.vi_id info)
          /\ (exists f, files (snd run) !! scraper.vi_filepath info = Some f /\ f_data f <> "")
          /\ fst (utils.is_video_processed (scraper.vi_id info) utils.PROCESSED_VIDEOS_FILE w)
             = Ok false)
    /\ NoDup (scraper.vi_id <$> infos)
    /\ (0 <= N -> Z.of_nat (length infos) <= N).
Proof.
  intros run.
  destruct (scrape_result E hashtag N lq w)
    as (infos & links & Hr & Hdisk & _ & Hnd & Hids & Hled & Hlen & _).
  exists infos. split; [exact Hr|]. split; [|split].
  - intros info Hin. rewrite Forall_forall in Hdisk.
    destruct (Hdisk info Hin) as [Hp Hf]. split; [exact Hp|]. split; [exact Hf|].
    rewrite is_video_processed_default. f_equal. apply bool_decide_eq_false_2, Hled.
    apply list_elem_of_fmap. exists info. split; [reflexivity | exact Hin].
  - exact (sublist_NoDup _ _ Hnd Hids).
  - intros HN. specialize (Hlen HN). apply sublist_length in Hids.
    unfold ids_of in Hids. rewrite !length_fmap in Hids. lia.
Qed.

Lemma downloaded_items_are_on_disk_witness :
  let run := scraper.scrape_and_download_videos_by_hashtag env_downloads "cats" 2 true
               world_second_in_ledger in
  fst run = Ok [scraper.VideoInfo "7301000000000000001" "videos/7301000000000000001.mp4";
                scraper.VideoInfo "7301000000000000003" "videos/7301000000000000003.mp4"]
  /\ exists infos, fst run = Ok infos /\ Z.of_nat (length infos) <= 2.
Proof.
  intros run. split; [vm_compute; reflexivity|].
  destruct (downloaded_items_are_on_disk env_downloads "cats" 2 true world_second_in_ledger)
    as (infos & Hr & _ & _ & Hlen).
  exists infos. split; [exact Hr | apply Hlen; lia].
Defined.

(** X17.  A run of the scraper never raises and never changes the ledger
    file.  When a browser session was set up, [quit] is called on it
    before the run returns, whatever happened in between; when none could
    be set up, the run returns the empty list, having only logged. *)
Theorem scraper_always_quits_the_driver (E : env) (hashtag : string) (N : Z) (lq : bool)
    (w : world) :
  let run := scraper.scrape_and_download_videos_by_hashtag E hashtag N lq w in
  (exists infos, fst run = Ok infos)
  /\ files (snd run) !! utils.PROCESSED_VIDEOS_FILE = files w !! utils.PROCESSED_VIDEOS_FILE
  /\ (is_Some (chrome E) -> emitted_since (EvDriver "quit") w (snd run))
  /\ (chrome E = None ->
      fst run = Ok []
      /\ files (snd run) = files w
      /\ exists new, trace (snd run) = trace w ++ new /\ Forall is_message new).
Proof.
  intros run.
  destruct (scrape_result E hashtag N lq w)
    as (infos & links & Hr & _ & _ & _ & _ & _ & _ & Ht & Hquit & Hnone).
  split; [exists infos; exact Hr|]. split; [|split; [exact Hquit|]].
  - apply (proj1 Ht). intros H. exact (H eq_refl).
  - intros Hn. destruct (Hnone Hn) as [-> Htm]. split; [exact Hr|].
    split; [exact (touches_nothing_files _ _ _ Htm) | exact (proj2 Htm)].
Qed.

Lemma scraper_always_quits_the_driver_witness :
  emitted_since (EvDriver "quit") (World ∅ [])
    (snd (scraper.scrape_and_download_videos_by_hashtag env_no_ytdlp "cats" 2 true (World ∅ []))).
Proof.
  apply (scraper_always_quits_the_driver env_no_ytdlp "cats" 2 true (World ∅ [])).
  eexists. reflexivity.
Defined.

(** ** The messages that end a task *)

(** [TASK_COMPLETE] and [TASK_FAILED] are the two messages on which the
    GUI ends the task. *)
Definition is_terminal (m : qmsg) : Prop :=
  match m with
  | TASK_COMPLETE _ | TASK_FAILED _ => True
  | _ => False
  end.

(** Any event but these two messages. *)
Definition not_terminal (e : event) : Prop :=
  match e with
  | EvPut (TASK_COMPLETE _) | EvPut (TASK_FAILED _) => False
  | _ => True
  end.

(** [w'] comes after [w] with no terminal message put in between. *)
Definition goes_on (w w' : world) : Prop := touches (fun _ => True) not_terminal w w'.

Lemma not_terminal_log_event m l q : not_terminal (log_event m l q).
Proof. destruct q; exact I. Qed.

Lemma goes_on_add_status text lq w0 w : goes_on w0 w -> goes_on w0 (add_status text lq w).
Proof. intros H. destruct lq; [apply touches_add_event; [exact I | exact H] | exact H]. Qed.

Lemma goes_on_of_messages w w' :
  touches (fun _ => False) (fun e => exists s, e = EvPrint s) w w' -> goes_on w w'.
Proof.
  apply touches_weaken; [auto|]. intros e [s ->]. exact I.
Qed.

Ltac goes_on_side := first [exact I | apply not_terminal_log_event].

Ltac goes_on_solve :=
  unfold goes_on;
  repeat first
    [ apply touches_refl
    | apply touches_add_event; [goes_on_side|]
    | apply touches_remove_file; [exact I|]
    | apply touches_put_file; [exact I|]
    | apply touches_left_file; [intros; exact I|]
    | apply goes_on_add_status
    | apply touches_if
    | match goal with
      | H : goes_on ?w1 ?w2 |- touches _ _ _ ?w2 =>
          eapply touches_trans; [|exact H]
      | H : touches (fun _ => True) not_terminal ?w1 ?w2 |- touches _ _ _ ?w2 =>
          eapply touches_trans; [|exact H]
      end ].

Lemma wp_is_video_processed_goes_on video_id w (Q : res bool -> world -> Prop) :
  (forall r w', goes_on w w' -> Q r w') ->
  wp (utils.is_video_processed video_id utils.PROCESSED_VIDEOS_FILE) w Q.
Proof.
  intros HQ. unfold wp. rewrite is_video_processed_eq, get_processed_videos_eq.
  destruct (Os.lookup utils.PROCESSED_VIDEOS_FILE w) as [f|].
  - destruct (f_readable f); apply HQ; goes_on_solve.
  - destruct (PyStr.truthy _); apply HQ; goes_on_solve.
Qed.

Lemma wp_add_processed_video_goes_on video_id filepath w (Q : res bool -> world -> Prop) :
  (forall b w', goes_on w w' -> Q (Ok b) w') ->
  wp (utils.add_processed_video video_id filepath) w Q.
Proof.
  intros HQ. unfold wp. rewrite add_processed_video_eq.
  destruct (PyStr.truthy _); [|apply HQ; goes_on_solve].
  destruct (files w !! filepath) as [f|].
  - destruct (f_writable f); apply HQ; [|goes_on_solve].
    apply (touches_put_file _ _ filepath _ w w I). apply touches_refl.
  - apply HQ. apply (touches_put_file _ _ filepath _ w w I). apply touches_refl.
Qed.

Lemma wp_video_filters_goes_on edits video_id ow oh lq w (Q : res (list string) -> world -> Prop) :
  (forall r w', goes_on w w' -> Q r w') ->
  wp (editor.video_filters edits video_id ow oh lq) w Q.
Proof.
  intros HQ. apply (wp_mono _ _ (fun _ w' => goes_on w w')).
  { intros r w'. apply HQ. }
  unfold editor.video_filters, editor.mirror_stage, editor.crop_stage.
  repeat wp_step; goes_on_solve.
Qed.

Ltac wp_hook_goes_on :=
  lazymatch goal with
  | |- wp (editor.video_filters _ _ _ _ _) _ _ => apply wp_video_filters_goes_on; intros ? ? ?
  | |- wp (utils.is_video_processed _ utils.PROCESSED_VIDEOS_FILE) _ _ =>
      apply wp_is_video_processed_goes_on; intros ? ? ?
  | |- wp (utils.add_processed_video _ _) _ _ =>
      apply wp_add_processed_video_goes_on; intros ? ? ?
  end.

Ltac wp_exec := repeat first [wp_hook_goes_on | wp_step0].

(** Use the frame lemma [lem] for the call at the head of the goal. *)
Ltac wp_frame lem :=
  eapply wp_mono; [|apply lem];
  let r := fresh "r" in
  let w2 := fresh "w" in
  let H := fresh "Hgo" in
  intros r w2 H; cbv beta in H |- *.

Section GoesOn.

Variable E : env.

Lemma edit_video_goes_on input video_id edits lq w :
  wp (editor.edit_video E input video_id edits lq) w (fun _ w' => goes_on w w').
Proof.
  unfold editor.edit_video, editor.before_transcode, editor.after_popen, editor.on_exception.
  wp_exec; goes_on_solve.
Qed.

Lemma download_video_goes_on video_id video_url folder lq w :
  wp (scraper.download_video E video_id video_url folder lq) w (fun _ w' => goes_on w w').
Proof.
  unfold scraper.download_video, scraper.fetch_body, scraper.fetch_on_exception,
    scraper.verify_body, scraper.verify_on_exception.
  wp_exec; goes_on_solve.
Qed.

Lemma scan_element_goes_on N lq el l found w :
  wp (scraper.scan_element E N lq el l found) w (fun _ w' => goes_on w w').
Proof.
  unfold scraper.scan_element, scraper.get_video_id_from_url.
  wp_exec; goes_on_solve.
Qed.

Lemma scan_elements_goes_on N lq els : forall l found w,
  wp (scraper.scan_elements E N lq els l found) w (fun _ w' => goes_on w w').
Proof.
  induction els as [|el els IH]; intros l found w.
  - simpl. apply wp_ret. goes_on_solve.
  - simpl scraper.scan_elements. apply wp_bind.
    eapply wp_mono; [|apply scan_element_goes_on].
    intros [[[l1 f1] stop]|e] w1 H1; [|exact H1].
    destruct stop; [apply wp_ret; exact H1|].
    eapply wp_mono; [|apply IH]. intros r w2 H2. cbv beta.
    exact (touches_trans _ _ _ _ _ H1 H2).
Qed.

Lemma scroll_rounds_goes_on d hashtag N pauses time lq rounds : forall l found w,
  wp (scraper.scroll_rounds E d hashtag N pauses time lq rounds l found) w
     (fun _ w' => goes_on w w').
Proof.
  induction rounds as [|i rounds IH]; intros l found w.
  - simpl. apply wp_ret. goes_on_solve.
  - simpl scraper.scroll_rounds.
    repeat first
      [ lazymatch goal with
        | |- wp (scraper.scan_elements _ _ _ _ _ _) ?w1 _ =>
            wp_frame scan_elements_goes_on; try match goal with r : res (_ * _) |- _ => destruct r as [[? ?]|?] end
        | |- wp (scraper.scroll_rounds _ _ _ _ _ _ _ _ _ _) ?w1 _ =>
            wp_frame IH
        end
      | wp_step0 ].
    all: goes_on_solve.
Qed.

Lemma get_video_links_goes_on drv hashtag N pauses time lq w :
  wp (scraper.get_video_links_from_tiktok E drv hashtag N pauses time lq) w
     (fun _ w' => goes_on w w').
Proof.
  unfold scraper.get_video_links_from_tiktok. cbv zeta.
  repeat first
    [ lazymatch goal with
      | |- wp (scraper.scroll_rounds _ _ _ _ _ _ _ _ _ _) ?w1 _ =>
          wp_frame scroll_rounds_goes_on
      end
    | wp_step0 ].
  all: goes_on_solve.
Qed.

Lemma download_loop_goes_on lq total : forall links i acc w,
  wp (scraper.download_loop E lq total i links acc) w (fun _ w' => goes_on w w').
Proof.
  induction links as [|[video_id video_url] rest IH]; intros i acc w.
  - simpl. apply wp_ret. goes_on_solve.
  - simpl scraper.download_loop.
    repeat first
      [ lazymatch goal with
        | |- wp (scraper.download_video _ _ _ _ _) ?w1 _ =>
            wp_frame download_video_goes_on
        | |- wp (scraper.download_loop _ _ _ _ _ _) ?w1 _ =>
            wp_frame IH
        end
      | wp_step0 ].
    all: goes_on_solve.
Qed.

Lemma scrape_goes_on hashtag N lq w :
  wp (scraper.scrape_and_download_videos_by_hashtag E hashtag N lq) w
     (fun _ w' => goes_on w w').
Proof.
  unfold scraper.scrape_and_download_videos_by_hashtag, scraper.setup_driver,
    scraper.quit_driver. cbv zeta.
  repeat first
    [ lazymatch goal with
      | |- wp (scraper.get_video_links_from_tiktok _ _ _ _ _ _ _) ?w1 _ =>
          wp_frame get_video_links_goes_on
      | |- wp (scraper.download_loop _ _ _ _ _ _) ?w1 _ =>
          wp_frame download_loop_goes_on
      end
    | wp_step0 ].
  all: goes_on_solve.
Qed.

Lemma edit_item_goes_on total i info w :
  wp (main.edit_item E total i info) w (fun _ w' => goes_on w w').
Proof.
  unfold main.edit_item. cbv zeta.
  repeat first
    [ lazymatch goal with
      | |- wp (editor.edit_video _ _ _ _ _) ?w1 _ =>
          wp_frame edit_video_goes_on
      end
    | wp_hook_goes_on
    | wp_step0 ].
  all: goes_on_solve.
Qed.

Lemma edit_loop_goes_on total infos : forall i ec fe w,
  wp (main.edit_loop E total i infos ec fe) w (fun _ w' => goes_on w w').
Proof.
  induction infos as [|info rest IH]; intros i ec fe w.
  - simpl. apply wp_ret. goes_on_solve.
  - simpl main.edit_loop. destruct (stop_is_set E i).
    { repeat wp_step0. goes_on_solve. }
    apply wp_bind. eapply wp_mono; [|apply edit_item_goes_on].
    intros [p|e] w1 H1; [|exact H1].
    destruct (from_option PyStr.truthy false p);
      (eapply wp_mono; [|apply IH]); intros r w2 H2; cbv beta;
      exact (touches_trans _ _ _ _ _ H1 H2).
Qed.

End GoesOn.

(** How a run of the worker ends: no exception, and a trace that has
    grown by events without a terminal message, then one terminal message,
    then the last log line. *)
Definition worker_post (w : world) (r : res unit) (w' : world) : Prop :=
  r = Ok tt
  /\ exists before last,
       trace w' = trace w ++ before
                  ++ [EvPut last;
                      EvPut (LOG "Scraping and editing worker thread finished." "DEBUG")]
       /\ is_terminal last
       /\ Forall not_terminal before.

Lemma worker_post_intro (w w1 : world) (last : qmsg) :
  goes_on w w1 -> is_terminal last ->
  worker_post w (Ok tt)
    (add_event (EvPut (LOG "Scraping and editing worker thread finished." "DEBUG"))
       (add_event (EvPut last) w1)).
Proof.
  intros [_ (new & Ht & Hnew)] Hlast. split; [reflexivity|].
  exists new, last. split; [|split; [exact Hlast | exact Hnew]].
  simpl. rewrite Ht, <- !app_assoc. reflexivity.
Qed.

Section Worker.

Variable E : env.

Lemma scraping_worker_ends hashtag N w :
  wp (main.scraping_worker E hashtag N) w (worker_post w).
Proof.
  unfold main.scraping_worker. cbv zeta.
  repeat first
    [ lazymatch goal with
      | |- wp (scraper.scrape_and_download_videos_by_hashtag _ _ _ _) ?w1 _ =>
          wp_frame scrape_goes_on
      | |- wp (main.edit_loop _ _ _ _ _ _) ?w1 _ =>
          wp_frame edit_loop_goes_on
      end
    | wp_step0 ].
  all: apply worker_post_intro; [goes_on_solve | exact I].
Qed.

End Worker.

(** X18.  A run of the worker never raises, and it puts exactly one
    terminal message on the queue, [TASK_COMPLETE] or [TASK_FAILED]: this
    message comes after every other message of the run but the last debug
    line "Scraping and editing worker thread finished.", which the
    [finally] clause puts after it. *)
Theorem worker_puts_one_terminal_message (E : env) (hashtag : string) (N : Z) (w : world) :
  let run := main.scraping_worker E hashtag N w in
  fst run = Ok tt
  /\ exists before last,
       trace (snd run)
       = trace w ++ before
         ++ [EvPut last; EvPut (LOG "Scraping and editing worker thread finished." "DEBUG")]
       /\ is_terminal last
       /\ Forall not_terminal before.
Proof. exact (scraping_worker_ends E hashtag N w). Qed.

(** ** The counters of the editing loop *)

Section EditLoopCounts.

Variable E : env.

Lemma edit_loop_counts total infos : forall i ec fe w ec' fe',
  fst (main.edit_loop E total i infos ec fe w) = Ok (ec', fe') ->
  (ec <= ec')%nat /\ (fe <= fe')%nat
  /\ (ec' + fe' <= ec + fe + length infos)%nat
  /\ ((forall j, stop_is_set E j = false) -> (ec' + fe' = ec + fe + length infos)%nat).
Proof.
  induction infos as [|info rest IH]; intros i ec fe w ec' fe'.
  - simpl. intros [= <- <-]. simpl. lia.
  - simpl main.edit_loop. destruct (stop_is_set E i) eqn:Hstop.
    { simpl. intros [= <- <-]. repeat split; try lia.
      intros Hnever. rewrite Hnever in Hstop. discriminate Hstop. }
    unfold bind. destruct (main.edit_item E total i info w) as [[p|e] w1]; [|discriminate].
    destruct (from_option PyStr.truthy false p); intros Hr;
      destruct (IH _ _ _ _ _ _ Hr) as (H1 & H2 & H3 & H4); simpl length;
      (repeat split; [lia | lia | lia |]); intros Hnever; specialize (H4 Hnever); lia.
Qed.

End EditLoopCounts.

(** X19.  When the editing loop of the worker ends without an exception,
    its two counters have only grown, and together they have grown by at
    most one per item; when no stop was requested they have grown by
    exactly one per item: every item is counted once, as edited or as
    failed.  When a stop is requested before an item, the loop ends there
    with the counters as they are and nothing else done but one warning
    put on the queue. *)
Theorem edit_loop_counts_every_item_once (E : env) (total i : nat)
    (infos : list scraper.video_info) (ec fe ec' fe' : nat) (w : world) :
  let run := main.edit_loop E total i infos ec fe w in
  fst run = Ok (ec', fe') ->
  (ec <= ec')%nat /\ (fe <= fe')%nat
  /\ (ec' + fe' <= ec + fe + length infos)%nat
  /\ ((forall j, stop_is_set E j = false) -> (ec' + fe' = ec + fe + length infos)%nat)
  /\ (stop_is_set E i = true -> infos <> [] ->
      ec' = ec /\ fe' = fe
      /\ snd run = add_event (EvPut (LOG "Stop requested by user. Halting process." "WARNING")) w).
Proof.
  intros run Hr.
  destruct (edit_loop_counts E total infos i ec fe w ec' fe' Hr) as (H1 & H2 & H3 & H4).
  split; [exact H1|]. split; [exact H2|]. split; [exact H3|]. split; [exact H4|].
  intros Hstop Hne. subst run. destruct infos as [|info rest]; [congruence|].
  simpl main.edit_loop in Hr |- *. rewrite Hstop in Hr |- *.
  simpl in Hr. injection Hr as <- <-. auto.
Qed.

Lemma edit_loop_counts_every_item_once_witness :
  let infos := [scraper.VideoInfo "7301000000000000001" "videos/7301000000000000001.mp4";
                scraper.VideoInfo "7301000000000000002" "videos/7301000000000000002.mp4"] in
  fst (main.edit_loop env_second_transcode_fails 2 0 infos 0 0 world_two_downloads)
  = Ok (1%nat, 1%nat)
  /\ (1 + 1 = 0 + 0 + 2)%nat.
Proof.
  intros infos.
  assert (Hr : fst (main.edit_loop env_second_transcode_fails 2 0 infos 0 0 world_two_downloads)
               = Ok (1%nat, 1%nat)) by (vm_compute; reflexivity).
  split; [exact Hr|].
  destruct (edit_loop_counts_every_item_once env_second_transcode_fails 2 0 infos 0 0 1 1
              world_two_downloads Hr) as (_ & _ & _ & H & _).
  apply H. reflexivity.
Defined.

(** The metadata that tiktok-scraper gives for a video: JSON data. *)
Inductive pydata :=
| DNone
| DBool (b : bool)
| DInt (z : Z)
| DText (s : string)
| DList (items : list pydata)
| DDict (items : gmap string pydata).

Module PyData.

(** [bool(v)] *)
Definition truthy (v : pydata) : bool :=
  match v with
  | DNone => false
  | DBool b => b
  | DInt z => negb (z =? 0)
  | DText s => PyStr.truthy s
  | DList items => match items with [] => false | _ => true end
  | DDict items => negb (bool_decide (items = ∅))
  end.

(** [type(v).__name__] *)
Definition type_name (v : pydata) : string :=
  match v with
  | DNone => "NoneType"
  | DBool _ => "bool"
  | DInt _ => "int"
  | DText _ => "str"
  | DList _ => "list"
  | DDict _ => "dict"
  end.

(** [str(v)]; the text of a list or of a dictionary is given by [repr]. *)
Definition str (repr : pydata -> string) (v : pydata) : string :=
  match v with
  | DNone => "None"
  | DBool true => "True"
  | DBool false => "False"
  | DInt z => PyStr.show_Z z
  | DText s => s
  | _ => repr v
  end.

(** [value[part]] for a string [part]; [None] stands for the [KeyError] of
    a dictionary without the key and for the [TypeError] of any other
    value. *)
Definition subscript (value : pydata) (part : string) : option pydata :=
  match value with
  | DDict items => items !! part
  | _ => None
  end.

End PyData.

Module meta.

(** [str(video_data)[:200]] *)
Definition first_200 (s : string) : string := String.substring 0 200 s.

(** Lines 297-303: a key with a dot is followed part by part; [None] when
    a part is missing, when a value on the way cannot be subscripted, or
    when the value found is falsy. *)
Definition nested_value (video_data : pydata) (parts : list string) : option pydata :=
  match foldl (fun value part => value ≫= fun v => PyData.subscript v part)
              (Some video_data) parts with
  | Some value => if PyData.truthy value then Some value else None
  | None => None
  end.

(** Lines 304-305: [isinstance(video_data, dict) and video_data.get(key)] *)
Definition flat_value (video_data : pydata) (key : string) : option pydata :=
  match video_data with
  | DDict items =>
      match items !! key with
      | Some value => if PyData.truthy value then Some value else None
      | None => None
      end
  | _ => None
  end.

(** Lines 295-305: one key of [possible_id_keys]. *)
Definition key_value (video_data : pydata) (key : string) : option pydata :=
  if PyStr.contains_char "."%char key
  then nested_value video_data (PyStr.split "."%char key)
  else flat_value video_data key.

Definition possible_id_keys : list string := ["id"; "itemId"; "video_id"; "itemInfos.id"].

(** Lines 308-309: [video_data.get('video', {}).get('id')] for a dictionary;
    the second [get] raises on a value that is not a dictionary. *)
Definition video_id_value (items : gmap string pydata) : res (option pydata) :=
  match default (DDict ∅) (items !! "video") with
  | DDict inner =>
      Ok (match inner !! "id" with
          | Some value => if PyData.truthy value then Some value else None
          | None => None
          end)
  | other =>
      Raise (Exn OtherException
               ("AttributeError: '" +:+ PyData.type_name other
                +:+ "' object has no attribute 'get'"))
  end.

Definition get_video_id_from_metadata (repr : pydata -> string) (video_data : pydata)
    : M (option string) :=
  if negb (PyData.truthy video_data) then ret None
  else
    match omap (key_value video_data) possible_id_keys with
    | value :: _ => ret (Some (PyData.str repr value))
    | [] =>
        let* fallback :=
          (match video_data with
           | DDict items => lift (video_id_value items)
           | _ => ret None
           end) in
        match fallback with
        | Some value => ret (Some (PyData.str repr value))
        | None =>
            scraper._log ("Could not extract video ID from metadata structure: "
                          +:+ first_200 (PyData.str repr video_data) +:+ "...")
              "WARNING" false ;;
            ret None
        end
    end.

End meta.

(** ** The id in the metadata *)

Section Metadata.

Import meta.

Variable repr : pydata -> string.

(** The value under [key] in a dictionary, when it is truthy. *)
Definition truthy_at (items : gmap string pydata) (key : string) : option pydata :=
  match items !! key with
  | Some value => if PyData.truthy value then Some value else None
  | None => None
  end.

(** The value under "itemInfos" and then "id", when it is truthy. *)
Definition truthy_at_item_infos (items : gmap string pydata) : option pydata :=
  match items !! "itemInfos" with
  | Some (DDict inner) => truthy_at inner "id"
  | _ => None
  end.

Lemma key_values_of_dict (items : gmap string pydata) :
  omap (key_value (DDict items)) possible_id_keys
  = omap id [truthy_at items "id"; truthy_at items "itemId"; truthy_at items "video_id";
             truthy_at_item_infos items].
Proof.
  unfold possible_id_keys. cbn [omap list_omap].
  change (key_value (DDict items) "id") with (truthy_at items "id").
  change (key_value (DDict items) "itemId") with (truthy_at items "itemId").
  change (key_value (DDict items) "video_id") with (truthy_at items "video_id").
  assert (H : key_value (DDict items) "itemInfos.id" = truthy_at_item_infos items).
  { unfold key_value, nested_value, truthy_at_item_infos, truthy_at.
    change (PyStr.contains_char "." "itemInfos.id") with true.
    change (PyStr.split "." "itemInfos.id") with ["itemInfos"; "id"].
    cbn [foldl mbind option_bind PyData.subscript].
    destruct (items !! "itemInfos") as [[| | | | |inner]|]; cbn; reflexivity. }
  rewrite H. reflexivity.
Qed.

Lemma key_values_of_other (video_data : pydata) :
  (forall items, video_data <> DDict items) ->
  omap (key_value video_data) possible_id_keys = [].
Proof.
  intros Hn. destruct video_data; try reflexivity. exfalso. exact (Hn _ eq_refl).
Qed.

(** What [get_video_id_from_metadata] comes to on a dictionary. *)
Lemma get_video_id_from_metadata_dict (items : gmap string pydata) (w : world) :
  items <> ∅ ->
  get_video_id_from_metadata repr (DDict items) w
  = match omap id [truthy_at items "id"; truthy_at items "itemId";
                   truthy_at items "video_id"; truthy_at_item_infos items] with
    | value :: _ => (Ok (Some (PyData.str repr value)), w)
    | [] =>
        match video_id_value items with
        | Ok (Some value) => (Ok (Some (PyData.str repr value)), w)
        | Ok None =>
            (Ok None,
             add_event (EvPrint ("[WARNING] Could not extract video ID from metadata structure: "
                                 +:+ first_200 (repr (DDict items)) +:+ "...")) w)
        | Raise e => (Raise e, w)
        end
    end.
Proof.
  intros Hne. unfold get_video_id_from_metadata.
  assert (Ht : PyData.truthy (DDict items) = true).
  { cbn [PyData.truthy]. rewrite bool_decide_eq_false_2 by exact Hne. reflexivity. }
  rewrite Ht. cbn [negb]. rewrite key_values_of_dict.
  destruct (omap id _) as [|value rest]; [|reflexivity].
  unfold bind, lift. destruct (video_id_value items) as [[value|]|e]; reflexivity.
Qed.

(** What it comes to on a value that is not a dictionary. *)
Lemma get_video_id_from_metadata_other (video_data : pydata) (w : world) :
  (forall items, video_data <> DDict items) ->
  get_video_id_from_metadata repr video_data w
  = if PyData.truthy video_data
    then (Ok None,
          add_event (EvPrint ("[WARNING] Could not extract video ID from metadata structure: "
                              +:+ first_200 (PyData.str repr video_data) +:+ "...")) w)
    else (Ok None, w).
Proof.
  intros Hn. unfold get_video_id_from_metadata.
  destruct (PyData.truthy video_data); [|reflexivity]. cbn [negb].
  rewrite (key_values_of_other _ Hn).
  destruct video_data; try reflexivity. exfalso. exact (Hn _ eq_refl).
Qed.

End Metadata.

(** X20.  In a dictionary of metadata, [get_video_id_from_metadata] takes
    the value under "id" whenever it is truthy, whatever the other keys
    hold; a value that is missing or falsy (0, the empty string, None) is
    passed over for the next key, "itemId"; and any result it gives is
    [str] of a truthy value found under one of id, itemId, video_id,
    itemInfos.id and video.id, with nothing printed. *)
Theorem metadata_id_comes_from_the_first_truthy_key (repr : pydata -> string)
    (items : gmap string pydata) (w : world) :
  let run := meta.get_video_id_from_metadata repr (DDict items) w in
  (forall value, items !! "id" = Some value -> PyData.truthy value = true ->
     run = (Ok (Some (PyData.str repr value)), w))
  /\ (forall value, truthy_at items "id" = None ->
        items !! "itemId" = Some value -> PyData.truthy value = true ->
        run = (Ok (Some (PyData.str repr value)), w))
  /\ (forall s, fst run = Ok (Some s) ->
        snd run = w
        /\ exists value,
             s = PyData.str repr value /\ PyData.truthy value = true
             /\ (items !! "id" = Some value \/ items !! "itemId" = Some value
                 \/ items !! "video_id" = Some value
                 \/ (exists inner, items !! "itemInfos" = Some (DDict inner)
                                   /\ inner !! "id" = Some value)
                 \/ (exists inner, items !! "video" = Some (DDict inner)
                                   /\ inner !! "id" = Some value))).
Proof.
  intros run. subst run.
  assert (Hat : forall d key value, truthy_at d key = Some value ->
                  d !! key = Some value /\ PyData.truthy value = true).
  { intros d key value. unfold truthy_at. destruct (d !! key) as [v|]; [|discriminate].
    destruct (PyData.truthy v) eqn:Hv; [|discriminate]. intros [= <-]. auto. }
  split; [|split].
  - intros value Hid Ht.
    assert (Hne : items <> ∅) by (intros ->; rewrite lookup_empty in Hid; discriminate Hid).
    rewrite (get_video_id_from_metadata_dict repr items w Hne).
    unfold truthy_at at 1. rewrite Hid, Ht. reflexivity.
  - intros value Hid Hitem Ht.
    assert (Hne : items <> ∅) by (intros ->; rewrite lookup_empty in Hitem; discriminate Hitem).
    rewrite (get_video_id_from_metadata_dict repr items w Hne), Hid.
    unfold truthy_at at 1. rewrite Hitem, Ht. reflexivity.
  - intros s.
    destruct (decide (items = ∅)) as [-> | Hne]; [discriminate|].
    rewrite (get_video_id_from_metadata_dict repr items w Hne).
    destruct (truthy_at items "id") as [v|] eqn:H1.
    { cbn. intros [= <-]. split; [reflexivity|]. exists v.
      destruct (Hat _ _ _ H1). split; [reflexivity|]. split; [assumption|]. left. assumption. }
    destruct (truthy_at items "itemId") as [v|] eqn:H2.
    { cbn. intros [= <-]. split; [reflexivity|]. exists v.
      destruct (Hat _ _ _ H2). split; [reflexivity|]. split; [assumption|].
      right. left. assumption. }
    destruct (truthy_at items "video_id") as [v|] eqn:H3.
    { cbn. intros [= <-]. split; [reflexivity|]. exists v.
      destruct (Hat _ _ _ H3). split; [reflexivity|]. split; [assumption|].
      right. right. left. assumption. }
    destruct (truthy_at_item_infos items) as [v|] eqn:H4.
    { cbn. intros [= <-]. split; [reflexivity|]. exists v.
      unfold truthy_at_item_infos in H4.
      destruct (items !! "itemInfos") as [[| | | | |inner]|] eqn:Hinfo; try discriminate H4.
      destruct (Hat _ _ _ H4). split; [reflexivity|]. split; [assumption|].
      right. right. right. left. exists inner. auto. }
    cbn [omap list_omap id]. unfold meta.video_id_value.
    destruct (items !! "video") as [[| | | | |inner]|] eqn:Hvideo; cbn; try discriminate.
    destruct (inner !! "id") as [v|] eqn:Hv; [|discriminate].
    destruct (PyData.truthy v) eqn:Htv; [|discriminate].
      intros [= <-]. split; [reflexivity|]. exists v. split; [reflexivity|]. split; [exact Htv|].
      right. right. right. right. exists inner. auto.
Qed.

Lemma metadata_id_comes_from_the_first_truthy_key_witness :
  meta.get_video_id_from_metadata (fun _ => "{...}")
    (DDict (<["id" := DInt 0]> (<["itemId" := DText "7301000000000000001"]> ∅))) (World ∅ [])
  = (Ok (Some "7301000000000000001"), World ∅ []).
Proof.
  apply (proj1 (proj2 (metadata_id_comes_from_the_first_truthy_key (fun _ => "{...}")
           (<["id" := DInt 0]> (<["itemId" := DText "7301000000000000001"]> ∅)) (World ∅ [])))
           (DText "7301000000000000001")).
  - vm_compute. reflexivity.
  - vm_compute. reflexivity.
  - reflexivity.
Defined.

(** X21.  [get_video_id_from_metadata] returns nothing, printing nothing,
    for falsy metadata, and returns nothing after printing a warning for
    any other value that is not a dictionary; but for a dictionary with no
    truthy value under id, itemId, video_id and itemInfos.id in which
    "video" is bound to something that is not a dictionary, the call of
    [get] on that value raises [AttributeError], which nothing catches. *)
Theorem metadata_with_a_video_that_is_no_dict_raises (repr : pydata -> string)
    (video_data : pydata) (w : world) :
  let run := meta.get_video_id_from_metadata repr video_data w in
  (PyData.truthy video_data = false -> run = (Ok None, w))
  /\ ((forall items, video_data <> DDict items) ->
      PyData.truthy video_data = true ->
      run = (Ok None,
             add_event (EvPrint ("[WARNING] Could not extract video ID from metadata structure: "
                                 +:+ meta.first_200 (PyData.str repr video_data) +:+ "..."))
               w))
  /\ (forall items other,
        video_data = DDict items ->
        truthy_at items "id" = None -> truthy_at items "itemId" = None ->
        truthy_at items "video_id" = None -> truthy_at_item_infos items = None ->
        items !! "video" = Some other ->
        (forall inner, other <> DDict inner) ->
        run = (Raise (Exn OtherException
                        ("AttributeError: '" +:+ PyData.type_name other
                         +:+ "' object has no attribute 'get'")), w)).
Proof.
  intros run. subst run. split; [|split].
  - intros Ht. unfold meta.get_video_id_from_metadata. rewrite Ht. reflexivity.
  - intros Hn Ht. rewrite (get_video_id_from_metadata_other repr _ w Hn), Ht. reflexivity.
  - intros items other -> H1 H2 H3 H4 Hvideo Hother.
    assert (Hne : items <> ∅) by (intros ->; rewrite lookup_empty in Hvideo; discriminate Hvideo).
    rewrite (get_video_id_from_metadata_dict repr items w Hne), H1, H2, H3, H4.
    cbn [omap list_omap id]. unfold meta.video_id_value. rewrite Hvideo. cbn [default].
    destruct other; try reflexivity. exfalso. exact (Hother _ eq_refl).
Qed.

Lemma metadata_with_a_video_that_is_no_dict_raises_witness :
  meta.get_video_id_from_metadata (fun _ => "{...}")
    (DDict (<["video" := DText "7301000000000000001"]> ∅)) (World ∅ [])
  = (Raise (Exn OtherException "AttributeError: 'str' object has no attribute 'get'"),
     World ∅ []).
Proof.
  apply (proj2 (proj2 (metadata_with_a_video_that_is_no_dict_raises (fun _ => "{...}")
           (DDict (<["video" := DText "7301000000000000001"]> ∅)) (World ∅ [])))
           (<["video" := DText "7301000000000000001"]> ∅) (DText "7301000000000000001"));
    try (vm_compute; reflexivity); try reflexivity.
  intros inner H. discriminate H.
Defined.

(** ** The window: starting a run and reading the queue *)

(** What the progress bar is set to: the literals 0 and 1, or the quotient
    the worker has put on the queue. *)
Inductive bar_value := BarEmpty | BarFull | BarFraction (done total : nat).

(** The calls that [start_scraping_thread] and [process_log_queue] make on
    the widgets, the message boxes, the stop event and the thread library,
    in the order of the calls.  [log_message], which stamps a line with the
    time of the clock and writes it in the text box, is kept as one call. *)
Inductive gui_call :=
| LogMessage (message level : string)      (* self.log_message(message, level) *)
| ShowWarning (title text : string)        (* messagebox.showwarning *)
| ShowError (title text : string)          (* messagebox.showerror *)
| ShowInfo (title text : string)           (* messagebox.showinfo *)
| StatusText (text : string)               (* self.status_label.configure(text=...) *)
| StartButton (enabled : bool) (text : string)  (* self.start_button.configure(...) *)
| ProgressSet (value : bar_value)          (* self.progress_bar.set(...) *)
| StopEventClear                           (* self.stop_event.clear() *)
| ThreadStart (hashtag : string) (num_videos : Z)  (* Thread(target=self.scraping_worker, ...).start() *)
| After (ms : nat).                        (* self.after(ms, self.process_log_queue) *)

(** The part of the window the two methods read and write: the flag, the
    text of the two entries, and the queue, oldest message first. *)
Record app_state := AppState {
  is_scraping : bool;
  hashtag_entry : string;
  num_videos_entry : string;
  log_queue : list qmsg
}.

Definition set_is_scraping (b : bool) (self : app_state) : app_state :=
  AppState b (hashtag_entry self) (num_videos_entry self) (log_queue self).

Definition set_log_queue (q : list qmsg) (self : app_state) : app_state :=
  AppState (is_scraping self) (hashtag_entry self) (num_videos_entry self) q.

Module App.

Definition START_TEXT : string := "Start Scraping & Editing".

(** Lines 142-178.  The calls on the widgets are taken not to raise. *)
Definition start_scraping_thread (self : app_state) : app_state * list gui_call :=
  if is_scraping self then
    (self, [LogMessage "Process already running." "WARNING";
            ShowWarning "Busy" "A scraping and editing process is already running."])
  else
    let hashtag := PyStr.strip (hashtag_entry self) in
    if negb (PyStr.truthy hashtag) then
      (self, [LogMessage "Hashtag cannot be empty." "ERROR";
              ShowError "Invalid Input" "Please enter a hashtag."])
    else if PyStr.contains_char "#"%char hashtag then
      (self, [LogMessage "Please enter the hashtag without the '#' symbol." "ERROR";
              ShowError "Invalid Input" "Please enter the hashtag without the '#' symbol."])
    else
      match PyStr.int_of_string (num_videos_entry self) with
      | Some num_videos =>
          if num_videos <=? 0 then
            (self, [LogMessage "Number of videos must be a positive integer." "ERROR";
                    ShowError "Invalid Input" "Please enter a positive number of videos."])
          else
            (set_is_scraping true self,
             [StopEventClear;
              StartButton false "Processing...";
              ProgressSet BarEmpty;
              StatusText ("Starting process for hashtag: " +:+ hashtag +:+ "...");
              LogMessage ("Starting process for hashtag '" +:+ hashtag +:+ "' to find "
                          +:+ PyStr.show_Z num_videos +:+ " new videos...") "INFO";
              ThreadStart hashtag num_videos])
      | None =>
          (self, [LogMessage "Invalid input for number of videos. Please enter an integer."
                    "ERROR";
                  ShowError "Invalid Input" "Number of videos must be an integer."])
      end.

(** Lines 104-131: the [while True] loop over [get_nowait]; it ends on
    [queue.Empty] or at the [break] after a terminal message.  The result
    is the calls made, what is left in the queue, and the flag. *)
Fixpoint queue_loop (queue : list qmsg) (scraping : bool)
    : list gui_call * list qmsg * bool :=
  match queue with
  | [] => ([], [], scraping)
  | item :: rest =>
      match item with
      | LOG msg level =>
          let '(calls, remaining, flag) := queue_loop rest scraping in
          (LogMessage msg level :: calls, remaining, flag)
      | STATUS_UPDATE msg =>
          let '(calls, remaining, flag) := queue_loop rest scraping in
          (StatusText ("Status: " +:+ msg) :: calls, remaining, flag)
      | PROGRESS_UPDATE done total =>
          let '(calls, remaining, flag) := queue_loop rest scraping in
          (ProgressSet (BarFraction done total) :: calls, remaining, flag)
      | TASK_COMPLETE msg =>
          ([LogMessage msg "INFO";
            StatusText ("Status: " +:+ msg);
            StartButton true START_TEXT;
            ProgressSet BarFull;
            ShowInfo "Process Complete" msg], rest, false)
      | TASK_FAILED msg =>
          ([LogMessage msg "ERROR";
            StatusText ("Status: Failed - " +:+ msg);
            StartButton true START_TEXT;
            ShowError "Process Failed" msg], rest, false)
      end
  end.

(** Lines 101-140, with no message put while the method runs and no call
    on a widget raising; the [finally] clause schedules the next run. *)
Definition process_log_queue (self : app_state) : app_state * list gui_call :=
  let '(calls, remaining, flag) := queue_loop (log_queue self) (is_scraping self) in
  (set_is_scraping flag (set_log_queue remaining self), calls ++ [After 100%nat]).

End App.

(** ** Starting a run *)

(** The call is a message box. *)
Definition is_box (c : gui_call) : Prop :=
  match c with
  | ShowWarning _ _ | ShowError _ _ | ShowInfo _ _ => True
  | _ => False
  end.

(** The input on which [start_scraping_thread] starts the worker with the
    arguments [hashtag] and [num_videos]. *)
Definition starts_with (self : app_state) (hashtag : string) (num_videos : Z) : Prop :=
  is_scraping self = false
  /\ hashtag = PyStr.strip (hashtag_entry self)
  /\ hashtag <> ""
  /\ PyStr.contains_char "#"%char hashtag = false
  /\ PyStr.int_of_string (num_videos_entry self) = Some num_videos
  /\ 0 < num_videos.

(** The calls of a refusal: one line in the log, then one message box. *)
Definition refusal (calls : list gui_call) : Prop :=
  exists message level box,
    calls = [LogMessage message level; box] /\ is_box box
    /\ (level = "WARNING" \/ level = "ERROR").

Lemma truthy_not_empty (s : string) : PyStr.truthy s = true <-> s <> "".
Proof. destruct s; cbn; split; congruence. Qed.

Lemma start_scraping_thread_cases (self : app_state) :
  (exists hashtag num_videos,
     starts_with self hashtag num_videos
     /\ App.start_scraping_thread self
        = (set_is_scraping true self,
           [StopEventClear;
            StartButton false "Processing...";
            ProgressSet BarEmpty;
            StatusText ("Starting process for hashtag: " +:+ hashtag +:+ "...");
            LogMessage ("Starting process for hashtag '" +:+ hashtag +:+ "' to find "
                        +:+ PyStr.show_Z num_videos +:+ " new videos...") "INFO";
            ThreadStart hashtag num_videos]))
  \/ ((forall hashtag num_videos, ~ starts_with self hashtag num_videos)
      /\ fst (App.start_scraping_thread self) = self
      /\ refusal (snd (App.start_scraping_thread self))).
Proof.
  unfold App.start_scraping_thread.
  destruct (is_scraping self) eqn:Hbusy.
  { right. split; [|split; [reflexivity|]].
    - intros h n (H & _). congruence.
    - do 3 eexists. split; [reflexivity|]. split; [exact I | left; reflexivity]. }
  cbv zeta.
  destruct (PyStr.truthy (PyStr.strip (hashtag_entry self))) eqn:Hh; cbn [negb].
  2:{ right. split; [|split; [reflexivity|]].
      - intros h n (_ & -> & Hne & _). apply truthy_not_empty in Hne. congruence.
      - do 3 eexists. split; [reflexivity|]. split; [exact I | right; reflexivity]. }
  destruct (PyStr.contains_char "#" (PyStr.strip (hashtag_entry self))) eqn:Hsharp.
  { right. split; [|split; [reflexivity|]].
    - intros h n (_ & -> & _ & Hc & _). congruence.
    - do 3 eexists. split; [reflexivity|]. split; [exact I | right; reflexivity]. }
  destruct (PyStr.int_of_string (num_videos_entry self)) as [n|] eqn:Hint.
  2:{ right. split; [|split; [reflexivity|]].
      - intros h n (_ & _ & _ & _ & Hn & _). congruence.
      - do 3 eexists. split; [reflexivity|]. split; [exact I | right; reflexivity]. }
  destruct (Z.leb_spec n 0) as [Hle | Hlt].
  { right. split; [|split; [reflexivity|]].
    - intros h m (_ & _ & _ & _ & Hn & Hpos). assert (m = n) by congruence. lia.
    - do 3 eexists. split; [reflexivity|]. split; [exact I | right; reflexivity]. }
  left. exists (PyStr.strip (hashtag_entry self)), n. split; [|reflexivity].
  repeat split; try assumption. apply truthy_not_empty. exact Hh.
Qed.

(** ** Reading the queue *)

Definition terminal_message (m : qmsg) : bool :=
  match m with
  | TASK_COMPLETE _ | TASK_FAILED _ => true
  | _ => false
  end.

Lemma terminal_message_spec (m : qmsg) : terminal_message m = true <-> is_terminal m.
Proof. destruct m; cbn; intuition congruence. Qed.

(** The calls that [process_log_queue] makes for one message. *)
Definition calls_for (m : qmsg) : list gui_call :=
  match m with
  | LOG msg level => [LogMessage msg level]
  | STATUS_UPDATE msg => [StatusText ("Status: " +:+ msg)]
  | PROGRESS_UPDATE done total => [ProgressSet (BarFraction done total)]
  | TASK_COMPLETE msg =>
      [LogMessage msg "INFO"; StatusText ("Status: " +:+ msg);
       StartButton true App.START_TEXT; ProgressSet BarFull;
       ShowInfo "Process Complete" msg]
  | TASK_FAILED msg =>
      [LogMessage msg "ERROR"; StatusText ("Status: Failed - " +:+ msg);
       StartButton true App.START_TEXT; ShowError "Process Failed" msg]
  end.

Lemma queue_loop_no_terminal (queue : list qmsg) (scraping : bool) :
  forallb (fun m => negb (terminal_message m)) queue = true ->
  App.queue_loop queue scraping = (concat (map calls_for queue), [], scraping).
Proof.
  induction queue as [|m queue IH]; [reflexivity|].
  cbn [forallb]. intros [Hm Hq]%andb_true_iff.
  destruct m; cbn in Hm; try discriminate Hm; cbn [App.queue_loop];
    rewrite (IH Hq); reflexivity.
Qed.

Lemma queue_loop_terminal (before : list qmsg) (last : qmsg) (rest : list qmsg)
    (scraping : bool) :
  forallb (fun m => negb (terminal_message m)) before = true ->
  terminal_message last = true ->
  App.queue_loop (before ++ last :: rest) scraping
  = (concat (map calls_for (before ++ [last])), rest, false).
Proof.
  intros Hb Hl. induction before as [|m before IH].
  - destruct last; cbn in Hl; try discriminate Hl; reflexivity.
  - cbn [forallb] in Hb. apply andb_true_iff in Hb as [Hm Hq].
    destruct m; cbn in Hm; try discriminate Hm; cbn [App.queue_loop List.app];
      rewrite (IH Hq); reflexivity.
Qed.

Lemma no_box_for (m : qmsg) : terminal_message m = false -> Forall (fun c => ~ is_box c) (calls_for m).
Proof.
  destruct m; cbn; try discriminate; intros _; repeat constructor; intros [].
Qed.

(** The messages that the events of a trace have put on the queue. *)
Definition queued (events : list event) : list qmsg :=
  omap (fun e => match e with EvPut m => Some m | _ => None end) events.

Lemma queued_app (l1 l2 : list event) : queued (l1 ++ l2) = queued l1 ++ queued l2.
Proof. apply omap_app. Qed.

Lemma queued_not_terminal (events : list event) :
  Forall not_terminal events ->
  forallb (fun m => negb (terminal_message m)) (queued events) = true.
Proof.
  induction 1 as [|e events He _ IH]; [reflexivity|].
  destruct e as [m| | | |]; try exact IH.
  change (queued (EvPut m :: events)) with (m :: queued events).
  cbn [forallb]. rewrite IH, andb_true_r.
  destruct m; cbn in He |- *; try reflexivity; destruct He.
Qed.

Lemma queue_loop_of_run (old : list qmsg) (before : list event) (last : qmsg)
    (tail : list qmsg) (scraping : bool) :
  forallb (fun m => negb (terminal_message m)) old = true ->
  Forall not_terminal before -> is_terminal last ->
  App.queue_loop (old ++ queued (before ++ EvPut last :: map EvPut tail)) scraping
  = (concat (map calls_for (old ++ queued before ++ [last])), tail, false).
Proof.
  intros Hold Hbefore Hlast.
  assert (Htail : queued (map EvPut tail) = tail).
  { induction tail as [|m tail IH]; [reflexivity|]. cbn. f_equal. exact IH. }
  rewrite queued_app.
  change (queued (EvPut last :: map EvPut tail)) with (last :: queued (map EvPut tail)).
  rewrite Htail, !app_assoc.
  rewrite (queue_loop_terminal (old ++ queued before) last tail scraping).
  - rewrite <- !app_assoc. reflexivity.
  - rewrite forallb_app, Hold. cbn [andb]. apply queued_not_terminal, Hbefore.
  - apply terminal_message_spec, Hlast.
Qed.

Lemma quiet_calls (queue : list qmsg) :
  forallb (fun m => negb (terminal_message m)) queue = true ->
  Forall (fun c => ~ is_box c) (concat (map calls_for queue)).
Proof.
  induction queue as [|m queue IH]; [constructor|].
  cbn [forallb map concat]. intros [Hm Hq]%andb_true_iff.
  apply Forall_app. split; [|exact (IH Hq)].
  apply no_box_for. destruct (terminal_message m); [discriminate Hm | reflexivity].
Qed.

Lemma terminal_calls (last : qmsg) :
  is_terminal last ->
  exists quiet box,
    calls_for last = quiet ++ [box]
    /\ Forall (fun c => ~ is_box c) quiet /\ is_box box
    /\ In (StartButton true App.START_TEXT) quiet.
Proof.
  destruct last as [| | |msg|msg]; cbn [is_terminal]; intros H; try destruct H.
  - exists [LogMessage msg "INFO"; StatusText ("Status: " +:+ msg);
            StartButton true App.START_TEXT; ProgressSet BarFull],
           (ShowInfo "Process Complete" msg).
    split; [reflexivity|]. split; [|split; [exact I|]].
    + repeat constructor; intros [].
    + cbn. auto.
  - exists [LogMessage msg "ERROR"; StatusText ("Status: Failed - " +:+ msg);
            StartButton true App.START_TEXT],
           (ShowError "Process Failed" msg).
    split; [reflexivity|]. split; [|split; [exact I|]].
    + repeat constructor; intros [].
    + cbn. auto.
Qed.



(** X23.  [process_log_queue] handles the messages of the queue from the
    oldest on and stops after the first [TASK_COMPLETE] or [TASK_FAILED]:
    the messages behind it stay in the queue for the next run of the
    method, and the flag [is_scraping] is cleared.  Without such a message
    the whole queue is handled and the flag is left as it is.  In both
    cases the last call schedules the method again, after 100 ms. *)
Theorem queue_is_read_up_to_the_terminal_message (self : app_state) :
  let run := App.process_log_queue self in
  (forall before last rest,
     log_queue self = before ++ last :: rest ->
     Forall (fun m => ~ is_terminal m) before -> is_terminal last ->
     run = (AppState false (hashtag_entry self) (num_videos_entry self) rest,
            concat (map calls_for (before ++ [last])) ++ [After 100%nat]))
  /\ (Forall (fun m => ~ is_terminal m) (log_queue self) ->
      run = (set_log_queue [] self,
             concat (map calls_for (log_queue self)) ++ [After 100%nat])
      /\ Forall (fun c => ~ is_box c) (snd run)).
Proof.
  assert (Hb : forall l, Forall (fun m => ~ is_terminal m) l ->
                 forallb (fun m => negb (terminal_message m)) l = true).
  { intros l Hl. apply forallb_forall. intros m Hm.
    rewrite List.Forall_forall in Hl. specialize (Hl m Hm).
    destruct (terminal_message m) eqn:Ht; [|reflexivity].
    apply terminal_message_spec in Ht. contradiction. }
  intros run. subst run. unfold App.process_log_queue. split.
  - intros before last rest Hq Hbefore Hlast. rewrite Hq.
    rewrite (queue_loop_terminal before last rest (is_scraping self) (Hb _ Hbefore));
      [reflexivity|]. apply terminal_message_spec, Hlast.
  - intros Hall. rewrite (queue_loop_no_terminal _ (is_scraping self) (Hb _ Hall)).
    split; [destruct self; reflexivity|].
    cbn [snd]. apply Forall_app. split; [apply quiet_calls, Hb, Hall|].
    repeat constructor. intros [].
Qed.

Lemma queue_is_read_up_to_the_terminal_message_witness :
  App.process_log_queue
    (AppState true "funnycats" "3"
       [STATUS_UPDATE "Editing"; TASK_FAILED "No videos";
        LOG "Scraping and editing worker thread finished." "DEBUG"])
  = (AppState false "funnycats" "3"
       [LOG "Scraping and editing worker thread finished." "DEBUG"],
     [StatusText "Status: Editing"; LogMessage "No videos" "ERROR";
      StatusText "Status: Failed - No videos"; StartButton true App.START_TEXT;
      ShowError "Process Failed" "No videos"; After 100%nat]).
Proof.
  apply (proj1 (queue_is_read_up_to_the_terminal_message
                  (AppState true "funnycats" "3"
                     [STATUS_UPDATE "Editing"; TASK_FAILED "No videos";
                      LOG "Scraping and editing worker thread finished." "DEBUG"]))
           [STATUS_UPDATE "Editing"] (TASK_FAILED "No videos")
           [LOG "Scraping and editing worker thread finished." "DEBUG"]).
  - reflexivity.
  - repeat constructor. intros [].
  - exact I.
Defined.

(** X24.  When the worker has run, whatever it met, the next run of
    [process_log_queue] on the messages it has put (behind older messages
    that end no task) clears [is_scraping], enables the start button again
    and shows exactly one message box, as its last call before it schedules
    itself; only the last debug line of the worker is left in the queue,
    and the run after that writes it in the log with no message box. *)
Theorem finished_run_gives_the_window_back (E : env) (hashtag : string) (N : Z)
    (w : world) (self : app_state) (old : list qmsg) :
  let w' := snd (main.scraping_worker E hashtag N w) in
  Forall (fun m => ~ is_terminal m) old ->
  log_queue self = old ++ queued (drop (length (trace w)) (trace w')) ->
  let first := App.process_log_queue self in
  let second := App.process_log_queue (fst first) in
  fst first
  = AppState false (hashtag_entry self) (num_videos_entry self)
      [LOG "Scraping and editing worker thread finished." "DEBUG"]
  /\ (exists quiet box,
        snd first = quiet ++ [box; After 100%nat]
        /\ Forall (fun c => ~ is_box c) quiet /\ is_box box
        /\ In (StartButton true App.START_TEXT) quiet)
  /\ second
     = (AppState false (hashtag_entry self) (num_videos_entry self) [],
        [LogMessage "Scraping and editing worker thread finished." "DEBUG"; After 100%nat]).
Proof.
  intros w' Hold Hq first second.
  assert (Hb : forallb (fun m => negb (terminal_message m)) old = true).
  { apply forallb_forall. intros m Hm.
    rewrite List.Forall_forall in Hold. specialize (Hold m Hm).
    destruct (terminal_message m) eqn:Ht; [|reflexivity].
    apply terminal_message_spec in Ht. contradiction. }
  destruct (scraping_worker_ends E hashtag N w) as (_ & before & last & Ht & Hlast & Hbefore).
  fold w' in Ht. rewrite Ht, drop_app_length in Hq.
  assert (Hfirst : first
    = (AppState false (hashtag_entry self) (num_videos_entry self)
         [LOG "Scraping and editing worker thread finished." "DEBUG"],
       concat (map calls_for (old ++ queued before ++ [last])) ++ [After 100%nat])).
  { subst first. unfold App.process_log_queue. rewrite Hq.
    pose proof (queue_loop_of_run old before last
                  [LOG "Scraping and editing worker thread finished." "DEBUG"]
                  (is_scraping self) Hb Hbefore Hlast) as Hrun.
    cbn [map] in Hrun. rewrite Hrun. reflexivity. }
  subst second. rewrite Hfirst. cbn [fst snd]. split; [reflexivity|]. split; [|reflexivity].
  destruct (terminal_calls last Hlast) as (quiet & box & Hcalls & Hquiet & Hbox & Hbutton).
  exists (concat (map calls_for (old ++ queued before)) ++ quiet), box.
  split; [|split; [|split; [exact Hbox|]]].
  - rewrite !app_assoc, map_app, concat_app. cbn [map concat]. rewrite Hcalls, app_nil_r.
    rewrite <- !app_assoc. reflexivity.
  - apply Forall_app. split; [|exact Hquiet].
    apply quiet_calls. rewrite forallb_app, Hb. cbn [andb].
    apply queued_not_terminal, Hbefore.
  - apply in_or_app. right. exact Hbutton.
Qed.

(** The messages of a run of the worker that finds, downloads and fails to
    edit one video. *)
Definition worker_messages : list qmsg :=
  Eval vm_compute in
    queued (trace (snd (main.scraping_worker env_downloads "funnycats" 1 (World ∅ [])))).

Lemma finished_run_gives_the_window_back_witness :
  fst (App.process_log_queue (AppState true "funnycats" "1" worker_messages))
  = AppState false "funnycats" "1"
      [LOG "Scraping and editing worker thread finished." "DEBUG"].
Proof.
  refine (proj1 (finished_run_gives_the_window_back env_downloads "funnycats" 1 (World ∅ [])
                   (AppState true "funnycats" "1" worker_messages) []
                   (List.Forall_nil _) _)).
  vm_compute. reflexivity.
Defined.
